(** * quiz-from-user-text: the template-merge transformation

    A shallow embedding of [quiz-from-user-text.py]: the extractor
    adapter [clean_and_parse_questions], the merge engine
    [build_questions_from_mc] and [create_h5p_from_template], and the
    result preview of the Streamlit page.

    Python objects live in a store: lists and dicts are mutable cells
    reached through references, so that [copy.deepcopy], item
    assignment and [list.append] mean what they mean in Python and
    aliasing between the template skeleton and the generated
    questions can be stated. *)

From Stdlib Require Import ZArith Floats.SpecFloat.
From stdpp Require Import base list strings pretty.

Set Warnings "-register-all".

Open Scope string_scope.
Open Scope list_scope.
Open Scope Z_scope.

(** ** Data model *)

(** A JSON document as a tree: what [json.loads] reads and what
    [json.dumps] writes.  Python keeps [int] and [float] apart. *)
Inductive json : Type :=
  | JNull
  | JBool (b : bool)
  | JInt (z : Z)
  | JFloat (f : spec_float)
  | JStr (s : string)
  | JArr (xs : list json)
  | JObj (kvs : list (string * json)).

(** Store locations: the identity of a mutable Python object. *)
Abbreviation loc := nat.

(** Python values.  [None], [bool], [int], [float] and [str] are
    immutable; lists and dicts are references into the store. *)
Inductive val : Type :=
  | VNone
  | VBool (b : bool)
  | VInt (z : Z)
  | VFloat (f : spec_float)
  | VStr (s : string)
  | VRef (l : loc).

(** A store cell.  A dict keeps its items in insertion order. *)
Inductive obj : Type :=
  | OList (vs : list val)
  | ODict (kvs : list (string * val)).

(** The store.  Allocation appends a cell; nothing is ever freed. *)
Abbreviation heap := (list obj).

(** Exceptions, by class. *)
Inductive exn : Type :=
  | KeyError
  | IndexError
  | TypeError
  | AttributeError
  | RecursionError
  | RuntimeError
  | JSONDecodeError
  | UnicodeDecodeError
  | UnicodeEncodeError
  | BadZipFile
  | SystemError.

Definition exn_name (e : exn) : string :=
  match e with
  | KeyError => "KeyError"
  | IndexError => "IndexError"
  | TypeError => "TypeError"
  | AttributeError => "AttributeError"
  | RecursionError => "RecursionError"
  | RuntimeError => "RuntimeError"
  | JSONDecodeError => "JSONDecodeError"
  | UnicodeDecodeError => "UnicodeDecodeError"
  | UnicodeEncodeError => "UnicodeEncodeError"
  | BadZipFile => "BadZipFile"
  | SystemError => "SystemError"
  end.

(** A computation returns a value or raises. *)
Inductive result (A : Type) : Type :=
  | Ok (a : A)
  | Raise (e : exn).
Arguments Ok {A} a.
Arguments Raise {A} e.

Abbreviation bytes := (list Byte.byte).

(** A member of an open [ZipFile]: its name and what [ZipFile.read]
    gives for it, the payload or an exception (bad CRC, unsupported
    compression, missing password). *)
Record zip_member : Type := ZipMember {
  zm_filename : string;
  zm_data : result bytes
}.

(** An archive opened for reading: [infolist()], in archive order. *)
Abbreviation zipfile := (list zip_member).

(** The interpreter state: the store, the number of tokens drawn from
    [uuid.uuid4] so far, and the file at [output_h5p_path], [None]
    while it does not exist, otherwise the entries written to it. *)
Record state : Type := State {
  st_heap : heap;
  st_uuid : nat;
  st_out : option (list (string * bytes))
}.

(** No object of the document repeats a key: a Python dict has each
    key once. *)
Fixpoint json_wf (j : json) : Prop :=
  match j with
  | JArr xs => foldr (fun x P => json_wf x /\ P) True xs
  | JObj kvs => NoDup (kvs.*1) /\ foldr (fun kv P => json_wf (kv.2) /\ P) True kvs
  | _ => True
  end.

(** Nesting depth of a document. *)
Fixpoint depth (j : json) : nat :=
  match j with
  | JArr xs => S (foldr (fun x n => Nat.max (depth x) n) O xs)
  | JObj kvs => S (foldr (fun kv n => Nat.max (depth (kv.2)) n) O kvs)
  | _ => O
  end.

(** Library functions the program calls, taken as they are specified. *)
Class Library : Type := {
  (** [json.loads]: raises [JSONDecodeError] on malformed text; the
      objects it returns are dicts. *)
  json_loads : string -> result json;
  json_loads_wf : forall s j, json_loads s = Ok j -> json_wf j;
  (** [json.dumps(_, ensure_ascii=False, indent=2)]. *)
  json_dumps : json -> string;
  (** [bytes.decode("utf-8")]: raises [UnicodeDecodeError]. *)
  utf8_decode : bytes -> result string;
  (** [str.encode("utf-8")]: raises [UnicodeEncodeError] on a text
      that holds a surrogate code point, as [json.loads] gives for an
      escape such as [\ud800] that has no partner. *)
  utf8_encode : string -> result bytes;
  (** [str(uuid.uuid4())]: the token of the [n]-th draw. *)
  uuid4 : nat -> string
}.

(** ** Dicts as ordered association lists *)

Fixpoint dict_lookup {A : Type} (k : string) (kvs : list (string * A)) : option A :=
  match kvs with
  | [] => None
  | (k', v) :: kvs => if String.eqb k k' then Some v else dict_lookup k kvs
  end.

(** [d[k] = v]: an existing key keeps its place, a new key goes last. *)
Fixpoint dict_set {A : Type} (k : string) (v : A) (kvs : list (string * A)) : list (string * A) :=
  match kvs with
  | [] => [(k, v)]
  | (k', v') :: kvs =>
      if String.eqb k k' then (k', v) :: kvs else (k', v') :: dict_set k v kvs
  end.

(** ** The exception and state monad *)

Definition M (A : Type) : Type := state -> result A * state.

Definition ret {A : Type} (a : A) : M A := fun s => (Ok a, s).

Definition raise {A : Type} (e : exn) : M A := fun s => (Raise e, s).

Definition bind {A B : Type} (m : M A) (f : A -> M B) : M B :=
  fun s =>
    match m s with
    | (Ok a, s') => f a s'
    | (Raise e, s') => (Raise e, s')
    end.

Notation "'do' x <- m ; k" := (bind m (fun x => k))
  (at level 10, x name, m at level 100, k at level 200).
Notation "'do' ' p <- m ; k" := (bind m (fun x => let 'p := x in k))
  (at level 10, p pattern, m at level 100, k at level 200).

(** An operation that only reads the store. *)
Definition reading {A : Type} (f : heap -> result A) : M A :=
  fun s => (f (st_heap s), s).

Definition set_heap (h : heap) (s : state) : state :=
  State h (st_uuid s) (st_out s).

(** Allocate a fresh object. *)
Definition alloc (o : obj) : M val :=
  fun s => (Ok (VRef (length (st_heap s))), set_heap (st_heap s ++ [o]) s).

(** [for x in xs: body x], stopping at the first exception. *)
Fixpoint for_each {A : Type} (xs : list A) (body : A -> M unit) : M unit :=
  match xs with
  | [] => ret tt
  | x :: xs => do _ <- body x; for_each xs body
  end.

(** [enumerate(xs, start)]. *)
Fixpoint enumerate {A : Type} (start : nat) (xs : list A) : list (nat * A) :=
  match xs with
  | [] => []
  | x :: xs => (start, x) :: enumerate (S start) xs
  end.

(** ** Python operations on values *)

Definition string_chars (s : string) : list string :=
  (fun c => String c EmptyString) <$> String.list_ascii_of_string s.

(** [v[k]] with a [str] key. *)
Definition py_getitem_str (v : val) (k : string) (h : heap) : result val :=
  match v with
  | VRef l =>
      match h !! l with
      | Some (ODict kvs) =>
          match dict_lookup k kvs with
          | Some x => Ok x
          | None => Raise KeyError
          end
      | Some (OList _) => Raise TypeError
      | None => Raise SystemError
      end
  | _ => Raise TypeError
  end.

(** [xs[i]] on a sequence of length [length xs], a negative index
    counting from the end. *)
Definition seq_index {A : Type} (xs : list A) (i : Z) : result A :=
  let n := Z.of_nat (length xs) in
  let i' := if i <? 0 then i + n else i in
  if (0 <=? i') && (i' <? n)
  then match xs !! Z.to_nat i' with Some x => Ok x | None => Raise IndexError end
  else Raise IndexError.

(** [v[i]] with an [int] index. *)
Definition py_getitem_int (v : val) (i : Z) (h : heap) : result val :=
  match v with
  | VRef l =>
      match h !! l with
      | Some (OList vs) => seq_index vs i
      | Some (ODict _) => Raise KeyError
      | None => Raise SystemError
      end
  | VStr s => seq_index (VStr <$> string_chars s) i
  | _ => Raise TypeError
  end.

(** [v.get(k, default)]: only a dict has the method. *)
Definition py_dict_get (v : val) (k : string) (default : val) (h : heap) : result val :=
  match v with
  | VRef l =>
      match h !! l with
      | Some (ODict kvs) =>
          match dict_lookup k kvs with
          | Some x => Ok x
          | None => Ok default
          end
      | Some (OList _) => Raise AttributeError
      | None => Raise SystemError
      end
  | _ => Raise AttributeError
  end.

(** The elements a [for] loop over [v] visits: the items of a list,
    the keys of a dict, the characters of a [str].  The loops of this
    program never write to the object they iterate over. *)
Definition py_iter (v : val) (h : heap) : result (list val) :=
  match v with
  | VRef l =>
      match h !! l with
      | Some (OList vs) => Ok vs
      | Some (ODict kvs) => Ok (VStr <$> kvs.*1)
      | None => Raise SystemError
      end
  | VStr s => Ok (VStr <$> string_chars s)
  | _ => Raise TypeError
  end.

(** [v[k] = x] with a [str] key. *)
Definition py_setitem_str (v : val) (k : string) (x : val) : M unit :=
  fun s =>
    match v with
    | VRef l =>
        match st_heap s !! l with
        | Some (ODict kvs) =>
            (Ok tt, set_heap (<[l := ODict (dict_set k x kvs)]> (st_heap s)) s)
        | Some (OList _) => (Raise TypeError, s)
        | None => (Raise SystemError, s)
        end
    | _ => (Raise TypeError, s)
    end.

(** [v.append(x)]. *)
Definition py_append (v : val) (x : val) : M unit :=
  fun s =>
    match v with
    | VRef l =>
        match st_heap s !! l with
        | Some (OList vs) =>
            (Ok tt, set_heap (<[l := OList (vs ++ [x])]> (st_heap s)) s)
        | Some (ODict _) => (Raise AttributeError, s)
        | None => (Raise SystemError, s)
        end
    | _ => (Raise AttributeError, s)
    end.

(** The integer a finite float equals, if any: Python compares [int]
    and [float] exactly. *)
Definition float_as_Z (f : spec_float) : option Z :=
  match f with
  | S754_zero _ => Some 0
  | S754_finite sg m e =>
      let mz := if sg then - Z.pos m else Z.pos m in
      if 0 <=? e then Some (mz * 2 ^ e)
      else if (Z.pos m) mod 2 ^ (- e) =? 0 then Some (mz / 2 ^ (- e))
      else None
  | _ => None
  end.

(** [i == v] for an [int] [i]: [True == 1], [2.0 == 2], and an [int]
    equals no [str], [None], list or dict. *)
Definition py_eq_int (i : Z) (v : val) : bool :=
  match v with
  | VInt z => i =? z
  | VBool b => i =? (if b then 1 else 0)
  | VFloat f => match float_as_Z f with Some z => i =? z | None => false end
  | _ => false
  end.

(** ** The store as the library functions see it *)

Section AllocItems.
Variable alloc_item : json -> heap -> val * heap.

Fixpoint alloc_list (xs : list json) (h : heap) : list val * heap :=
  match xs with
  | [] => ([], h)
  | x :: xs =>
      let '(v, h1) := alloc_item x h in
      let '(vs, h2) := alloc_list xs h1 in
      (v :: vs, h2)
  end.

Fixpoint alloc_members (kvs : list (string * json)) (h : heap)
  : list (string * val) * heap :=
  match kvs with
  | [] => ([], h)
  | (k, x) :: kvs =>
      let '(v, h1) := alloc_item x h in
      let '(kvs', h2) := alloc_members kvs h1 in
      ((k, v) :: kvs', h2)
  end.
End AllocItems.

(** [json.loads] hands back fresh objects: the container first, then
    its items in order. *)
Fixpoint alloc_json (j : json) (h : heap) : val * heap :=
  match j with
  | JNull => (VNone, h)
  | JBool b => (VBool b, h)
  | JInt z => (VInt z, h)
  | JFloat f => (VFloat f, h)
  | JStr s => (VStr s, h)
  | JArr xs =>
      let y := length h in
      let '(vs, h') := alloc_list alloc_json xs (h ++ [OList []]) in
      (VRef y, <[y := OList vs]> h')
  | JObj kvs =>
      let y := length h in
      let '(kvs', h') := alloc_members alloc_json kvs (h ++ [ODict []]) in
      (VRef y, <[y := ODict kvs']> h')
  end.

Definition load_json (j : json) : M val :=
  fun s => let '(v, h) := alloc_json j (st_heap s) in (Ok v, set_heap h s).

Fixpoint mapM {A B : Type} (f : A -> result B) (xs : list A) : result (list B) :=
  match xs with
  | [] => Ok []
  | x :: xs =>
      match f x with
      | Raise e => Raise e
      | Ok y =>
          match mapM f xs with
          | Raise e => Raise e
          | Ok ys => Ok (y :: ys)
          end
      end
  end.

(** The document [json.dumps] walks when given [v].  [fuel] bounds the
    nesting it can follow, as the interpreter's recursion limit does. *)
Fixpoint to_json (fuel : nat) (v : val) (h : heap) : result json :=
  match v with
  | VNone => Ok JNull
  | VBool b => Ok (JBool b)
  | VInt z => Ok (JInt z)
  | VFloat f => Ok (JFloat f)
  | VStr s => Ok (JStr s)
  | VRef l =>
      match fuel with
      | O => Raise RecursionError
      | S n =>
          match h !! l with
          | Some (OList vs) =>
              match mapM (fun v => to_json n v h) vs with
              | Ok js => Ok (JArr js)
              | Raise e => Raise e
              end
          | Some (ODict kvs) =>
              match mapM (fun kv => match to_json n (kv.2) h with
                                    | Ok j => Ok (kv.1, j)
                                    | Raise e => Raise e
                                    end) kvs with
              | Ok kjs => Ok (JObj kjs)
              | Raise e => Raise e
              end
          | None => Raise SystemError
          end
      end
  end.

(** [copy.deepcopy].  [memo] maps each object already copied to its
    copy; immutable values are returned as they are; a list or dict is
    registered in the memo before its items are copied into it.  [fuel]
    bounds the nesting it can follow, as the interpreter's recursion
    limit does. *)
Definition memo := list (loc * loc).

Fixpoint memo_get (l : loc) (mm : memo) : option loc :=
  match mm with
  | [] => None
  | (l', y) :: mm => if Nat.eqb l l' then Some y else memo_get l mm
  end.

Definition cell_append (y : loc) (a : val) (h : heap) : heap :=
  match h !! y with
  | Some (OList vs) => <[y := OList (vs ++ [a])]> h
  | _ => h
  end.

Definition cell_setitem (y : loc) (k : string) (a : val) (h : heap) : heap :=
  match h !! y with
  | Some (ODict kvs) => <[y := ODict (dict_set k a kvs)]> h
  | _ => h
  end.

Section DeepcopyItems.
Variable copy : val -> memo -> heap -> result (val * memo * heap).

(** [for a in x: y.append(deepcopy(a, memo))] *)
Fixpoint deepcopy_list (y : loc) (xs : list val) (mm : memo) (h : heap)
  : result (memo * heap) :=
  match xs with
  | [] => Ok (mm, h)
  | a :: xs =>
      match copy a mm h with
      | Raise e => Raise e
      | Ok (a', mm', h') => deepcopy_list y xs mm' (cell_append y a' h')
      end
  end.

(** [for key, value in x.items(): y[deepcopy(key, memo)] = deepcopy(value, memo)] *)
Fixpoint deepcopy_dict (y : loc) (kvs : list (string * val)) (mm : memo) (h : heap)
  : result (memo * heap) :=
  match kvs with
  | [] => Ok (mm, h)
  | (k, a) :: kvs =>
      match copy a mm h with
      | Raise e => Raise e
      | Ok (a', mm', h') => deepcopy_dict y kvs mm' (cell_setitem y k a' h')
      end
  end.
End DeepcopyItems.

Fixpoint deepcopy (fuel : nat) (x : val) (mm : memo) (h : heap)
  : result (val * memo * heap) :=
  match x with
  | VRef l =>
      match memo_get l mm with
      | Some y => Ok (VRef y, mm, h)
      | None =>
          match fuel with
          | O => Raise RecursionError
          | S n =>
              let y := length h in
              match h !! l with
              | Some (OList xs) =>
                  match deepcopy_list (deepcopy n) y xs ((l, y) :: mm) (h ++ [OList []]) with
                  | Ok (mm', h') => Ok (VRef y, mm', h')
                  | Raise e => Raise e
                  end
              | Some (ODict kvs) =>
                  match deepcopy_dict (deepcopy n) y kvs ((l, y) :: mm) (h ++ [ODict []]) with
                  | Ok (mm', h') => Ok (VRef y, mm', h')
                  | Raise e => Raise e
                  end
              | None => Raise SystemError
              end
          end
      end
  | _ => Ok (x, mm, h)
  end.

Definition py_deepcopy (fuel : nat) (x : val) : M val :=
  fun s =>
    match deepcopy fuel x [] (st_heap s) with
    | Ok (v, _, h) => (Ok v, set_heap h s)
    | Raise e => (Raise e, s)
    end.

(** ** Archives *)

Definition content_path : string := "content/content.json".

(** [ZipFile.getinfo]: the archive's name table keeps, for a name, the
    member read last from the central directory. *)
Definition zip_getinfo (z : zipfile) (name : string) : result zip_member :=
  match last (filter (fun m => zm_filename m = name) z) with
  | Some m => Ok m
  | None => Raise KeyError
  end.

(** [ZipFile.read(name)] *)
Definition zip_read (z : zipfile) (name : string) : result bytes :=
  match zip_getinfo z name with
  | Ok m => zm_data m
  | Raise e => Raise e
  end.

Definition lift {A : Type} (r : result A) : M A := fun s => (r, s).

(** [ZipFile(output_h5p_path, "w")]: the file is created empty. *)
Definition open_output : M unit :=
  fun s => (Ok tt, State (st_heap s) (st_uuid s) (Some [])).

(** [zout.writestr(item, data)] *)
Definition zip_writestr (name : string) (data : bytes) : M unit :=
  fun s =>
    match st_out s with
    | Some es => (Ok tt, State (st_heap s) (st_uuid s) (Some (es ++ [(name, data)])))
    | None => (Raise SystemError, s)
    end.

(** ** The program *)

Section Program.
Context {lib : Library}.

(** [str(uuid.uuid4())] *)
Definition draw_uuid4 : M string :=
  fun s => (Ok (uuid4 (st_uuid s)), State (st_heap s) (S (st_uuid s)) (st_out s)).

(** Lines 72-78 of [clean_and_parse_questions]; [response] is the
    outcome of the chat-completion call, the message content or the
    exception of the client. *)
Definition clean_and_parse_questions (response : result string) : M val :=
  do raw <- lift response;
  do data <-
    match json_loads raw with
    | Ok j => load_json j
    | Raise JSONDecodeError => raise RuntimeError
    | Raise e => raise e
    end;
  do default <- alloc (OList []);
  reading (py_dict_get data "questions" default).

(** Lines 82-116.  [fuel] is the recursion limit under which
    [copy.deepcopy] runs. *)
Definition build_questions_from_mc (fuel : nat) (mc_questions template_content : val)
  : M val :=
  do questions <- reading (py_getitem_str template_content "questions");
  do base_q <- reading (py_getitem_int questions 0);
  do base_params <- reading (py_getitem_str base_q "params");
  do new_questions <- alloc (OList []);
  do records <- reading (py_iter mc_questions);
  do _ <- for_each (enumerate 1 records) (fun '(i, q) =>
    do q_obj <- py_deepcopy fuel base_q;
    do params <- reading (py_getitem_str q_obj "params");
    do question <- reading (py_getitem_str q "question");
    do _ <- py_setitem_str params "question" question;
    do answers <- alloc (OList []);
    do correct_idx <- reading (py_dict_get q "correct_index" (VInt 0));
    do q_answers <- reading (py_getitem_str q "answers");
    do texts <- reading (py_iter q_answers);
    do _ <- for_each (enumerate 0 texts) (fun '(idx, ans) =>
      do base_answers <- reading (py_getitem_str base_params "answers");
      do base_ans <- reading (py_getitem_int base_answers 0);
      do ans_obj <- py_deepcopy fuel base_ans;
      do _ <- py_setitem_str ans_obj "text" ans;
      do _ <- py_setitem_str ans_obj "correct"
                (VBool (py_eq_int (Z.of_nat idx) correct_idx));
      py_append answers ans_obj);
    do _ <- py_setitem_str params "answers" answers;
    do metadata <- reading (py_getitem_str q_obj "metadata");
    do _ <- py_setitem_str metadata "title" (VStr ("Vraag " +:+ pretty i));
    do metadata <- reading (py_getitem_str q_obj "metadata");
    do _ <- py_setitem_str metadata "extraTitle" (VStr ("Vraag " +:+ pretty i));
    do token <- draw_uuid4;
    do _ <- py_setitem_str q_obj "subContentId" (VStr token);
    py_append new_questions q_obj);
  ret new_questions.

(** Lines 119-149, from the point where the template archive is open
    as [zin].  The output file is opened once the new content is
    serialised and encoded, and written member by member. *)
Definition create_h5p_from_template (fuel : nat) (zin : zipfile) (mc_questions : val)
  : M unit :=
  do raw <- lift (zip_read zin content_path);
  do text <- lift (utf8_decode raw);
  do doc <- lift (json_loads text);
  do content_json <- load_json doc;
  do new_questions <- build_questions_from_mc fuel mc_questions content_json;
  do _ <- py_setitem_str content_json "questions" new_questions;
  do out_doc <- reading (to_json fuel content_json);
  do new_content_bytes <- lift (utf8_encode (json_dumps out_doc));
  do _ <- open_output;
  for_each zin (fun item =>
    do data <- lift (zip_read zin (zm_filename item));
    let data := if String.eqb (zm_filename item) content_path
                then new_content_bytes else data in
    zip_writestr (zm_filename item) data).

End Program.

(** ** Reasoning about the store *)

(** [lay h j v a b]: in [h] the value [v] is the document [j] laid out
    as [json.loads] and [copy.deepcopy] build it, in the cells
    [a, b): a container at [a], then its items one after the other.
    Immutable values take no cell. *)
Inductive lay (h : heap) : json -> val -> nat -> nat -> Prop :=
  | lay_null a : lay h JNull VNone a a
  | lay_bool b a : lay h (JBool b) (VBool b) a a
  | lay_int z a : lay h (JInt z) (VInt z) a a
  | lay_float f a : lay h (JFloat f) (VFloat f) a a
  | lay_str s a : lay h (JStr s) (VStr s) a a
  | lay_arr xs vs a b :
      h !! a = Some (OList vs) ->
      lays h xs vs (S a) b ->
      lay h (JArr xs) (VRef a) a b
  | lay_obj kvs vs a b :
      h !! a = Some (ODict (zip (kvs.*1) vs)) ->
      NoDup (kvs.*1) ->
      lays h (kvs.*2) vs (S a) b ->
      lay h (JObj kvs) (VRef a) a b
with lays (h : heap) : list json -> list val -> nat -> nat -> Prop :=
  | lays_nil a : lays h [] [] a a
  | lays_cons x xs v vs a m b :
      lay h x v a m ->
      lays h xs vs m b ->
      lays h (x :: xs) (v :: vs) a b.

Scheme lay_lays_ind := Minimality for lay Sort Prop
  with lays_lay_ind := Minimality for lays Sort Prop.
Combined Scheme lay_mutual_ind from lay_lays_ind, lays_lay_ind.

(** The references an object holds. *)
Definition obj_vals (o : obj) : list val :=
  match o with
  | OList vs => vs
  | ODict kvs => kvs.*2
  end.

(** [reach h v l]: the object at [l] is [v] or a part of [v], at any
    depth: a mutation through [v] can only write to such an [l]. *)
Inductive reach (h : heap) : val -> loc -> Prop :=
  | reach_here l : reach h (VRef l) l
  | reach_into v l o l' :
      reach h v l ->
      h !! l = Some o ->
      VRef l' ∈ obj_vals o ->
      reach h v l'.

(** The cells [a, b) refer only to one another. *)
Definition closed (h : heap) (a b : nat) : Prop :=
  forall l o l', (a <= l < b)%nat -> h !! l = Some o -> VRef l' ∈ obj_vals o ->
                 (a <= l' < b)%nat.

(** Immutable values. *)
Definition atomic (v : val) : Prop :=
  match v with VRef _ => False | _ => True end.

(** [reads h v j]: [json.dumps] given [v] walks the document [j],
    whenever the recursion limit allows the nesting of [j]. *)
Definition reads (h : heap) (v : val) (j : json) : Prop :=
  forall n, (depth j <= n)%nat -> to_json n v h = Ok j.

(** [owns h v j a b]: [v] is the object at [a], it reads as [j], and it
    is made of the cells [a, b) and of nothing else. *)
Definition owns (h : heap) (v : val) (j : json) (a b : nat) : Prop :=
  v = VRef a /\ (a < b <= length h)%nat /\ closed h a b /\ reads h v j.

(** Objects that own consecutive ranges of cells. *)
Inductive chain (h : heap) : list val -> list json -> nat -> nat -> Prop :=
  | chain_nil a : chain h [] [] a a
  | chain_cons v vs j js a m b :
      owns h v j a m ->
      chain h vs js m b ->
      chain h (v :: vs) (j :: js) a b.

(** ** What the merge computes, on documents *)

Definition json_atomic (j : json) : Prop :=
  match j with
  | JArr _ | JObj _ => False
  | _ => True
  end.

(** [py_eq_int] on documents. *)
Definition json_eq_int (i : Z) (j : json) : bool :=
  match j with
  | JInt z => i =? z
  | JBool b => i =? (if b then 1 else 0)
  | JFloat f => match float_as_Z f with Some z => i =? z | None => false end
  | _ => false
  end.

(** The title of the question at position [i]. *)
Definition question_label (i : nat) : string := "Vraag " +:+ pretty i.

(** The answer entry built from the skeleton's first answer [ak] for
    the text at position [idx]. *)
Definition answer_entry (ak : list (string * json)) (correct_idx : json)
    (idx : nat) (text : json) : json :=
  JObj (dict_set "correct" (JBool (json_eq_int (Z.of_nat idx) correct_idx))
          (dict_set "text" text ak)).

(** The question object built from the skeleton [base_q] for the record
    [q] at position [i] with identifier [token]: one pass of the loop
    of [build_questions_from_mc], read as a function on documents. *)
Definition project (base_q q : json) (i : nat) (token : string) : option json :=
  match base_q, q with
  | JObj qk, JObj rk =>
      match dict_lookup "params" qk, dict_lookup "metadata" qk,
            dict_lookup "question" rk, dict_lookup "answers" rk with
      | Some (JObj pk), Some (JObj mk), Some question, Some (JArr texts) =>
          match dict_lookup "answers" pk with
          | Some (JArr (JObj ak :: _)) =>
              let correct_idx := default (JInt 0) (dict_lookup "correct_index" rk) in
              let answers := imap (answer_entry ak correct_idx) texts in
              let params :=
                JObj (dict_set "answers" (JArr answers) (dict_set "question" question pk)) in
              let title := JStr (question_label i) in
              let metadata :=
                JObj (dict_set "extraTitle" title (dict_set "title" title mk)) in
              Some (JObj (dict_set "subContentId" (JStr token)
                            (dict_set "metadata" metadata (dict_set "params" params qk))))
          | _ => None
          end
      | _, _, _, _ => None
      end
  | _, _ => None
  end.

(** A record as the merge engine expects it: a question text and a list
    of answer texts, all immutable values. *)
Definition record_ok (q : json) : Prop :=
  exists rk question texts,
    q = JObj rk /\
    dict_lookup "question" rk = Some question /\ json_atomic question /\
    dict_lookup "answers" rk = Some (JArr texts) /\ Forall json_atomic texts.

(** ** The result preview of the page

    Lines 293-301: what the page writes for one record.  [UiWrite v] is
    [st.write] of the question text, [UiAnswer m c a] the line of answer
    [a] with the letter of code point [c], ticked when [m], and
    [UiWarning] the warning that the right answer is not given. *)
Inductive ui_event : Type :=
  | UiWrite (v : val)
  | UiAnswer (marked : bool) (label : Z) (ans : val)
  | UiWarning.

(** ** Auxiliary definitions *)

(** [json.loads] lays its result out at the end of the store and
    leaves every older object as it was. *)
Definition alloc_ok (x : json) : Prop :=
  json_wf x -> forall h v h', alloc_json x h = (v, h') ->
    lay h' x v (length h) (length h') /\
    (forall l, (l < length h)%nat -> h' !! l = h !! l).

(** On a laid-out value whose cells the memo has not seen,
    [deepcopy] with fuel [n] returns a fresh layout of the same
    document at the end of the store and writes to no older cell. *)
Definition copy_ok (n : nat) : Prop :=
  forall x v a b mm h,
    lay h x v a b -> (depth x <= n)%nat ->
    (forall l, (a <= l < b)%nat -> memo_get l mm = None) ->
    exists v' mm' h',
      deepcopy n v mm h = Ok (v', mm', h') /\
      lay h' x v' (length h) (length h') /\
      (forall l, (l < length h)%nat -> h' !! l = h !! l) /\
      (forall l, ~ (a <= l < b)%nat -> memo_get l mm' = memo_get l mm).

(** Items of a dict cell and members of an object, side by side. *)
Definition item_reads (h : heap) (kv : string * val) (kj : string * json) : Prop :=
  kv.1 = kj.1 /\ reads h (kv.2) (kj.2).

(** Items read through a dict whose entries at the keys of [E] have
    been written to since. *)
Definition item_reads_but (h : heap) (E : list string)
    (kv : string * val) (kj : string * json) : Prop :=
  kv.1 = kj.1 /\ (kv.1 ∉ E -> reads h (kv.2) (kj.2)).

(** The items of a laid-out dict, each with its own cells, which hold
    none of the sibling objects. *)
Definition item_lay (h : heap) (a b : nat) (rest : list (string * val))
    (kv : string * val) (kj : string * json) : Prop :=
  kv.1 = kj.1 /\
  exists a' b', (a <= a')%nat /\ (b' <= b)%nat /\ lay h (kj.2) (kv.2) a' b' /\
    forall k' l', (k', VRef l') ∈ rest -> k' <> kv.1 -> ~ (a' <= l' < b')%nat.

Definition atom_val (j : json) : val :=
  match j with
  | JBool b => VBool b
  | JInt z => VInt z
  | JFloat f => VFloat f
  | JStr s => VStr s
  | _ => VNone
  end.

Definition answer_body (fuel : nat) (base_params answers correct_idx : val)
  : nat * val -> M unit :=
  fun '(idx, ans) =>
    do base_answers <- reading (py_getitem_str base_params "answers");
    do base_ans <- reading (py_getitem_int base_answers 0);
    do ans_obj <- py_deepcopy fuel base_ans;
    do _ <- py_setitem_str ans_obj "text" ans;
    do _ <- py_setitem_str ans_obj "correct"
              (VBool (py_eq_int (Z.of_nat idx) correct_idx));
    py_append answers ans_obj.

(** What the skeleton must provide for a record to be projected. *)
Definition skeleton_ok (base_q : json) : Prop :=
  exists qk pk mk ak arest,
    base_q = JObj qk /\
    dict_lookup "params" qk = Some (JObj pk) /\
    dict_lookup "metadata" qk = Some (JObj mk) /\
    dict_lookup "answers" pk = Some (JArr (JObj ak :: arest)).

(** The content description holds a first question. *)
Definition template_ok (doc base_q : json) : Prop :=
  exists dkvs qrest,
    doc = JObj dkvs /\ dict_lookup "questions" dkvs = Some (JArr (base_q :: qrest)).

Definition has_params (base_q : json) : Prop :=
  exists qk p, base_q = JObj qk /\ dict_lookup "params" qk = Some p.

(** The payload [ZipFile.read(name)] returns, when it returns. *)
Definition read_payload (zin : zipfile) (name : string) : bytes :=
  match zip_read zin name with
  | Ok data => data
  | Raise _ => []
  end.

(** The entry the copy loop writes for [item]. *)
Definition output_entry (zin : zipfile) (new_content_bytes : bytes) (item : zip_member)
  : string * bytes :=
  (zm_filename item,
   if String.eqb (zm_filename item) content_path then new_content_bytes
   else read_payload zin (zm_filename item)).

(** Every member of the archive can be read. *)
Definition readable (zin : zipfile) : Prop :=
  Forall (fun m => exists data, zm_data m = Ok data) zin.

Definition copy_body (zin : zipfile) (new_content_bytes : bytes) : zip_member -> M unit :=
  fun item =>
    do data <- lift (zip_read zin (zm_filename item));
    let data := if String.eqb (zm_filename item) content_path
                then new_content_bytes else data in
    zip_writestr (zm_filename item) data.

(** A computation that does not touch the output file, whatever its
    outcome. *)
Definition keeps_out {A} (m : M A) : Prop :=
  forall s r s', m s = (r, s') -> st_out s' = st_out s.

Section Bodies.
Context {lib : Library}.

Definition question_body (fuel : nat) (base_q base_params new_questions : val)
  : nat * val -> M unit :=
  fun '(i, q) =>
    do q_obj <- py_deepcopy fuel base_q;
    do params <- reading (py_getitem_str q_obj "params");
    do question <- reading (py_getitem_str q "question");
    do _ <- py_setitem_str params "question" question;
    do answers <- alloc (OList []);
    do correct_idx <- reading (py_dict_get q "correct_index" (VInt 0));
    do q_answers <- reading (py_getitem_str q "answers");
    do texts <- reading (py_iter q_answers);
    do _ <- for_each (enumerate 0 texts) (answer_body fuel base_params answers correct_idx);
    do _ <- py_setitem_str params "answers" answers;
    do metadata <- reading (py_getitem_str q_obj "metadata");
    do _ <- py_setitem_str metadata "title" (VStr ("Vraag " +:+ pretty i));
    do metadata <- reading (py_getitem_str q_obj "metadata");
    do _ <- py_setitem_str metadata "extraTitle" (VStr ("Vraag " +:+ pretty i));
    do token <- draw_uuid4;
    do _ <- py_setitem_str q_obj "subContentId" (VStr token);
    py_append new_questions q_obj.

(** The questions of the output, one per record, in the order of the
    records: record [k] gets title number [k + 1] and the token of the
    [k]-th draw after the [u] draws made before. *)
Definition merged_questions (base_q : json) (u : nat) (recs : list json)
  : list (option json) :=
  imap (fun k r => project base_q r (S k) (uuid4 (u + k))) recs.

(** The ways a template lacks a skeleton, with the exception each one
    raises. *)
Inductive format_defect (zin : zipfile) : exn -> Prop :=
  | no_content_entry :
      content_path ∉ zm_filename <$> zin ->
      format_defect zin KeyError
  | no_questions_field raw text dkvs :
      zip_read zin content_path = Ok raw ->
      utf8_decode raw = Ok text ->
      json_loads text = Ok (JObj dkvs) ->
      dict_lookup "questions" dkvs = None ->
      format_defect zin KeyError
  | empty_questions raw text dkvs :
      zip_read zin content_path = Ok raw ->
      utf8_decode raw = Ok text ->
      json_loads text = Ok (JObj dkvs) ->
      dict_lookup "questions" dkvs = Some (JArr []) ->
      format_defect zin IndexError.

End Bodies.

(** ** Accessors on documents *)

Definition field (k : string) (j : json) : option json :=
  match j with
  | JObj kvs => dict_lookup k kvs
  | _ => None
  end.

(** [g["subContentId"]] *)
Definition identifier (g : json) : option json := field "subContentId" g.

(** [g["params"]["answers"]] *)
Definition answers_of (g : json) : option json :=
  match field "params" g with
  | Some params => field "answers" params
  | None => None
  end.

(** [g["metadata"][k]] *)
Definition metadata_of (k : string) (g : json) : option json :=
  match field "metadata" g with
  | Some metadata => field k metadata
  | None => None
  end.

(** [base_q["params"]["answers"][0]] *)
Definition first_answer (base_q : json) : option json :=
  match answers_of base_q with
  | Some (JArr (a :: _)) => Some a
  | _ => None
  end.

(** ** Examples *)

Module Ex.

Definition answer0 : json :=
  JObj [("text", JStr "<div>first</div>"); ("correct", JBool true);
        ("tipsAndFeedback", JObj [("tip", JStr ""); ("chosenFeedback", JStr "")])].

Definition answer1 : json :=
  JObj [("text", JStr "<div>second</div>"); ("correct", JBool false);
        ("tipsAndFeedback", JObj [("tip", JStr ""); ("chosenFeedback", JStr "")])].

Definition question0 : json :=
  JObj [("params",
         JObj [("question", JStr "<p>old question</p>");
               ("answers", JArr [answer0; answer1]);
               ("behaviour", JObj [("enableRetry", JBool true); ("passPercentage", JInt 100)])]);
        ("library", JStr "H5P.MultiChoice 1.16");
        ("metadata", JObj [("contentType", JStr "Multiple Choice"); ("title", JStr "old title")]);
        ("subContentId", JStr "old-id")].

(** A template content description. *)
Definition template_doc : json :=
  JObj [("introPage", JObj [("showIntroPage", JBool false)]);
        ("questions", JArr [question0; question0]);
        ("passPercentage", JInt 50)].

(** A content description whose first question has no answer entry. *)
Definition bare_doc : json :=
  JObj [("questions",
         JArr [JObj [("params", JObj [("question", JStr ""); ("answers", JArr [])]);
                     ("metadata", JObj [("title", JStr "")]);
                     ("subContentId", JStr "old-id")]])].

(** A service response that is not of the schema. *)
Definition response_doc : json :=
  JObj [("questions", JArr [JObj [("question", JInt 7)]])].

(** The texts the example library can read, and the document each
    stands for. *)
Definition texts : list (string * json) :=
  [("template", template_doc); ("bare", bare_doc); ("response", response_doc)].

Definition loads (s : string) : result json :=
  match dict_lookup s texts with
  | Some j => Ok j
  | None => Raise JSONDecodeError
  end.

(** A compact writer, enough to tell documents apart. *)
Fixpoint dumps (j : json) : string :=
  match j with
  | JNull => "null"
  | JBool true => "true"
  | JBool false => "false"
  | JInt z => pretty z
  | JFloat _ => "float"
  | JStr s => "'" +:+ s +:+ "'"
  | JArr xs => "[" +:+ foldr (fun x acc => dumps x +:+ "," +:+ acc) "]" xs
  | JObj kvs =>
      "{" +:+ foldr (fun kv acc => "'" +:+ kv.1 +:+ "':" +:+ dumps (kv.2) +:+ "," +:+ acc) "}" kvs
  end.

Definition token (n : nat) : string := "uuid-" +:+ pretty n.

(** The examples keep a text as the bytes of its UTF-8 form, and a
    surrogate code point, U+D800 to U+DFFF, as the three bytes the
    scheme would give it: ED, then A0 to BF, then 80 to BF. *)
Fixpoint has_surrogate (s : string) : bool :=
  match s with
  | String a rest =>
      match rest with
      | String b _ =>
          (Ascii.nat_of_ascii a =? 237)%nat && (160 <=? Ascii.nat_of_ascii b)%nat
          || has_surrogate rest
      | EmptyString => false
      end
  | EmptyString => false
  end.

(** [str.encode("utf-8")] on such a text. *)
Definition encode (s : string) : result bytes :=
  if has_surrogate s then Raise UnicodeEncodeError
  else Ok (String.list_byte_of_string s).

Lemma loads_wf s j : loads s = Ok j -> json_wf j.
Proof.
  unfold loads. simpl.
  repeat (match goal with |- context [String.eqb ?a ?b] => destruct (String.eqb a b) end;
          [intros [= <-]; cbn; repeat split;
           refine (bool_decide_unpack _ _); vm_compute; exact I|]).
  done.
Qed.

Definition library : Library :=
  {| json_loads := loads;
     json_loads_wf := loads_wf;
     json_dumps := dumps;
     utf8_decode := fun b => Ok (String.string_of_list_byte b);
     utf8_encode := encode;
     uuid4 := token |}.

Definition entry (name text : string) : zip_member :=
  ZipMember name (Ok (String.list_byte_of_string text)).

(** A template archive. *)
Definition archive : zipfile :=
  [entry "h5p.json" "{}"; entry content_path "template"; entry "content/images/logo.png" "PNG"].

Definition rec_abcd : json :=
  JObj [("question", JStr "Which letter?");
        ("answers", JArr [JStr "A"; JStr "B"; JStr "C"; JStr "D"]);
        ("correct_index", JInt 2)].

Definition rec_three : json :=
  JObj [("question", JStr "Yes or no?");
        ("answers", JArr [JStr "yes"; JStr "no"; JStr "maybe"])].

Definition rec_five : json :=
  JObj [("question", JStr "Which digit?");
        ("answers", JArr [JStr "1"; JStr "2"; JStr "3"; JStr "4"; JStr "5"]);
        ("correct_index", JInt 7)].

(** The caller's records, as [json.loads] left them in an empty
    store. *)
Definition records_value (recs : list json) : val := (alloc_json (JArr recs) []).1.
Definition records_state (recs : list json) : state :=
  State ((alloc_json (JArr recs) []).2) 0 None.

End Ex.

Module ExArchives.

(** A template whose first question has no answer entry. *)
Definition bare : zipfile := [Ex.entry content_path "bare"].

(** An archive without content description. *)
Definition no_content : zipfile := [Ex.entry "h5p.json" "{}"].

(** A template with two entries of the same name. *)
Definition repeated : zipfile :=
  [Ex.entry content_path "template"; Ex.entry "notes.txt" "one"; Ex.entry "notes.txt" "two"].


(** The template document with its questions replaced by none. *)
Definition emptied_doc : json :=
  JObj [("introPage", JObj [("showIntroPage", JBool false)]);
        ("questions", JArr []);
        ("passPercentage", JInt 50)].

End ExArchives.

Module ExMerge.

(** The store of a call: the caller's records, then the content
    description of the template as [json.loads] built it. *)
Definition store (recs : list json) : heap :=
  (alloc_json Ex.template_doc (st_heap (Ex.records_state recs))).2.

Definition template_value (recs : list json) : val :=
  (alloc_json Ex.template_doc (st_heap (Ex.records_state recs))).1.

Definition start (recs : list json) : state := State (store recs) 0 None.

(** The questions as [json.dumps] would write them after the call. *)
Definition built (recs : list json) : result json :=
  match build_questions_from_mc (lib := Ex.library) 10
          (Ex.records_value recs) (template_value recs) (start recs) with
  | (Ok v, s') => to_json 10 v (st_heap s')
  | (Raise e, _) => Raise e
  end.

End ExMerge.

(** [g["params"][k]] *)
Definition params_of (k : string) (g : json) : option json :=
  match field "params" g with
  | Some params => field k params
  | None => None
  end.

(** [a["correct"]] *)
Definition correct_of (a : json) : option json := field "correct" a.

(** The responses [data.get] works on. *)
Definition json_is_object (j : json) : Prop :=
  match j with JObj _ => True | _ => False end.

(** ** The page: the handler of the convert button

    Lines 231-314, the body of [if st.button(...)].  The page is
    modelled by the calls it makes to Streamlit, in order. *)

(** Exceptions the page can meet besides those of the adapter and the
    merge engine. *)
Inductive page_exn : Type :=
  | Raised (e : exn)
  | FileNotFoundError
  | ValueError.

(** The texts the page shows, by the line that builds them. *)
Inductive message : Type :=
  | NeedApiKey
  | NeedText
  | Analysing
  | AnalysisFailed
  | Received (n : nat)
  | Building
  | Created (output_name : string)
  | SomethingWrong (e : page_exn).

(** Calls to Streamlit. *)
Inductive page_event : Type :=
  | StError (m : message)
  | StStatus
  | StatusWrite (m : message)
  | StatusUpdate (complete : bool)
  | StMarkdown
  | StExpander (i : nat)
  | Shown (e : ui_event)
  | StDownloadButton (data : list (string * bytes)) (file_name : string).

(** How a piece of the page ends: normally, with an exception, or in
    [st.stop()], whose exception is no [Exception] and ends the run. *)
Inductive outcome (A : Type) : Type :=
  | Done (a : A)
  | Failed (e : page_exn)
  | Stopped.
Arguments Done {A} a.
Arguments Failed {A} e.
Arguments Stopped {A}.

(** A piece of the page: the calls it makes, how it ends, the state it
    leaves. *)
Definition P (A : Type) : Type := state -> list page_event * outcome A * state.

Definition p_ret {A : Type} (a : A) : P A := fun s => ([], Done a, s).

Definition p_bind {A B : Type} (m : P A) (f : A -> P B) : P B :=
  fun s =>
    match m s with
    | (evs, Done a, s') => let '(evs', r, s'') := f a s' in (evs ++ evs', r, s'')
    | (evs, Failed e, s') => (evs, Failed e, s')
    | (evs, Stopped, s') => (evs, Stopped, s')
    end.

Notation "'act' x <- m ; k" := (p_bind m (fun x => k))
  (at level 10, x name, m at level 100, k at level 200).
Notation "'act' ' p <- m ; k" := (p_bind m (fun x => let 'p := x in k))
  (at level 10, p pattern, m at level 100, k at level 200).

Definition emit (ev : page_event) : P unit := fun s => ([ev], Done tt, s).

Definition fail {A : Type} (e : page_exn) : P A := fun s => ([], Failed e, s).

(** [st.stop()] *)
Definition st_stop {A : Type} : P A := fun s => ([], Stopped, s).

(** A computation of the adapter or the merge engine, run by the page. *)
Definition run {A : Type} (m : M A) : P A :=
  fun s =>
    match m s with
    | (Ok a, s') => ([], Done a, s')
    | (Raise e, s') => ([], Failed (Raised e), s')
    end.

(** [try: m  except Exception as e: handler e] *)
Definition try_except (m : P unit) (handler : page_exn -> P unit) : P unit :=
  fun s =>
    match m s with
    | (evs, Failed e, s') => let '(evs', r, s'') := handler e s' in (evs ++ evs', r, s'')
    | r => r
    end.

(** [with tempfile.TemporaryDirectory() as tmpdir_str: m]: the
    directory is new, so no file is at the output path on entry, and it
    is removed with all it holds on exit, however the block ends. *)
Definition with_tmpdir {A : Type} (m : P A) : P A :=
  fun s =>
    let '(evs, r, s') := m (State (st_heap s) (st_uuid s) None) in
    (evs, r, State (st_heap s') (st_uuid s') None).

Fixpoint p_for_each {A : Type} (xs : list A) (body : A -> P unit) : P unit :=
  match xs with
  | [] => p_ret tt
  | x :: xs => act _ <- body x; p_for_each xs body
  end.

(** The calls made so far, put before those of the rest of the run. *)
Definition prepend {A : Type} (evs : list page_event)
    (x : list page_event * outcome A * state) : list page_event * outcome A * state :=
  let '(evs', r, s) := x in (evs ++ evs', r, s).

(** [bool(v)], what [if not v] tests. *)
Definition py_truth (v : val) (h : heap) : result bool :=
  match v with
  | VNone => Ok false
  | VBool b => Ok b
  | VInt z => Ok (negb (z =? 0))
  | VFloat f => Ok (match f with S754_zero _ => false | _ => true end)
  | VStr s => Ok (negb (String.eqb s ""))
  | VRef l =>
      match h !! l with
      | Some (OList vs) => Ok (negb (Nat.eqb (length vs) 0))
      | Some (ODict kvs) => Ok (negb (Nat.eqb (length kvs) 0))
      | None => Raise SystemError
      end
  end.

(** [len(v)] *)
Definition py_len (v : val) (h : heap) : result nat :=
  match v with
  | VRef l =>
      match h !! l with
      | Some (OList vs) => Ok (length vs)
      | Some (ODict kvs) => Ok (length kvs)
      | None => Raise SystemError
      end
  | VStr s => Ok (length (string_chars s))
  | _ => Raise TypeError
  end.

(** [chr(i)], as the code point it names. *)
Definition py_chr (i : Z) : P Z :=
  if (0 <=? i) && (i <=? 1114111) then p_ret i else fail ValueError.

(** [output_path.read_bytes()]: the archive at the output path. *)
Definition read_output : P (list (string * bytes)) :=
  fun s =>
    match st_out s with
    | Some entries => ([], Done entries, s)
    | None => ([], Failed FileNotFoundError, s)
    end.

(** What the widgets hold when the button is pressed, and what the
    services answer in this run. *)
Record page_input : Type := PageInput {
  (** The key from the secrets or from the text input. *)
  api_key : string;
  (** The text area. *)
  raw_questions_text : string;
  (** The outcome of the chat-completion call for this text and the
      chosen language: [response.choices[0].message.content], or the
      exception of the client. *)
  response : result string;
  (** [uploaded_template.read()], [None] when no file was uploaded. *)
  uploaded_template : option bytes;
  (** The file [quiz-template.h5p] of the working directory, [None]
      when there is none. *)
  default_template : option bytes
}.

(** What the page takes from the platform. *)
Class Platform : Type := {
  (** [str.strip()] *)
  str_strip : string -> string;
  (** [ZipFile(path, "r")] on a file that holds these bytes. *)
  zip_open : bytes -> result zipfile
}.

Section Page.
Context {lib : Library} {plat : Platform}.

(** Lines 293-301: the preview of one record inside its expander. *)
Definition show_question (q : val) : P unit :=
  act question <- run (reading (py_getitem_str q "question"));
  act _ <- emit (Shown (UiWrite question));
  act correct_index <- run (reading (py_dict_get q "correct_index" (VInt (-1))));
  act answers <- run (reading (py_getitem_str q "answers"));
  act items <- run (reading (py_iter answers));
  act _ <- p_for_each (enumerate 0 items) (fun '(idx, ans) =>
    act label <- py_chr (65 + Z.of_nat idx);
    emit (Shown (UiAnswer (py_eq_int (Z.of_nat idx) correct_index) label ans)));
  if py_eq_int (-1) correct_index then emit (Shown UiWarning) else p_ret tt.

(** Lines 243-311: what runs inside the temporary directory.  The
    adapter's call to the service is [response]; the template path
    stands for the bytes of the file it names, and the output name
    takes the first eight characters of a token, which are its first
    eight hexadecimal digits. *)
Definition conversion (fuel : nat) (inp : page_input) : P unit :=
  act _ <- emit StStatus;
  act _ <- emit (StatusWrite Analysing);
  act mc_questions <- run (clean_and_parse_questions (response inp));
  act truthy <- run (reading (py_truth mc_questions));
  act _ <- (if truthy then p_ret tt
            else act _ <- emit (StatusUpdate false);
                 act _ <- emit (StError AnalysisFailed);
                 st_stop);
  act n <- run (reading (py_len mc_questions));
  act _ <- emit (StatusWrite (Received n));
  act _ <- emit (StatusWrite Building);
  act template <- match uploaded_template inp with
                  | Some data => p_ret data
                  | None =>
                      match default_template inp with
                      | Some data => p_ret data
                      | None => fail FileNotFoundError
                      end
                  end;
  act token <- run draw_uuid4;
  let output_name := "quiz-from-text-" +:+ String.substring 0 8 token +:+ ".h5p" in
  act zin <- run (lift (zip_open template));
  act _ <- run (create_h5p_from_template fuel zin mc_questions);
  act _ <- emit (StatusWrite (Created output_name));
  act _ <- emit (StatusUpdate true);
  act _ <- emit StMarkdown;
  act records <- run (reading (py_iter mc_questions));
  act _ <- p_for_each (enumerate 1 records) (fun '(i, q) =>
             act _ <- emit (StExpander i);
             show_question q);
  act file_bytes <- read_output;
  emit (StDownloadButton file_bytes output_name).

(** Lines 232-314: the two checks of the input, then the conversion
    in a temporary directory, every [Exception] reported. *)
Definition convert_button (fuel : nat) (inp : page_input) : P unit :=
  if String.eqb (api_key inp) "" then emit (StError NeedApiKey)
  else if String.eqb (str_strip (raw_questions_text inp)) "" then emit (StError NeedText)
  else
    try_except
      (with_tmpdir (conversion fuel inp))
      (fun e => emit (StError (SomethingWrong e))).

End Page.

(** [py_truth] on documents. *)
Definition json_truth (j : json) : bool :=
  match j with
  | JNull => false
  | JBool b => b
  | JInt z => negb (z =? 0)
  | JFloat f => match f with S754_zero _ => false | _ => true end
  | JStr s => negb (String.eqb s "")
  | JArr xs => negb (Nat.eqb (length xs) 0)
  | JObj kvs => negb (Nat.eqb (length kvs) 0)
  end.

(** The line of the preview for the answer at position [idx]. *)
Definition answer_line (correct_index : json) (idx : nat) (ans : json) : ui_event :=
  UiAnswer (json_eq_int (Z.of_nat idx) correct_index) (65 + Z.of_nat idx) (atom_val ans).

(** What the preview shows for a record: lines 293-301 read as a
    function on documents. *)
Definition record_lines (q : json) : list ui_event :=
  match q with
  | JObj rk =>
      match dict_lookup "question" rk, dict_lookup "answers" rk with
      | Some question, Some (JArr texts) =>
          let correct_index := default (JInt (-1)) (dict_lookup "correct_index" rk) in
          [UiWrite (atom_val question)]
          ++ imap (answer_line correct_index) texts
          ++ (if json_eq_int (-1) correct_index then [UiWarning] else [])
      | _, _ => []
      end
  | _ => []
  end.

(** The number of answers [chr(ord("A") + idx)] can label. *)
Definition label_limit : Z := 1114047.

(** A record whose answers can all be labelled. *)
Definition answers_fit (q : json) : Prop :=
  forall texts, field "answers" q = Some (JArr texts) -> Z.of_nat (length texts) <= label_limit.

(** The template the page takes: the upload when there is one,
    otherwise the file of the working directory. *)
Definition chosen_template (inp : page_input) : option bytes :=
  match uploaded_template inp with
  | Some data => Some data
  | None => default_template inp
  end.

(** The name of the download for a token. *)
Definition output_name_of (token : string) : string :=
  "quiz-from-text-" +:+ String.substring 0 8 token +:+ ".h5p".

(** Calls that are neither an error message nor the download button. *)
Definition quiet (ev : page_event) : Prop :=
  match ev with
  | StDownloadButton _ _ | StError _ => False
  | _ => True
  end.

(** Calls that are neither the download button nor the report of an
    exception. *)
Definition undecided (ev : page_event) : Prop :=
  match ev with
  | StDownloadButton _ _ | StError (SomethingWrong _) => False
  | _ => True
  end.

(** A piece of the page that leaves the state as it is and makes only
    calls that satisfy [Q]. *)
Definition only_shows {A : Type} (Q : page_event -> Prop) (m : P A) : Prop :=
  forall s evs r s', m s = (evs, r, s') -> s' = s /\ Forall Q evs.

(** A computation that draws no token, whatever its outcome. *)
Definition keeps_uuid {A : Type} (m : M A) : Prop :=
  forall s r s', m s = (r, s') -> st_uuid s' = st_uuid s.

(** A [correct_index] that is the position of no answer and that the
    preview does not take for a missing one: an integer out of range
    other than -1, a text, or [null]. *)
Definition unmarkable (correct_index : json) (n : nat) : Prop :=
  match correct_index with
  | JInt c => c < -1 \/ Z.of_nat n <= c
  | JStr _ | JNull => True
  | _ => False
  end.

(** ** More examples *)

Module ExMore.

(** A content description whose first question has no [params]. *)
Definition noparams_doc : json :=
  JObj [("questions", JArr [JObj [("library", JStr "H5P.MultiChoice 1.16")]])].

(** A content description with one question, the first of the
    template. *)
Definition single_doc : json :=
  JObj [("questions", JArr [Ex.question0]); ("passPercentage", JInt 80)].

(** Service responses: two records, no record, and a list in place of
    an object. *)
Definition records_doc : json := JObj [("questions", JArr [Ex.rec_abcd; Ex.rec_three])].
Definition empty_doc : json := JObj [("questions", JArr [])].
Definition list_doc : json := JArr [Ex.rec_abcd].

(** A record without question text. *)
Definition untitled : list (string * json) :=
  [("answers", JArr [JStr "x"; JStr "y"]); ("correct_index", JInt 0)].

(** The example record without correct index, with index 0. *)
Definition rec_three_zero : json :=
  JObj [("question", JStr "Yes or no?");
        ("answers", JArr [JStr "yes"; JStr "no"; JStr "maybe"]);
        ("correct_index", JInt 0)].

(** The text [json.loads] gives for the escape of U+D800 alone. *)
Definition surrogate : string :=
  String (Ascii.ascii_of_nat 237)
    (String (Ascii.ascii_of_nat 160) (String (Ascii.ascii_of_nat 128) EmptyString)).

(** A record of the expected type whose second answer is that text,
    and the response that holds it. *)
Definition rec_surrogate : json :=
  JObj [("question", JStr "Which one?");
        ("answers", JArr [JStr "this"; JStr surrogate]);
        ("correct_index", JInt 0)].
Definition surrogate_doc : json := JObj [("questions", JArr [rec_surrogate])].

Definition texts : list (string * json) :=
  Ex.texts ++ [("noparams", noparams_doc); ("records", records_doc);
               ("empty", empty_doc); ("list", list_doc);
               ("surrogate", surrogate_doc)].

Definition loads (s : string) : result json :=
  match dict_lookup s texts with
  | Some j => Ok j
  | None => Raise JSONDecodeError
  end.

Lemma loads_more_wf s j : loads s = Ok j -> json_wf j.
Proof.
  unfold loads. simpl.
  repeat (match goal with |- context [String.eqb ?a ?b] => destruct (String.eqb a b) end;
          [intros [= <-]; cbn; repeat split;
           refine (bool_decide_unpack _ _); vm_compute; exact I|]).
  done.
Qed.

Definition library : Library :=
  {| json_loads := loads;
     json_loads_wf := loads_more_wf;
     json_dumps := Ex.dumps;
     utf8_decode := fun b => Ok (String.string_of_list_byte b);
     utf8_encode := Ex.encode;
     uuid4 := Ex.token |}.

(** A template archive whose first question has no [params]. *)
Definition noparams : zipfile := [Ex.entry content_path "noparams"].

Fixpoint drop_spaces (cs : list Ascii.ascii) : list Ascii.ascii :=
  match cs with
  | c :: cs' => if Ascii.eqb c (Ascii.ascii_of_nat 32) then drop_spaces cs' else cs
  | [] => []
  end.

(** Spaces off both ends. *)
Definition strip (s : string) : string :=
  String.string_of_list_ascii
    (rev (drop_spaces (rev (drop_spaces (String.list_ascii_of_string s))))).

(** The one file that is an archive. *)
Definition unzip (data : bytes) : result zipfile :=
  if String.eqb (String.string_of_list_byte data) "quiz-template"
  then Ok Ex.archive
  else Raise BadZipFile.

Definition platform : Platform := {| str_strip := strip; zip_open := unzip |}.

(** The button pressed with a key, a text and the default template. *)
Definition input (response : result string) : page_input :=
  {| api_key := "sk-example";
     raw_questions_text := " 1. Which letter? A B C D ";
     response := response;
     uploaded_template := None;
     default_template := Some (String.list_byte_of_string "quiz-template") |}.

Definition start : state := State [] 0 None.

(** The archive offered for download when the response holds two
    records. *)
Definition offered : list (string * bytes) := Eval vm_compute in
    match last (convert_button (lib := library) (plat := platform) 10
                  (input (Ok "records")) start).1.1 with
    | Some (StDownloadButton data _) => data
    | _ => []
    end.

End ExMore.

Module ExAgain.

(** The question generated for the first example record, and a content
    description that has it as first question. *)
Definition regenerated : json := Eval vm_compute in
  default JNull (project Ex.question0 Ex.rec_abcd 1 (Ex.token 0)).

Definition regenerated_doc : json := JObj [("questions", JArr [regenerated])].

(** A record whose correct index is a boolean. *)
Definition rec_bool : json :=
  JObj [("question", JStr "True or false?");
        ("answers", JArr [JStr "false"; JStr "true"]);
        ("correct_index", JBool true)].

End ExAgain.

(** * Proofs *)

(** ** Induction on documents *)

Lemma json_ind' (P : json -> Prop) :
  P JNull -> (forall b, P (JBool b)) -> (forall z, P (JInt z)) ->
  (forall f, P (JFloat f)) -> (forall s, P (JStr s)) ->
  (forall xs, Forall P xs -> P (JArr xs)) ->
  (forall kvs, Forall (fun kv => P (kv.2)) kvs -> P (JObj kvs)) ->
  forall j, P j.
Proof.
  intros Hn Hb Hi Hf Hs Ha Ho.
  fix IH 1. intros [ | b | z | f | s | xs | kvs].
  - exact Hn.
  - apply Hb.
  - apply Hi.
  - apply Hf.
  - apply Hs.
  - apply Ha. induction xs as [|x xs IHxs]; constructor; [apply IH | exact IHxs].
  - apply Ho. induction kvs as [|[k x] kvs IHkvs]; constructor; [apply IH | exact IHkvs].
Qed.

(** ** Dicts *)

Lemma dict_lookup_set_eq {A} k (v : A) kvs : dict_lookup k (dict_set k v kvs) = Some v.
Proof.
  induction kvs as [|[k' v'] kvs IH]; simpl.
  - by rewrite String.eqb_refl.
  - destruct (String.eqb k k') eqn:E; simpl; rewrite E; auto.
Qed.

Lemma dict_lookup_set_ne {A} k k' (v : A) kvs :
  k <> k' -> dict_lookup k' (dict_set k v kvs) = dict_lookup k' kvs.
Proof.
  intros Hne. induction kvs as [|[k0 v0] kvs IH]; simpl.
  - destruct (String.eqb k' k) eqn:E; auto. apply String.eqb_eq in E. congruence.
  - destruct (String.eqb k k0) eqn:E; simpl.
    + apply String.eqb_eq in E. subst k0.
      destruct (String.eqb k' k) eqn:E'; auto. apply String.eqb_eq in E'. congruence.
    + by rewrite IH.
Qed.

Lemma dict_set_fresh {A} k (v : A) kvs :
  k ∉ kvs.*1 -> dict_set k v kvs = kvs ++ [(k, v)].
Proof.
  induction kvs as [|[k' v'] kvs IH]; simpl; [done|].
  rewrite not_elem_of_cons. intros [Hne Hnin].
  destruct (String.eqb k k') eqn:E.
  - apply String.eqb_eq in E. done.
  - by rewrite IH.
Qed.

Lemma dict_set_keys {A} k (v : A) kvs :
  k ∈ kvs.*1 -> (dict_set k v kvs).*1 = kvs.*1.
Proof.
  induction kvs as [|[k' v'] kvs IH]; simpl.
  - intros H. by apply elem_of_nil in H.
  - intros H. destruct (String.eqb k k') eqn:E; simpl; [done|].
    apply String.eqb_neq in E. apply elem_of_cons in H as [?|H]; [done|].
    f_equal. by apply IH.
Qed.

(** ** The layout of documents in the store *)

Lemma lay_bounds h :
  (forall x v a b, lay h x v a b -> (a <= b)%nat /\ ((a < b)%nat -> (b <= length h)%nat)) /\
  (forall xs vs a b, lays h xs vs a b -> (a <= b)%nat /\ ((a < b)%nat -> (b <= length h)%nat)).
Proof.
  apply lay_mutual_ind; try (intros; lia).
  - intros xs vs a b Hcell%lookup_lt_Some _ ?. lia.
  - intros kvs vs a b Hcell%lookup_lt_Some _ _ ?. lia.
Qed.

Lemma lay_le h x v a b : lay h x v a b -> (a <= b)%nat.
Proof. intros H. by apply lay_bounds in H as []. Qed.

Lemma lays_le h xs vs a b : lays h xs vs a b -> (a <= b)%nat.
Proof. intros H. by apply lay_bounds in H as []. Qed.

Lemma lay_ref_bounds h x l a b :
  lay h x (VRef l) a b -> l = a /\ (a < b)%nat /\ (b <= length h)%nat.
Proof.
  intros H. pose proof (proj1 (lay_bounds h) _ _ _ _ H) as [_ Hb].
  inversion H as [ | | | | | xs vs a' b' Hcell Hl | kvs vs a' b' Hcell Hnd Hl]; subst.
  - apply lays_le in Hl. split; [done|]. split; [lia|]. apply Hb. lia.
  - apply lays_le in Hl. split; [done|]. split; [lia|]. apply Hb. lia.
Qed.

Lemma lays_length h xs vs a b : lays h xs vs a b -> length xs = length vs.
Proof. induction 1; simpl; auto. Qed.

Lemma lay_frame h :
  (forall x v a b, lay h x v a b ->
     forall h', (forall l, (a <= l < b)%nat -> h' !! l = h !! l) -> lay h' x v a b) /\
  (forall xs vs a b, lays h xs vs a b ->
     forall h', (forall l, (a <= l < b)%nat -> h' !! l = h !! l) -> lays h' xs vs a b).
Proof.
  apply lay_mutual_ind.
  - intros; constructor.
  - intros; constructor.
  - intros; constructor.
  - intros; constructor.
  - intros; constructor.
  - intros xs vs a b Hcell Hl IH h' Hag. apply lays_le in Hl as Hle. apply lay_arr with (vs := vs).
    + rewrite Hag; [done | lia].
    + apply IH. intros. apply Hag. lia.
  - intros kvs vs a b Hcell Hnd Hl IH h' Hag. apply lays_le in Hl as Hle.
    apply lay_obj with (vs := vs); [|done|].
    + rewrite Hag; [done | lia].
    + apply IH. intros. apply Hag. lia.
  - intros; constructor.
  - intros x xs v vs a m b Hx IHx Hxs IHxs h' Hag.
    apply lay_le in Hx as Hle1. apply lays_le in Hxs as Hle2.
    eapply lays_cons.
    + apply IHx. intros. apply Hag. lia.
    + apply IHxs. intros. apply Hag. lia.
Qed.

Lemma lay_agree h h' x v a b :
  lay h x v a b -> (forall l, (a <= l < b)%nat -> h' !! l = h !! l) -> lay h' x v a b.
Proof. intros H. by apply lay_frame. Qed.

Lemma lays_agree h h' xs vs a b :
  lays h xs vs a b -> (forall l, (a <= l < b)%nat -> h' !! l = h !! l) -> lays h' xs vs a b.
Proof. intros H. by apply lay_frame. Qed.

(** A value that is a reference sits at the start of its cells. *)
Lemma lays_ref_in h xs vs a b l :
  lays h xs vs a b -> VRef l ∈ vs -> (a <= l < b)%nat.
Proof.
  induction 1 as [|x xs v vs a m b Hx Hxs IH]; intros Hin.
  - by apply elem_of_nil in Hin.
  - apply lay_le in Hx as Hle1. apply lays_le in Hxs as Hle2.
    apply elem_of_cons in Hin as [<-|Hin].
    + apply lay_ref_bounds in Hx. lia.
    + apply IH in Hin. lia.
Qed.

Lemma lay_closed h :
  (forall x v a b, lay h x v a b -> closed h a b) /\
  (forall xs vs a b, lays h xs vs a b -> closed h a b).
Proof.
  apply lay_mutual_ind.
  1-5: intros; intros l o l' Hl; lia.
  - intros xs vs a b Hcell Hl IH l o l' Hr Ho Hin.
    destruct (decide (l = a)) as [->|Hne].
    + rewrite Hcell in Ho. injection Ho as <-. simpl in Hin.
      eapply lays_ref_in in Hin; [|done]. lia.
    + assert (S a <= l' < b)%nat; [|lia]. eapply IH; [|done..]. lia.
  - intros kvs vs a b Hcell Hnd Hl IH l o l' Hr Ho Hin.
    destruct (decide (l = a)) as [->|Hne].
    + rewrite Hcell in Ho. injection Ho as <-. simpl in Hin.
      assert (VRef l' ∈ vs) as Hin'.
      { apply list_elem_of_fmap in Hin as [[k w] [-> Hin]].
        by apply elem_of_zip_r in Hin. }
      eapply lays_ref_in in Hin'; [|done]. lia.
    + assert (S a <= l' < b)%nat; [|lia]. eapply IH; [|done..]. lia.
  - intros a l o l' Hl; lia.
  - intros x xs v vs a m b Hx IHx Hxs IHxs l o l' Hl Ho Hin.
    apply lay_le in Hx as Hle1. apply lays_le in Hxs as Hle2.
    destruct (decide (l < m)%nat).
    + assert (a <= l' < m)%nat; [|lia]. eapply IHx; [|done..]. lia.
    + assert (m <= l' < b)%nat; [|lia]. eapply IHxs; [|done..]. lia.
Qed.

Lemma reach_closed h a b l0 l :
  closed h a b -> (a <= l0 < b)%nat -> reach h (VRef l0) l -> (a <= l < b)%nat.
Proof.
  intros Hc Hl0 Hr. remember (VRef l0) as v eqn:Hv.
  induction Hr as [l|v l o l' Hr IH Ho Hin].
  - injection Hv as ->. done.
  - eapply Hc; [by apply IH|done..].
Qed.

Lemma reach_atomic h v l : atomic v -> ~ reach h v l.
Proof.
  intros Ha Hr. induction Hr; [done | auto].
Qed.

Lemma depth_arr_le xs n :
  (depth (JArr xs) <= S n)%nat -> Forall (fun x => (depth x <= n)%nat) xs.
Proof.
  simpl. intros H. apply le_S_n in H.
  induction xs as [|x xs IH]; simpl in *; constructor; [lia | apply IH; lia].
Qed.

Lemma depth_obj_le kvs n :
  (depth (JObj kvs) <= S n)%nat -> Forall (fun x => (depth x <= n)%nat) (kvs.*2).
Proof.
  simpl. intros H. apply le_S_n in H.
  induction kvs as [|kv kvs IH]; simpl in *; constructor; [lia | apply IH; lia].
Qed.

(** [json.dumps] reads a laid-out value back as its document. *)
Lemma lay_to_json h :
  (forall x v a b, lay h x v a b ->
     forall n, (depth x <= n)%nat -> to_json n v h = Ok x) /\
  (forall xs vs a b, lays h xs vs a b ->
     forall n, Forall (fun x => (depth x <= n)%nat) xs ->
       mapM (fun v => to_json n v h) vs = Ok xs /\
       forall ks, length ks = length xs ->
         mapM (fun kv : string * val => match to_json n (kv.2) h with
                         | Ok j => Ok (kv.1, j)
                         | Raise e => Raise e
                         end) (zip ks vs) = Ok (zip ks xs)).
Proof.
  apply lay_mutual_ind.
  1-5: by intros; destruct n.
  - intros xs vs a b Hcell Hl IH n Hd. destruct n as [|n]; [simpl in Hd; lia|].
    apply depth_arr_le in Hd. cbn [to_json]. rewrite Hcell.
    by destruct (IH n Hd) as [-> _].
  - intros kvs vs a b Hcell Hnd Hl IH n Hd. destruct n as [|n]; [simpl in Hd; lia|].
    apply depth_obj_le in Hd. cbn [to_json]. rewrite Hcell.
    destruct (IH n Hd) as [_ E]. rewrite E by (by rewrite !length_fmap).
    by rewrite zip_fst_snd.
  - intros a n _. split; [done|]. intros ks _. by destruct ks.
  - intros x xs v vs a m b Hx IHx Hxs IHxs n Hd.
    apply Forall_cons in Hd as [Hd1 Hd2].
    destruct (IHxs n Hd2) as [E1 E2]. split.
    + simpl. by rewrite (IHx n Hd1), E1.
    + intros [|k ks] Hlen; [done|]. simpl in *.
      rewrite (IHx n Hd1), E2; [done | lia].
Qed.

Lemma alloc_list_spec xs :
  Forall alloc_ok xs ->
  foldr (fun x P => json_wf x /\ P) True xs ->
  forall h vs h', alloc_list alloc_json xs h = (vs, h') ->
    lays h' xs vs (length h) (length h') /\
    (forall l, (l < length h)%nat -> h' !! l = h !! l).
Proof.
  induction 1 as [|x xs Hx Hxs IH]; simpl; intros Hwf h vs h' E.
  - injection E as <- <-. split; [constructor | done].
  - destruct Hwf as [Hwx Hwxs].
    destruct (alloc_json x h) as [v h1] eqn:E1.
    destruct (alloc_list alloc_json xs h1) as [vs' h2] eqn:E2.
    injection E as <- <-.
    destruct (Hx Hwx _ _ _ E1) as [L1 F1].
    destruct (IH Hwxs _ _ _ E2) as [L2 F2].
    apply lay_le in L1 as Hle1.
    split.
    + econstructor; [|exact L2].
      eapply lay_agree; [exact L1|]. intros l Hl. apply F2. lia.
    + intros l Hl. rewrite F2 by lia. by apply F1.
Qed.

Lemma alloc_members_spec kvs :
  Forall (fun kv => alloc_ok (kv.2)) kvs ->
  foldr (fun kv P => json_wf (kv.2) /\ P) True kvs ->
  forall h kvs' h', alloc_members alloc_json kvs h = (kvs', h') ->
    kvs'.*1 = kvs.*1 /\
    lays h' (kvs.*2) (kvs'.*2) (length h) (length h') /\
    (forall l, (l < length h)%nat -> h' !! l = h !! l).
Proof.
  induction 1 as [|[k x] kvs Hx Hxs IH]; simpl; intros Hwf h kvs' h' E.
  - injection E as <- <-. split; [done|]. split; [constructor | done].
  - destruct Hwf as [Hwx Hwxs].
    destruct (alloc_json x h) as [v h1] eqn:E1.
    destruct (alloc_members alloc_json kvs h1) as [kvs1 h2] eqn:E2.
    injection E as <- <-.
    destruct (Hx Hwx _ _ _ E1) as [L1 F1].
    destruct (IH Hwxs _ _ _ E2) as (K2 & L2 & F2).
    apply lay_le in L1 as Hle1.
    split; [by rewrite !fmap_cons, K2|]. split.
    + rewrite !fmap_cons. econstructor; [|exact L2].
      eapply lay_agree; [exact L1|]. intros l Hl. apply F2. lia.
    + intros l Hl. rewrite F2 by lia. by apply F1.
Qed.

Lemma alloc_json_spec x : alloc_ok x.
Proof.
  induction x as [ | b | z | f | s | xs IH | kvs IH] using json_ind';
    intros Hwf h v h' E; simpl in E.
  1-5: injection E as <- <-; split; [constructor | done].
  - destruct (alloc_list alloc_json xs (h ++ [OList []])) as [vs h1] eqn:E1.
    injection E as <- <-.
    destruct (alloc_list_spec xs IH Hwf _ _ _ E1) as [L F].
    rewrite length_app in L, F. simpl in L, F.
    apply lays_le in L as Hle.
    rewrite length_insert. split.
    + apply lay_arr with (vs := vs).
      * apply list_lookup_insert_eq. lia.
      * replace (S (length h)) with (length h + 1)%nat by lia.
        eapply lays_agree; [exact L|]. intros l Hl.
        apply list_lookup_insert_ne. lia.
    + intros l Hl. rewrite list_lookup_insert_ne by lia.
      rewrite F by lia. by apply lookup_app_l.
  - destruct Hwf as [Hnd Hwf].
    destruct (alloc_members alloc_json kvs (h ++ [ODict []])) as [kvs' h1] eqn:E1.
    injection E as <- <-.
    destruct (alloc_members_spec kvs IH Hwf _ _ _ E1) as (K & L & F).
    rewrite length_app in L, F. simpl in L, F.
    apply lays_le in L as Hle.
    rewrite length_insert. split.
    + apply lay_obj with (vs := kvs'.*2); [|done|].
      * rewrite <- K, zip_fst_snd. apply list_lookup_insert_eq. lia.
      * replace (S (length h)) with (length h + 1)%nat by lia.
        eapply lays_agree; [exact L|]. intros l Hl.
        apply list_lookup_insert_ne. lia.
    + intros l Hl. rewrite list_lookup_insert_ne by lia.
      rewrite F by lia. by apply lookup_app_l.
Qed.

(** ** [copy.deepcopy] *)

Lemma memo_get_cons_ne l l' y mm : l <> l' -> memo_get l ((l', y) :: mm) = memo_get l mm.
Proof. intros Hne. simpl. by apply Nat.eqb_neq in Hne as ->. Qed.

Lemma deepcopy_list_spec n h0 xs vs a b :
  copy_ok n ->
  lays h0 xs vs a b ->
  Forall (fun x => (depth x <= n)%nat) xs ->
  forall h mm y done,
    (forall l, (a <= l < b)%nat -> h !! l = h0 !! l) ->
    ((a < b)%nat -> (b <= y)%nat) ->
    (y < length h)%nat ->
    h !! y = Some (OList done) ->
    (forall l, (a <= l < b)%nat -> memo_get l mm = None) ->
    exists vs' mm' h',
      deepcopy_list (deepcopy n) y vs mm h = Ok (mm', h') /\
      h' !! y = Some (OList (done ++ vs')) /\
      lays h' xs vs' (length h) (length h') /\
      (forall l, (l < length h)%nat -> l <> y -> h' !! l = h !! l) /\
      (forall l, ~ (a <= l < b)%nat -> memo_get l mm' = memo_get l mm).
Proof.
  intros Hcopy Hl. induction Hl as [a|x xs v vs a m b Hx Hxs IH];
    intros Hd h mm y done Hag Hby Hy Hcell Hmm.
  - exists [], mm, h. simpl. rewrite app_nil_r.
    split; [done|]. split; [done|]. split; [constructor|]. done.
  - apply Forall_cons in Hd as [Hd1 Hd2].
    apply lay_le in Hx as Hle1. apply lays_le in Hxs as Hle2.
    assert (lay h x v a m) as Hx'.
    { eapply lay_agree; [exact Hx|]. intros l Hl. apply Hag. lia. }
    destruct (Hcopy x v a m mm h Hx' Hd1) as (v' & mm1 & h1 & E1 & L1 & F1 & M1).
    { intros l Hl. apply Hmm. lia. }
    apply lay_le in L1 as Hle3.
    assert (h1 !! y = Some (OList done)) as Hcell1 by (by rewrite F1).
    set (h2 := <[y := OList (done ++ [v'])]> h1).
    assert (length h2 = length h1) as Hlen2 by apply length_insert.
    destruct (IH Hd2 h2 mm1 y (done ++ [v'])) as (vs' & mm' & h' & E2 & C2 & L2 & F2 & M2).
    { intros l Hl. unfold h2. rewrite list_lookup_insert_ne by lia.
      rewrite F1 by lia. apply Hag. lia. }
    { lia. }
    { lia. }
    { unfold h2. apply list_lookup_insert_eq. lia. }
    { intros l Hl. rewrite M1 by lia. apply Hmm. lia. }
    exists (v' :: vs'), mm', h'. split.
    { simpl. rewrite E1. unfold cell_append. rewrite Hcell1. exact E2. }
    split.
    { rewrite C2. f_equal. f_equal. by rewrite <- app_assoc. }
    split.
    { rewrite Hlen2 in L2. econstructor; [|exact L2].
      eapply lay_agree; [exact L1|]. intros l Hl.
      rewrite F2 by lia. unfold h2. apply list_lookup_insert_ne. lia. }
    split.
    { intros l Hl Hne. rewrite F2 by lia. unfold h2.
      rewrite list_lookup_insert_ne by lia. by apply F1. }
    { intros l Hl. rewrite M2 by lia. apply M1. lia. }
Qed.

Lemma deepcopy_dict_spec n h0 xs vs a b :
  copy_ok n ->
  lays h0 xs vs a b ->
  Forall (fun x => (depth x <= n)%nat) xs ->
  forall ks h mm y done,
    length ks = length xs ->
    NoDup (done.*1 ++ ks) ->
    (forall l, (a <= l < b)%nat -> h !! l = h0 !! l) ->
    ((a < b)%nat -> (b <= y)%nat) ->
    (y < length h)%nat ->
    h !! y = Some (ODict done) ->
    (forall l, (a <= l < b)%nat -> memo_get l mm = None) ->
    exists vs' mm' h',
      deepcopy_dict (deepcopy n) y (zip ks vs) mm h = Ok (mm', h') /\
      h' !! y = Some (ODict (done ++ zip ks vs')) /\
      lays h' xs vs' (length h) (length h') /\
      (forall l, (l < length h)%nat -> l <> y -> h' !! l = h !! l) /\
      (forall l, ~ (a <= l < b)%nat -> memo_get l mm' = memo_get l mm).
Proof.
  intros Hcopy Hl. induction Hl as [a|x xs v vs a m b Hx Hxs IH];
    intros Hd ks h mm y done Hlen Hnd Hag Hby Hy Hcell Hmm.
  - exists [], mm, h. destruct ks; [|done]. simpl. rewrite app_nil_r.
    split; [done|]. split; [done|]. split; [constructor|]. done.
  - destruct ks as [|k ks]; [done|]. simpl in Hlen.
    apply Forall_cons in Hd as [Hd1 Hd2].
    apply lay_le in Hx as Hle1. apply lays_le in Hxs as Hle2.
    assert (lay h x v a m) as Hx'.
    { eapply lay_agree; [exact Hx|]. intros l Hl. apply Hag. lia. }
    destruct (Hcopy x v a m mm h Hx' Hd1) as (v' & mm1 & h1 & E1 & L1 & F1 & M1).
    { intros l Hl. apply Hmm. lia. }
    apply lay_le in L1 as Hle3.
    assert (h1 !! y = Some (ODict done)) as Hcell1 by (by rewrite F1).
    assert (k ∉ done.*1) as Hk.
    { apply NoDup_app in Hnd as (_ & Hdisj & _). intros Hin.
      apply (Hdisj k Hin). apply elem_of_cons. by left. }
    set (h2 := <[y := ODict (done ++ [(k, v')])]> h1).
    assert (length h2 = length h1) as Hlen2 by apply length_insert.
    destruct (IH Hd2 ks h2 mm1 y (done ++ [(k, v')])) as (vs' & mm' & h' & E2 & C2 & L2 & F2 & M2).
    { lia. }
    { rewrite fmap_app. simpl. rewrite <- app_assoc. exact Hnd. }
    { intros l Hl. unfold h2. rewrite list_lookup_insert_ne by lia.
      rewrite F1 by lia. apply Hag. lia. }
    { lia. }
    { lia. }
    { unfold h2. apply list_lookup_insert_eq. lia. }
    { intros l Hl. rewrite M1 by lia. apply Hmm. lia. }
    exists (v' :: vs'), mm', h'. split.
    { simpl. rewrite E1. unfold cell_setitem. rewrite Hcell1.
      rewrite dict_set_fresh by done. exact E2. }
    split.
    { rewrite C2. f_equal. f_equal. by rewrite <- app_assoc. }
    split.
    { rewrite Hlen2 in L2. econstructor; [|exact L2].
      eapply lay_agree; [exact L1|]. intros l Hl.
      rewrite F2 by lia. unfold h2. apply list_lookup_insert_ne. lia. }
    split.
    { intros l Hl Hne. rewrite F2 by lia. unfold h2.
      rewrite list_lookup_insert_ne by lia. by apply F1. }
    { intros l Hl. rewrite M2 by lia. apply M1. lia. }
Qed.

Lemma deepcopy_spec n : copy_ok n.
Proof.
  induction n as [|n IH]; intros x v a b mm h Hlay Hd Hmm.
  - inversion Hlay; subst; simpl in Hd; try lia;
      (eexists _, mm, h; split; [reflexivity|];
       split; [constructor|]; split; done).
  - inversion Hlay as [ | | | | | xs vs a' b' Hcell Hl | kvs vs a' b' Hcell Hnd Hl]; subst;
      try (eexists _, mm, h; split; [reflexivity|];
           split; [constructor|]; split; done).
    + apply lay_ref_bounds in Hlay as (_ & Hab & Hb).
      apply depth_arr_le in Hd.
      destruct (deepcopy_list_spec n h xs vs (S a) b IH Hl Hd
                  (h ++ [OList []]) ((a, length h) :: mm) (length h) [])
        as (vs' & mm' & h' & E & C & L & F & M).
      { intros l Hl'. apply lookup_app_l. lia. }
      { lia. }
      { rewrite length_app. simpl. lia. }
      { by apply list_lookup_middle. }
      { intros l Hl'. rewrite memo_get_cons_ne by lia. apply Hmm. lia. }
      rewrite length_app in L, F. simpl in L, F.
      exists (VRef (length h)), mm', h'. split.
      { cbn [deepcopy]. rewrite Hmm by lia. rewrite Hcell, E. done. }
      split.
      { apply lay_arr with (vs := vs'); [done|].
        by replace (S (length h)) with (length h + 1)%nat by lia. }
      split.
      { intros l Hl'. rewrite F by lia. by apply lookup_app_l. }
      { intros l Hl'. rewrite M by lia. apply memo_get_cons_ne. lia. }
    + apply lay_ref_bounds in Hlay as (_ & Hab & Hb).
      apply depth_obj_le in Hd.
      destruct (deepcopy_dict_spec n h (kvs.*2) vs (S a) b IH Hl Hd (kvs.*1)
                  (h ++ [ODict []]) ((a, length h) :: mm) (length h) [])
        as (vs' & mm' & h' & E & C & L & F & M).
      { by rewrite !length_fmap. }
      { done. }
      { intros l Hl'. apply lookup_app_l. lia. }
      { lia. }
      { rewrite length_app. simpl. lia. }
      { by apply list_lookup_middle. }
      { intros l Hl'. rewrite memo_get_cons_ne by lia. apply Hmm. lia. }
      rewrite length_app in L, F. simpl in L, F.
      exists (VRef (length h)), mm', h'. split.
      { cbn [deepcopy]. rewrite Hmm by lia. rewrite Hcell, E. done. }
      split.
      { apply lay_obj with (vs := vs'); [done|done|].
        by replace (S (length h)) with (length h + 1)%nat by lia. }
      split.
      { intros l Hl'. rewrite F by lia. by apply lookup_app_l. }
      { intros l Hl'. rewrite M by lia. apply memo_get_cons_ne. lia. }
Qed.

(** ** Reading documents back *)

Lemma mapM_Forall2 {A B} (f : A -> result B) xs ys :
  Forall2 (fun x y => f x = Ok y) xs ys -> mapM f xs = Ok ys.
Proof. induction 1 as [|x y xs ys E _ IH]; simpl; [done|]. by rewrite E, IH. Qed.

Lemma mapM_ext_in {A B} (f g : A -> result B) xs :
  (forall x, x ∈ xs -> f x = g x) -> mapM f xs = mapM g xs.
Proof.
  induction xs as [|x xs IH]; simpl; intros H; [done|].
  rewrite (H x) by (by left). rewrite IH; [done|].
  intros y Hy. apply H. by right.
Qed.

Lemma lay_reads h x v a b : lay h x v a b -> reads h v x.
Proof. intros H n Hn. by eapply (proj1 (lay_to_json h)). Qed.

Lemma reads_list h l vs js :
  h !! l = Some (OList vs) -> Forall2 (reads h) vs js -> reads h (VRef l) (JArr js).
Proof.
  intros Hcell HF n Hn. destruct n as [|n]; [simpl in Hn; lia|].
  apply depth_arr_le in Hn. cbn [to_json]. rewrite Hcell.
  rewrite (mapM_Forall2 _ vs js); [done|].
  clear Hcell. induction HF as [|v j vs js Hr _ IH]; [constructor|].
  apply Forall_cons in Hn as [Hn1 Hn2]. constructor; [by apply Hr | by apply IH].
Qed.

Lemma reads_dict h l kvs kjs :
  h !! l = Some (ODict kvs) -> Forall2 (item_reads h) kvs kjs ->
  reads h (VRef l) (JObj kjs).
Proof.
  intros Hcell HF n Hn. destruct n as [|n]; [simpl in Hn; lia|].
  apply depth_obj_le in Hn. cbn [to_json]. rewrite Hcell.
  rewrite (mapM_Forall2 _ kvs kjs); [done|].
  clear Hcell. induction HF as [|[k v] [k' j] kvs kjs [Hk Hr] _ IH]; [constructor|].
  simpl in Hk, Hr. subst k'. rewrite fmap_cons in Hn.
  apply Forall_cons in Hn as [Hn1 Hn2]. constructor; [|by apply IH].
  simpl. by rewrite (Hr n Hn1).
Qed.

Lemma item_reads_set h k x j kvs kjs :
  Forall2 (item_reads h) kvs kjs -> reads h x j ->
  Forall2 (item_reads h) (dict_set k x kvs) (dict_set k j kjs).
Proof.
  intros HF Hx. induction HF as [|[k1 v1] [k2 j2] kvs kjs [Hk Hr] HF IH]; simpl.
  - by repeat constructor.
  - simpl in Hk, Hr. subst k2. destruct (String.eqb k k1).
    + constructor; [done | done].
    + constructor; [done | exact IH].
Qed.

Lemma lays_item_reads h xs vs a b ks :
  lays h xs vs a b -> length ks = length xs ->
  Forall2 (item_reads h) (zip ks vs) (zip ks xs).
Proof.
  intros Hl. revert ks. induction Hl as [a|x xs v vs a m b Hx Hxs IH]; intros ks Hlen.
  - destruct ks; constructor.
  - destruct ks as [|k ks]; [done|]. simpl in *. constructor.
    + split; [done|]. by eapply lay_reads.
    + apply IH. lia.
Qed.

Lemma item_reads_but_nil h kvs kjs :
  Forall2 (item_reads_but h []) kvs kjs -> Forall2 (item_reads h) kvs kjs.
Proof.
  intros H. eapply Forall2_impl; [exact H|].
  intros kv kj [Hk Hr]. split; [done|]. apply Hr, not_elem_of_nil.
Qed.

Lemma item_reads_but_drop h E k kvs kjs :
  Forall2 (item_reads_but h (k :: E)) kvs kjs ->
  k ∉ kvs.*1 ->
  Forall2 (item_reads_but h E) kvs kjs.
Proof.
  induction 1 as [|[k1 v1] [k2 j2] kvs kjs [Hk Hr] HF IH]; intros Hnin; [constructor|].
  rewrite fmap_cons in Hnin. apply not_elem_of_cons in Hnin as [Hne Hnin].
  constructor; [|by apply IH].
  split; [done|]. intros Hn. apply Hr. rewrite not_elem_of_cons. by split.
Qed.

Lemma item_reads_but_set h E k x j kvs kjs :
  Forall2 (item_reads_but h (k :: E)) kvs kjs ->
  NoDup (kvs.*1) ->
  dict_lookup k kvs = Some x ->
  reads h x j ->
  Forall2 (item_reads_but h E) kvs (dict_set k j kjs).
Proof.
  intros HF. induction HF as [|[k1 v1] [k2 j2] kvs kjs [Hk Hr] HF IH];
    simpl; intros Hnd Hlk Hx; [done|].
  simpl in Hk, Hr. subst k2. apply NoDup_cons in Hnd as [Hnin Hnd].
  destruct (String.eqb k k1) eqn:E1.
  - apply String.eqb_eq in E1. subst k1. injection Hlk as ->.
    constructor; [by split|].
    by eapply item_reads_but_drop.
  - apply String.eqb_neq in E1. constructor.
    + split; [done|]. intros Hn. apply Hr. simpl. rewrite not_elem_of_cons. by split.
    + by apply IH.
Qed.

Lemma dict_lookup_elem {A} k (x : A) kvs : dict_lookup k kvs = Some x -> (k, x) ∈ kvs.
Proof.
  induction kvs as [|[k' v] kvs IH]; simpl; [done|].
  destruct (String.eqb k k') eqn:E.
  - apply String.eqb_eq in E. subst k'. intros [= ->]. by left.
  - intros H. right. by apply IH.
Qed.

Lemma lays_item_lay h xs vs a b ks :
  lays h xs vs a b -> length ks = length xs ->
  Forall2 (item_lay h a b (zip ks vs)) (zip ks vs) (zip ks xs).
Proof.
  intros Hl. revert ks. induction Hl as [a|x xs v vs a m b Hx Hxs IH]; intros ks Hlen.
  - destruct ks; constructor.
  - destruct ks as [|k ks]; [done|]. simpl in Hlen.
    apply lay_le in Hx as Hle1. apply lays_le in Hxs as Hle2.
    simpl. constructor.
    + split; [done|]. exists a, m. split; [lia|]. split; [lia|]. split; [done|].
      simpl. intros k' l' Hin Hne Hr.
      apply elem_of_cons in Hin as [[= -> _]|Hin]; [done|].
      apply elem_of_zip_r in Hin. eapply lays_ref_in in Hin; [|done]. lia.
    + eapply Forall2_impl; [apply IH; lia|].
      intros [k1 v1] [k2 j2] (Hk & a' & b' & Ha & Hb & Hlay & Hex).
      split; [done|]. exists a', b'. split; [lia|]. split; [lia|]. split; [done|].
      simpl in *. intros k' l' Hin Hne Hr.
      apply elem_of_cons in Hin as [[= -> <-]|Hin]; [|by eapply Hex].
      apply lay_ref_bounds in Hx. lia.
Qed.

Lemma item_lay_lookup h a b rest kvs kjs k x :
  Forall2 (item_lay h a b rest) kvs kjs ->
  dict_lookup k kjs = Some x ->
  exists v a' b', dict_lookup k kvs = Some v /\ (a <= a')%nat /\ (b' <= b)%nat /\
    lay h x v a' b' /\
    forall k' l', (k', VRef l') ∈ rest -> k' <> k -> ~ (a' <= l' < b')%nat.
Proof.
  induction 1 as [|[k1 v1] [k2 j2] kvs kjs (Hk & a' & b' & Ha & Hb & Hlay & Hex) HF IH];
    simpl; [done|].
  simpl in *. subst k2. destruct (String.eqb k k1) eqn:E.
  - apply String.eqb_eq in E. subst k1. intros [= ->]. eauto 10.
  - auto.
Qed.

(** ** Regions *)

Lemma to_json_region h h' a b :
  closed h a b ->
  (forall l, (a <= l < b)%nat -> h' !! l = h !! l) ->
  forall n v, (forall l, v = VRef l -> (a <= l < b)%nat) ->
    to_json n v h' = to_json n v h.
Proof.
  intros Hc Hag. induction n as [|n IH]; intros v Hv; destruct v as [ | | | | |l]; try done.
  cbn [to_json]. specialize (Hv l eq_refl). rewrite Hag by done.
  destruct (h !! l) as [[vs|kvs]|] eqn:Hcell; [| |done].
  - rewrite (mapM_ext_in _ (fun v => to_json n v h)); [done|].
    intros v Hin. apply IH. intros l' ->. eapply Hc; [exact Hv | exact Hcell | done].
  - rewrite (mapM_ext_in _ (fun kv : string * val =>
               match to_json n (kv.2) h with Ok j => Ok (kv.1, j) | Raise e => Raise e end));
      [done|].
    intros [k v] Hin. simpl. rewrite IH; [done|].
    intros l' ->. eapply Hc; [exact Hv | exact Hcell |].
    simpl. apply list_elem_of_fmap. by exists (k, VRef l').
Qed.

Lemma closed_agree h h' a b :
  closed h a b -> (forall l, (a <= l < b)%nat -> h' !! l = h !! l) -> closed h' a b.
Proof. intros Hc Hag l o l' Hl Ho. rewrite Hag in Ho by done. by eapply Hc. Qed.

Lemma closed_join h a m b :
  (a <= m <= b)%nat -> closed h a m -> closed h m b -> closed h a b.
Proof.
  intros Hm H1 H2 l o l' Hl Ho Hin. destruct (decide (l < m)%nat).
  - assert (a <= l' < m)%nat; [|lia]. eapply H1; [|done..]. lia.
  - assert (m <= l' < b)%nat; [|lia]. eapply H2; [|done..]. lia.
Qed.

Lemma owns_agree h h' v j a b :
  owns h v j a b ->
  (forall l, (a <= l < b)%nat -> h' !! l = h !! l) ->
  (length h <= length h')%nat ->
  owns h' v j a b.
Proof.
  intros (-> & Hab & Hc & Hr) Hag Hlen. split; [done|]. split; [lia|].
  split; [by eapply closed_agree|].
  intros n Hn. rewrite (to_json_region h h' a b); [by apply Hr|done|done|].
  intros l [= <-]. lia.
Qed.

Lemma chain_le h vs js a b : chain h vs js a b -> (a <= b)%nat.
Proof. induction 1 as [|v vs j js a m b (_ & ? & _) _ IH]; lia. Qed.

Lemma chain_bound h vs js a b : chain h vs js a b -> (a < b)%nat -> (b <= length h)%nat.
Proof.
  induction 1 as [|v vs j js a m b (_ & ? & _) Hc IH]; [lia|].
  intros _. apply chain_le in Hc as Hle. destruct (decide (m = b)) as [->|]; [lia|].
  apply IH. lia.
Qed.

Lemma chain_agree h h' vs js a b :
  chain h vs js a b ->
  (forall l, (a <= l < b)%nat -> h' !! l = h !! l) ->
  (length h <= length h')%nat ->
  chain h' vs js a b.
Proof.
  induction 1 as [|v vs j js a m b Ho Hc IH]; intros Hag Hlen; [constructor|].
  pose proof Ho as (_ & ? & _). apply chain_le in Hc as Hle.
  econstructor.
  - eapply owns_agree; [exact Ho| |done]. intros l Hl. apply Hag. lia.
  - apply IH; [|done]. intros l Hl. apply Hag. lia.
Qed.

Lemma chain_snoc h vs js a m b v j :
  chain h vs js a m -> owns h v j m b -> chain h (vs ++ [v]) (js ++ [j]) a b.
Proof.
  induction 1 as [|v0 vs j0 js a m0 m Ho Hc IH]; intros Hv; simpl.
  - econstructor; [exact Hv | constructor].
  - econstructor; [exact Ho | by apply IH].
Qed.

Lemma chain_closed h vs js a b : chain h vs js a b -> closed h a b.
Proof.
  induction 1 as [a|v vs j js a m b (_ & ? & Hc & _) Hch IH].
  - intros l o l' Hl. lia.
  - apply chain_le in Hch. eapply closed_join; [|done..]. lia.
Qed.

Lemma chain_reads h vs js a b : chain h vs js a b -> Forall2 (reads h) vs js.
Proof. induction 1 as [|v vs j js a m b (_ & _ & _ & Hr) _ IH]; constructor; done. Qed.

Lemma chain_ref_in h vs js a b l :
  chain h vs js a b -> VRef l ∈ vs -> (a <= l < b)%nat.
Proof.
  induction 1 as [|v vs j js a m b (-> & ? & _) Hc IH]; intros Hin.
  - by apply elem_of_nil in Hin.
  - apply chain_le in Hc as Hle. apply elem_of_cons in Hin as [[= ->]|Hin]; [lia|].
    apply IH in Hin. lia.
Qed.

(** A list cell followed by the objects it holds owns them all. *)
Lemma owns_list h l vs js b :
  h !! l = Some (OList vs) -> chain h vs js (S l) b ->
  owns h (VRef l) (JArr js) l b.
Proof.
  intros Hcell Hc. apply chain_le in Hc as Hle.
  apply lookup_lt_Some in Hcell as Hl.
  split; [done|]. split.
  { destruct (decide (S l = b)) as [<-|]; [lia|].
    split; [lia|]. eapply chain_bound; [done|lia]. }
  split.
  - intros l1 o l' Hl1 Ho Hin. destruct (decide (l1 = l)) as [->|Hne].
    + rewrite Hcell in Ho. injection Ho as <-. simpl in Hin.
      eapply chain_ref_in in Hin; [|done]. lia.
    + assert (S l <= l' < b)%nat; [|lia].
      eapply (chain_closed _ _ _ _ _ Hc); [|done..]. lia.
  - eapply reads_list; [done|]. by eapply chain_reads.
Qed.

(** ** Running the operations *)

Lemma bind_ok {A B} (m : M A) (f : A -> M B) s a s' :
  m s = (Ok a, s') -> bind m f s = f a s'.
Proof. unfold bind. by intros ->. Qed.

Lemma bind_raise {A B} (m : M A) (f : A -> M B) s e s' :
  m s = (Raise e, s') -> bind m f s = (Raise e, s').
Proof. unfold bind. by intros ->. Qed.

Lemma run_getitem_str h u o l kvs k x :
  h !! l = Some (ODict kvs) -> dict_lookup k kvs = Some x ->
  reading (py_getitem_str (VRef l) k) (State h u o) = (Ok x, State h u o).
Proof. intros Hc Hk. unfold reading, py_getitem_str. simpl. by rewrite Hc, Hk. Qed.

Lemma run_getitem_head h u o l x xs :
  h !! l = Some (OList (x :: xs)) ->
  reading (py_getitem_int (VRef l) 0) (State h u o) = (Ok x, State h u o).
Proof.
  intros Hc. unfold reading, py_getitem_int. simpl. rewrite Hc.
  unfold seq_index. simpl length.
  replace (0 <? 0) with false by done.
  replace (0 <=? 0) with true by done.
  replace (0 <? Z.of_nat (S (length xs))) with true by (symmetry; apply Z.ltb_lt; lia).
  done.
Qed.

Lemma run_dict_get h u o l kvs k d :
  h !! l = Some (ODict kvs) ->
  reading (py_dict_get (VRef l) k d) (State h u o)
  = (Ok (default d (dict_lookup k kvs)), State h u o).
Proof.
  intros Hc. unfold reading, py_dict_get. simpl. rewrite Hc.
  by destruct (dict_lookup k kvs).
Qed.

Lemma run_iter_list h u o l vs :
  h !! l = Some (OList vs) ->
  reading (py_iter (VRef l)) (State h u o) = (Ok vs, State h u o).
Proof. intros Hc. unfold reading, py_iter. simpl. by rewrite Hc. Qed.

Lemma run_setitem h u o l kvs k x :
  h !! l = Some (ODict kvs) ->
  py_setitem_str (VRef l) k x (State h u o)
  = (Ok tt, State (<[l := ODict (dict_set k x kvs)]> h) u o).
Proof. intros Hc. unfold py_setitem_str. simpl. by rewrite Hc. Qed.

Lemma run_append h u o l vs x :
  h !! l = Some (OList vs) ->
  py_append (VRef l) x (State h u o)
  = (Ok tt, State (<[l := OList (vs ++ [x])]> h) u o).
Proof. intros Hc. unfold py_append. simpl. by rewrite Hc. Qed.

Lemma run_alloc h u o ob :
  alloc ob (State h u o) = (Ok (VRef (length h)), State (h ++ [ob]) u o).
Proof. done. Qed.

Lemma run_deepcopy n h u o x v a b :
  lay h x v a b -> (depth x <= n)%nat ->
  exists v' h',
    py_deepcopy n v (State h u o) = (Ok v', State h' u o) /\
    lay h' x v' (length h) (length h') /\
    (forall l, (l < length h)%nat -> h' !! l = h !! l).
Proof.
  intros Hl Hd.
  destruct (deepcopy_spec n x v a b [] h Hl Hd) as (v' & mm' & h' & E & L & F & _); [done|].
  exists v', h'. unfold py_deepcopy. simpl. rewrite E. done.
Qed.

(** ** Immutable values *)

Lemma lay_atomic h x v a b : lay h x v a b -> json_atomic x -> v = atom_val x.
Proof. by inversion 1. Qed.

Lemma atom_val_atomic x : atomic (atom_val x).
Proof. by destruct x. Qed.

Lemma reads_atom_val h x : json_atomic x -> reads h (atom_val x) x.
Proof. intros Hx n _. destruct x; try done; by destruct n. Qed.

Lemma lays_atomic h xs vs a b :
  lays h xs vs a b -> Forall json_atomic xs -> vs = atom_val <$> xs.
Proof.
  induction 1 as [|x xs v vs a m b Hx _ IH]; intros HF; [done|].
  apply Forall_cons in HF as [H1 H2]. rewrite fmap_cons.
  f_equal; [by eapply lay_atomic | by apply IH].
Qed.

Lemma py_eq_int_lay h x v a b i : lay h x v a b -> py_eq_int i v = json_eq_int i x.
Proof. by inversion 1. Qed.

Lemma dict_set_vals_in {A} k (x : A) kvs y :
  y ∈ (dict_set k x kvs).*2 -> y = x \/ y ∈ kvs.*2.
Proof.
  induction kvs as [|[k' v'] kvs IH]; simpl.
  - intros H. apply list_elem_of_singleton in H. by left.
  - destruct (String.eqb k k'); simpl; rewrite !elem_of_cons; [tauto|].
    intros [->|H]; [tauto|]. destruct (IH H); tauto.
Qed.

Lemma closed_update h h' a b l o o' :
  closed h a b ->
  h !! l = Some o -> h' !! l = Some o' ->
  (forall l', (a <= l' < b)%nat -> l' <> l -> h' !! l' = h !! l') ->
  (forall y, y ∈ obj_vals o' -> atomic y \/ y ∈ obj_vals o) ->
  closed h' a b.
Proof.
  intros Hc Ho Ho' Hag Hsub l1 o1 l' Hl1 Ho1 Hin.
  destruct (decide (l1 = l)) as [->|Hne].
  - rewrite Ho' in Ho1. injection Ho1 as <-.
    destruct (Hsub _ Hin) as [Hat|Hin']; [done|]. by eapply Hc.
  - rewrite Hag in Ho1 by done. by eapply Hc.
Qed.

(** ** The loop over the answers of a record *)

Lemma answers_loop fuel ak a0v aa ab bp bpkvs ba arest ci civ la u o :
  (depth (JObj ak) <= fuel)%nat ->
  (forall i, py_eq_int i civ = json_eq_int i ci) ->
  (bp < la)%nat -> (ba < la)%nat -> (ab <= la)%nat ->
  forall texts, Forall json_atomic texts ->
  forall k done djs h,
    h !! bp = Some (ODict bpkvs) ->
    dict_lookup "answers" bpkvs = Some (VRef ba) ->
    h !! ba = Some (OList (a0v :: arest)) ->
    lay h (JObj ak) a0v aa ab ->
    h !! la = Some (OList done) ->
    chain h done djs (S la) (length h) ->
    exists news h',
      for_each (enumerate k (atom_val <$> texts))
        (answer_body fuel (VRef bp) (VRef la) civ) (State h u o)
      = (Ok tt, State h' u o) /\
      h' !! la = Some (OList (done ++ news)) /\
      chain h' (done ++ news)
        (djs ++ imap (fun i => answer_entry ak ci (k + i)) texts) (S la) (length h') /\
      (forall l, (l < length h)%nat -> l <> la -> h' !! l = h !! l) /\
      (length h <= length h')%nat.
Proof.
  intros Hfuel Heq Hbp Hba Hab.
  induction texts as [|t texts IH]; intros Hat k done djs h Hcbp Hans Hcba Hlay Hcla Hch.
  - exists [], h. simpl. rewrite !app_nil_r. done.
  - apply Forall_cons in Hat as [Ht Hat].
    apply lookup_lt_Some in Hcla as Hla.
    (* one pass of the body *)
    destruct (run_deepcopy fuel h u o _ _ _ _ Hlay Hfuel) as (v' & h1 & E1 & L1 & F1).
    pose proof L1 as L1'.
    inversion L1' as [ | | | | | | kvs avs a' b' Hc1 Hnd Hl1]; subst.
    set (c := length h) in *.
    apply lays_le in Hl1 as Hle1.
    set (d1 := dict_set "text" (atom_val t) (zip (ak.*1) avs)).
    set (d2 := dict_set "correct" (VBool (py_eq_int (Z.of_nat k) civ)) d1).
    set (h2 := <[c := ODict d1]> h1).
    set (h3 := <[c := ODict d2]> h2).
    set (h4 := <[la := OList (done ++ [VRef c])]> h3).
    assert (length h4 = length h1) as Hlen4 by (unfold h4, h3, h2; by rewrite !length_insert).
    assert (forall l, l <> c -> l <> la -> h4 !! l = h1 !! l) as Hag4.
    { intros l H1 H2. unfold h4, h3, h2. by rewrite !list_lookup_insert_ne by done. }
    assert (h4 !! c = Some (ODict d2)) as Hc4.
    { unfold h4, h3. rewrite list_lookup_insert_ne by lia.
      apply list_lookup_insert_eq. unfold h2. rewrite length_insert. lia. }
    assert (h4 !! la = Some (OList (done ++ [VRef c]))) as Hla4.
    { unfold h4. apply list_lookup_insert_eq. unfold h3, h2. rewrite !length_insert. lia. }
    (* the new entry owns its cells *)
    assert (owns h4 (VRef c) (answer_entry ak ci k t) c (length h4)) as Hown.
    { split; [done|]. split; [lia|]. split.
      - eapply (closed_update h1 h4 c (length h4) c); [| exact Hc1 | exact Hc4 | |].
        + rewrite Hlen4. by eapply (proj1 (lay_closed h1)).
        + intros l Hl Hne. apply Hag4; lia.
        + intros y Hy. simpl in Hy. unfold d2, d1 in Hy.
          apply dict_set_vals_in in Hy as [->|Hy]; [by left|].
          apply dict_set_vals_in in Hy as [->|Hy]; [left; apply atom_val_atomic|].
          by right.
      - unfold answer_entry. eapply reads_dict; [exact Hc4|].
        unfold d2, d1. rewrite Heq.
        apply item_reads_set; [|by intros [|n] _].
        apply item_reads_set; [|by apply reads_atom_val].
        rewrite <- (zip_fst_snd ak) at 2.
        apply lays_item_reads with (a := S c) (b := length h1); [|by rewrite !length_fmap].
        eapply lays_agree; [exact Hl1|]. intros l Hl. apply Hag4; lia. }
    destruct (IH Hat (S k) (done ++ [VRef c]) (djs ++ [answer_entry ak ci k t]) h4)
      as (news & h' & E & C & Ch & F & Hlen).
    { rewrite Hag4 by lia. by rewrite F1 by lia. }
    { done. }
    { rewrite Hag4 by lia. by rewrite F1 by lia. }
    { eapply lay_agree; [exact Hlay|]. intros l Hl.
      rewrite Hag4 by lia. apply F1. lia. }
    { done. }
    { eapply chain_snoc; [|exact Hown].
      eapply chain_agree; [exact Hch| |lia].
      intros l Hl. rewrite Hag4 by lia. apply F1. lia. }
    exists (VRef c :: news), h'. split.
    { rewrite fmap_cons. cbn [enumerate for_each].
      erewrite bind_ok; [exact E|].
      unfold answer_body.
      erewrite bind_ok by (eapply run_getitem_str; eassumption).
      erewrite bind_ok by (eapply run_getitem_head; eassumption).
      erewrite bind_ok by exact E1.
      erewrite bind_ok by (eapply run_setitem; exact Hc1).
      erewrite bind_ok.
      2:{ eapply run_setitem. apply list_lookup_insert_eq. lia. }
      fold d1 h2.
      erewrite run_append; [done|].
      unfold h2. rewrite !list_lookup_insert_ne by lia. by rewrite F1 by lia. }
    split.
    { rewrite C. by rewrite <- app_assoc. }
    split.
    { rewrite <- !app_assoc in Ch. simpl in Ch.
      rewrite imap_cons.
      replace (k + 0)%nat with k by lia.
      erewrite (imap_ext (_ ∘ S)); [exact Ch|].
      intros i x _. simpl. f_equal. lia. }
    split.
    { intros l Hl Hne. rewrite F by lia. rewrite Hag4 by lia. by apply F1. }
    { lia. }
Qed.

Lemma item_lay_lookup_None h a b rest kvs kjs k :
  Forall2 (item_lay h a b rest) kvs kjs ->
  dict_lookup k kjs = None -> dict_lookup k kvs = None.
Proof.
  induction 1 as [|[k1 v1] [k2 j2] kvs kjs (Hk & _) HF IH]; simpl; [done|].
  simpl in Hk. subst k2. by destruct (String.eqb k k1).
Qed.

Lemma lay_obj_inv h kvs v a b :
  lay h (JObj kvs) v a b ->
  v = VRef a /\ NoDup (kvs.*1) /\ (a < b <= length h)%nat /\
  exists vs, h !! a = Some (ODict (zip (kvs.*1) vs)) /\
    lays h (kvs.*2) vs (S a) b /\
    Forall2 (item_lay h (S a) b (zip (kvs.*1) vs)) (zip (kvs.*1) vs) kvs.
Proof.
  intros H. inversion H as [ | | | | | | kvs' vs a' b' Hc Hnd Hl]; subst.
  apply lay_ref_bounds in H as (_ & ? & ?).
  split; [done|]. split; [done|]. split; [lia|]. exists vs.
  split; [done|]. split; [done|].
  rewrite <- (zip_fst_snd kvs) at 3.
  apply lays_item_lay; [done | by rewrite !length_fmap].
Qed.

Lemma lay_arr_inv h xs v a b :
  lay h (JArr xs) v a b ->
  v = VRef a /\ (a < b <= length h)%nat /\
  exists vs, h !! a = Some (OList vs) /\ lays h xs vs (S a) b.
Proof.
  intros H. inversion H as [ | | | | | xs' vs a' b' Hc Hl | ]; subst.
  apply lay_ref_bounds in H as (_ & ? & ?). eauto 10.
Qed.

(** A record of the list, as the loop body reads it. *)
Lemma record_facts h r qv a b :
  lay h r qv a b -> record_ok r ->
  exists l rkvs rk question texts la,
    r = JObj rk /\ qv = VRef l /\ (l < length h)%nat /\ (la < length h)%nat /\
    h !! l = Some (ODict rkvs) /\
    dict_lookup "question" rk = Some question /\ json_atomic question /\
    dict_lookup "answers" rk = Some (JArr texts) /\ Forall json_atomic texts /\
    dict_lookup "question" rkvs = Some (atom_val question) /\
    dict_lookup "answers" rkvs = Some (VRef la) /\
    h !! la = Some (OList (atom_val <$> texts)) /\
    (forall i, py_eq_int i (default (VInt 0) (dict_lookup "correct_index" rkvs))
               = json_eq_int i (default (JInt 0) (dict_lookup "correct_index" rk))).
Proof.
  intros Hlay (rk & question & texts & -> & Hq & Hqa & Ha & Hta).
  apply lay_obj_inv in Hlay as (-> & Hnd & Hab & vs & Hc & Hl & HF).
  destruct (item_lay_lookup _ _ _ _ _ _ _ _ HF Hq) as (qv & a1 & b1 & Hq' & _ & _ & Lq & _).
  destruct (item_lay_lookup _ _ _ _ _ _ _ _ HF Ha) as (av & a2 & b2 & Ha' & _ & Hb2 & La & _).
  apply lay_atomic in Lq; [|done]. subst qv.
  apply lay_arr_inv in La as (-> & Hab2 & tvs & Hct & Hlt).
  apply lays_atomic in Hlt; [|done]. subst tvs.
  exists a, (zip (rk.*1) vs), rk, question, texts, a2.
  repeat (split; [done || lia|]).
  intros i. destruct (dict_lookup "correct_index" rk) as [ci|] eqn:Hci.
  - destruct (item_lay_lookup _ _ _ _ _ _ _ _ HF Hci) as (civ & a3 & b3 & -> & _ & _ & Lc & _).
    simpl. by eapply py_eq_int_lay.
  - by rewrite (item_lay_lookup_None _ _ _ _ _ _ _ HF Hci).
Qed.

Lemma zip_vals_in {A B} (ks : list A) (vs : list B) y : y ∈ (zip ks vs).*2 -> y ∈ vs.
Proof.
  intros Hin. apply list_elem_of_fmap in Hin as [[k w] [Heq Hin]].
  simpl in Heq. subst w. by apply elem_of_zip_r in Hin.
Qed.

(** ** One pass of the loop over the records *)

Section Pass.
Context {lib : Library}.

Lemma run_uuid4 h u o : draw_uuid4 (State h u o) = (Ok (uuid4 u), State h (S u) o).
Proof. done. Qed.

Ltac heap_ne := rewrite ?list_lookup_insert_ne by lia.

Lemma question_pass fuel h0 qk pk mk ak arest qa qb bp bpkvs ba a0v arestv aa ab :
  lay h0 (JObj qk) (VRef qa) qa qb ->
  dict_lookup "params" qk = Some (JObj pk) ->
  dict_lookup "metadata" qk = Some (JObj mk) ->
  dict_lookup "answers" pk = Some (JArr (JObj ak :: arest)) ->
  (depth (JObj qk) <= fuel)%nat -> (depth (JObj ak) <= fuel)%nat ->
  h0 !! bp = Some (ODict bpkvs) -> dict_lookup "answers" bpkvs = Some (VRef ba) ->
  h0 !! ba = Some (OList (a0v :: arestv)) -> lay h0 (JObj ak) a0v aa ab ->
  forall r qv ra rb i roots gs h u o,
    lay h0 r qv ra rb -> record_ok r ->
    (forall l, (l < length h0)%nat -> h !! l = h0 !! l) ->
    (length h0 < length h)%nat ->
    h !! length h0 = Some (OList roots) ->
    chain h roots gs (S (length h0)) (length h) ->
    exists h' g,
      question_body fuel (VRef qa) (VRef bp) (VRef (length h0)) (i, qv) (State h u o)
      = (Ok tt, State h' (S u) o) /\
      (forall l, (l < length h0)%nat -> h' !! l = h0 !! l) /\
      (length h <= length h')%nat /\
      h' !! length h0 = Some (OList (roots ++ [VRef (length h)])) /\
      project (JObj qk) r i (uuid4 u) = Some g /\
      chain h' (roots ++ [VRef (length h)]) (gs ++ [g]) (S (length h0)) (length h').
Proof.
  intros Hq0 Hp Hm Ha Hfq Hfa Hcbp Hbans Hcba Hla0 r qv ra rb i roots gs h u o
    Hrec Hrok Hlow Hn0 Hnq Hch.
  set (n0 := length h0) in *.
  pose proof (lookup_lt_Some _ _ _ Hcbp) as Hbp.
  pose proof (lookup_lt_Some _ _ _ Hcba) as Hba.
  pose proof (lay_obj_inv _ _ _ _ _ Hla0) as (-> & _ & Hab & _).
  destruct (record_facts _ _ _ _ _ Hrec Hrok)
    as (rl & rkvs & rk & question & texts & rta & -> & -> & Hrl & Hrta & Hcr & Hrq & Hqat
        & Hra & Htat & Hrq' & Hra' & Hct & Hci).
  set (s := length h) in *.
  (* the copy of the skeleton *)
  assert (lay h (JObj qk) (VRef qa) qa qb) as Hq.
  { eapply lay_agree; [exact Hq0|]. intros l Hl. apply Hlow.
    apply lay_ref_bounds in Hq0. lia. }
  destruct (run_deepcopy fuel h u o _ _ _ _ Hq Hfq) as (v' & h1 & E1 & L1 & F1).
  destruct (lay_obj_inv _ _ _ _ _ L1) as (-> & Hnd & He1 & vs & Hcs & Hls & HFs).
  fold s in Hcs, Hls, HFs, He1, F1.
  set (e1 := length h1) in *.
  destruct (item_lay_lookup _ _ _ _ _ _ _ _ HFs Hp)
    as (vp & ap & bp' & Hvp & Hap & Hbp' & Lp & Xp).
  destruct (lay_obj_inv _ _ _ _ _ Lp) as (-> & Hndp & Hapb & pvs & Hcp & Hlp & HFp).
  destruct (item_lay_lookup _ _ _ _ _ _ _ _ HFs Hm)
    as (vm & am & bm & Hvm & Ham & Hbm & Lm & Xm).
  destruct (lay_obj_inv _ _ _ _ _ Lm) as (-> & Hndm & Hamb & mvs & Hcm & Hlm & HFm).
  assert (~ (ap <= am < bp')%nat) as Hpm.
  { eapply Xp; [by eapply dict_lookup_elem | done]. }
  assert (~ (am <= ap < bm)%nat) as Hmp.
  { eapply Xm; [by eapply dict_lookup_elem | done]. }
  (* the stores the pass goes through *)
  set (dp1 := dict_set "question" (atom_val question) (zip (pk.*1) pvs)).
  set (h2 := <[ap := ODict dp1]> h1).
  set (h3 := h2 ++ [OList []]).
  assert (length h2 = e1) as Hlen2 by apply length_insert.
  assert (length h3 = S e1) as Hlen3.
  { unfold h3. rewrite length_app. simpl. lia. }
  assert (forall l, (l < s)%nat -> h3 !! l = h !! l) as Hlow3.
  { intros l Hl. unfold h3. rewrite lookup_app_l by lia.
    unfold h2. heap_ne. by apply F1. }
  set (ci := default (JInt 0) (dict_lookup "correct_index" rk)) in *.
  set (civ := default (VInt 0) (dict_lookup "correct_index" rkvs)) in *.
  destruct (answers_loop fuel ak (VRef aa) aa ab bp bpkvs ba arestv ci civ e1 u o
              Hfa Hci ltac:(lia) ltac:(lia) ltac:(lia) texts Htat 0%nat [] [] h3)
    as (news & h4 & E4 & C4 & Ch4 & F4 & Hlen4).
  { rewrite Hlow3 by lia. by rewrite Hlow by lia. }
  { done. }
  { rewrite Hlow3 by lia. by rewrite Hlow by lia. }
  { eapply lay_agree; [exact Hla0|]. intros l Hl.
    rewrite Hlow3 by lia. apply Hlow. lia. }
  { unfold h3. rewrite <- Hlen2. by apply list_lookup_middle. }
  { rewrite Hlen3. constructor. }
  simpl in C4, Ch4.
  set (answers := imap (fun i => answer_entry ak ci (0 + i)) texts) in *.
  set (dp2 := dict_set "answers" (VRef e1) dp1).
  set (h5 := <[ap := ODict dp2]> h4).
  set (title := VStr ("Vraag " +:+ pretty i)).
  set (dm1 := dict_set "title" title (zip (mk.*1) mvs)).
  set (h6 := <[am := ODict dm1]> h5).
  set (dm2 := dict_set "extraTitle" title dm1).
  set (h7 := <[am := ODict dm2]> h6).
  set (dr := dict_set "subContentId" (VStr (uuid4 u)) (zip (qk.*1) vs)).
  set (h8 := <[s := ODict dr]> h7).
  set (h9 := <[n0 := OList (roots ++ [VRef s])]> h8).
  assert (length h9 = length h4) as Hlen9.
  { unfold h9, h8, h7, h6, h5. by rewrite !length_insert. }
  assert (forall l, l <> ap -> l <> am -> l <> s -> l <> n0 -> h9 !! l = h4 !! l) as Hag9.
  { intros l ? ? ? ?. unfold h9, h8, h7, h6, h5. by heap_ne. }
  assert (forall l, (l < e1)%nat -> l <> ap -> h4 !! l = h1 !! l) as Hag4.
  { intros l Hl Hne. rewrite F4 by lia. unfold h3. rewrite lookup_app_l by lia.
    unfold h2. by heap_ne. }
  assert (h4 !! ap = Some (ODict dp1)) as Hc4p.
  { rewrite F4 by lia. unfold h3. rewrite lookup_app_l by lia.
    unfold h2. apply list_lookup_insert_eq. lia. }
  assert (h9 !! s = Some (ODict dr)) as Hc9s.
  { unfold h9. heap_ne. unfold h8. apply list_lookup_insert_eq.
    unfold h7, h6, h5. rewrite !length_insert. lia. }
  assert (h9 !! ap = Some (ODict dp2)) as Hc9p.
  { unfold h9, h8, h7, h6. heap_ne. unfold h5. apply list_lookup_insert_eq. lia. }
  assert (h9 !! am = Some (ODict dm2)) as Hc9m.
  { unfold h9, h8. heap_ne. unfold h7. apply list_lookup_insert_eq.
    unfold h6, h5. rewrite !length_insert. lia. }
  assert (h9 !! e1 = Some (OList news)) as Hc9a.
  { rewrite Hag9 by lia. done. }
  assert (h9 !! n0 = Some (OList (roots ++ [VRef s]))) as Hc9n.
  { unfold h9. apply list_lookup_insert_eq.
    unfold h8, h7, h6, h5. rewrite !length_insert. lia. }
  assert (forall l, (l < e1)%nat -> l <> ap -> l <> am -> l <> s -> l <> n0 ->
                    h9 !! l = h1 !! l) as Hag91.
  { intros l ? ? ? ? ?. rewrite Hag9 by done. by apply Hag4. }
  (* the answers list *)
  assert (owns h9 (VRef e1) (JArr answers) e1 (length h9)) as Hown_a.
  { apply owns_list with (vs := news); [done|]. rewrite Hlen9.
    eapply chain_agree; [exact Ch4| |lia].
    intros l Hl. apply Hag9; lia. }
  (* the params object *)
  assert (reads h9 (VRef ap)
            (JObj (dict_set "answers" (JArr answers) (dict_set "question" question pk))))
    as Hrp.
  { eapply reads_dict; [exact Hc9p|]. unfold dp2, dp1.
    apply item_reads_set; [|by destruct Hown_a as (_ & _ & _ & ?)].
    apply item_reads_set; [|by apply reads_atom_val].
    rewrite <- (zip_fst_snd pk) at 2.
    apply lays_item_reads with (a := S ap) (b := bp'); [|by rewrite !length_fmap].
    eapply lays_agree; [exact Hlp|]. intros l Hl. apply Hag91; lia. }
  (* the metadata object *)
  assert (reads h9 (VRef am)
            (JObj (dict_set "extraTitle" (JStr (question_label i))
                     (dict_set "title" (JStr (question_label i)) mk)))) as Hrm.
  { eapply reads_dict; [exact Hc9m|]. unfold dm2, dm1.
    apply item_reads_set; [|by intros [|n] _].
    apply item_reads_set; [|by intros [|n] _].
    rewrite <- (zip_fst_snd mk) at 2.
    apply lays_item_reads with (a := S am) (b := bm); [|by rewrite !length_fmap].
    eapply lays_agree; [exact Hlm|]. intros l Hl. apply Hag91; lia. }
  (* the question object *)
  set (g := JObj (dict_set "subContentId" (JStr (uuid4 u))
                    (dict_set "metadata"
                       (JObj (dict_set "extraTitle" (JStr (question_label i))
                                (dict_set "title" (JStr (question_label i)) mk)))
                       (dict_set "params"
                          (JObj (dict_set "answers" (JArr answers)
                                   (dict_set "question" question pk))) qk)))).
  assert (owns h9 (VRef s) g s (length h9)) as Hown.
  { split; [done|]. split; [lia|]. split.
    - intros l ob l' Hl Hob Hin.
      destruct (decide (l = s)) as [->|Hs].
      { rewrite Hc9s in Hob. injection Hob as <-. simpl in Hin. unfold dr in Hin.
        apply dict_set_vals_in in Hin as [?|Hin]; [done|].
        apply zip_vals_in in Hin.
        eapply lays_ref_in in Hin; [|exact Hls]. lia. }
      destruct (decide (l = ap)) as [->|Hap'].
      { rewrite Hc9p in Hob. injection Hob as <-. simpl in Hin. unfold dp2, dp1 in Hin.
        apply dict_set_vals_in in Hin as [[= ->]|Hin]; [lia|].
        apply dict_set_vals_in in Hin as [Hin|Hin].
        { pose proof (atom_val_atomic question) as Hat. by rewrite <- Hin in Hat. }
        apply zip_vals_in in Hin.
        eapply lays_ref_in in Hin; [|exact Hlp]. lia. }
      destruct (decide (l = am)) as [->|Ham'].
      { rewrite Hc9m in Hob. injection Hob as <-. simpl in Hin. unfold dm2, dm1 in Hin.
        apply dict_set_vals_in in Hin as [?|Hin]; [done|].
        apply dict_set_vals_in in Hin as [?|Hin]; [done|].
        apply zip_vals_in in Hin.
        eapply lays_ref_in in Hin; [|exact Hlm]. lia. }
      destruct (decide (l < e1)%nat) as [Hlt|Hge].
      { rewrite Hag91 in Hob by lia.
        assert (s <= l' < e1)%nat; [|lia].
        eapply (proj1 (lay_closed h1) _ _ _ _ L1); [|exact Hob|exact Hin]. lia. }
      destruct Hown_a as (_ & _ & Hca & _).
      assert (e1 <= l' < length h9)%nat; [|lia].
      eapply Hca; [|exact Hob|exact Hin]. lia.
    - eapply reads_dict; [exact Hc9s|]. unfold dr.
      apply item_reads_set; [|by intros [|n] _].
      apply item_reads_but_nil.
      eapply item_reads_but_set; [|by rewrite fst_zip by (apply lays_length in Hls;
                                     rewrite !length_fmap in *; lia)|exact Hvm|exact Hrm].
      eapply item_reads_but_set; [|by rewrite fst_zip by (apply lays_length in Hls;
                                     rewrite !length_fmap in *; lia)|exact Hvp|exact Hrp].
      eapply Forall2_impl; [exact HFs|].
      intros [k1 v1] [k2 j2] (Hk & a' & b' & Ha' & Hb' & Hlay & Hex).
      split; [done|]. simpl in *. intros Hnin.
      apply not_elem_of_cons in Hnin as [Hn1 Hnin].
      apply not_elem_of_cons in Hnin as [Hn2 _].
      eapply lay_reads. eapply lay_agree; [exact Hlay|].
      intros l Hl.
      assert (~ (a' <= ap < b')%nat).
      { eapply Hex; [by eapply dict_lookup_elem | done]. }
      assert (~ (a' <= am < b')%nat).
      { eapply Hex; [by eapply dict_lookup_elem | done]. }
      apply Hag91; lia. }
  exists h9, g. split.
  { unfold question_body.
    erewrite bind_ok by exact E1.
    erewrite bind_ok by (eapply run_getitem_str; [exact Hcs | exact Hvp]).
    erewrite bind_ok.
    2:{ eapply run_getitem_str; [|exact Hrq']. rewrite F1 by lia. by rewrite Hlow by lia. }
    erewrite bind_ok by (eapply run_setitem; exact Hcp).
    fold dp1 h2.
    erewrite bind_ok by apply run_alloc.
    fold h3. rewrite Hlen2.
    erewrite bind_ok.
    2:{ eapply run_dict_get. rewrite Hlow3 by lia. rewrite Hlow by lia. exact Hcr. }
    fold civ.
    erewrite bind_ok.
    2:{ eapply run_getitem_str; [|exact Hra']. rewrite Hlow3 by lia. by rewrite Hlow by lia. }
    erewrite bind_ok.
    2:{ eapply run_iter_list. rewrite Hlow3 by lia. rewrite Hlow by lia. exact Hct. }
    erewrite bind_ok by exact E4.
    erewrite bind_ok by (eapply run_setitem; exact Hc4p).
    fold dp2 h5.
    erewrite bind_ok.
    2:{ eapply run_getitem_str; [|exact Hvm]. unfold h5. heap_ne. by rewrite Hag4 by lia. }
    erewrite bind_ok.
    2:{ eapply run_setitem. unfold h5. heap_ne. by rewrite Hag4 by lia. }
    fold title dm1 h6.
    erewrite bind_ok.
    2:{ eapply run_getitem_str; [|exact Hvm]. unfold h6, h5. heap_ne. by rewrite Hag4 by lia. }
    erewrite bind_ok.
    2:{ eapply run_setitem. unfold h6. apply list_lookup_insert_eq.
        unfold h5. rewrite length_insert. lia. }
    fold dm2 h7.
    erewrite bind_ok by apply run_uuid4.
    erewrite bind_ok.
    2:{ eapply run_setitem. unfold h7, h6, h5. heap_ne. by rewrite Hag4 by lia. }
    fold dr h8.
    erewrite run_append; [done|].
    unfold h8, h7, h6, h5. heap_ne. rewrite F4 by lia. rewrite Hlow3 by lia. done. }
  split.
  { intros l Hl. rewrite Hag9 by lia. rewrite F4 by lia. rewrite Hlow3 by lia.
    by apply Hlow. }
  split; [lia|].
  split; [done|].
  split.
  { unfold project. rewrite Hp, Hm, Hrq, Hra, Ha. done. }
  eapply chain_snoc; [|exact Hown].
  eapply chain_agree; [exact Hch| |lia].
  intros l Hl. rewrite Hag9 by lia. rewrite F4 by lia. apply Hlow3. lia.
Qed.

End Pass.

(** ** The loop over the records *)

Lemma depth_lookup k kvs x :
  dict_lookup k kvs = Some x -> (S (depth x) <= depth (JObj kvs))%nat.
Proof.
  simpl. induction kvs as [|[k' v] kvs IH]; simpl; [done|].
  destruct (String.eqb k k'); [intros [= ->]; lia|].
  intros H. apply IH in H. lia.
Qed.

Lemma depth_head x xs : (S (depth x) <= depth (JArr (x :: xs)))%nat.
Proof. simpl. lia. Qed.

Section Loop.
Context {lib : Library}.

Lemma records_loop fuel h0 qk pk mk ak arest qa qb bp bpkvs ba a0v arestv aa ab :
  lay h0 (JObj qk) (VRef qa) qa qb ->
  dict_lookup "params" qk = Some (JObj pk) ->
  dict_lookup "metadata" qk = Some (JObj mk) ->
  dict_lookup "answers" pk = Some (JArr (JObj ak :: arest)) ->
  (depth (JObj qk) <= fuel)%nat -> (depth (JObj ak) <= fuel)%nat ->
  h0 !! bp = Some (ODict bpkvs) -> dict_lookup "answers" bpkvs = Some (VRef ba) ->
  h0 !! ba = Some (OList (a0v :: arestv)) -> lay h0 (JObj ak) a0v aa ab ->
  forall recs rvs a b, lays h0 recs rvs a b -> Forall record_ok recs ->
  forall i roots gs h u o,
    (forall l, (l < length h0)%nat -> h !! l = h0 !! l) ->
    (length h0 < length h)%nat ->
    h !! length h0 = Some (OList roots) ->
    chain h roots gs (S (length h0)) (length h) ->
    exists h' news gs',
      for_each (enumerate i rvs)
        (question_body fuel (VRef qa) (VRef bp) (VRef (length h0))) (State h u o)
      = (Ok tt, State h' (u + length recs) o) /\
      (forall l, (l < length h0)%nat -> h' !! l = h0 !! l) /\
      (length h <= length h')%nat /\
      h' !! length h0 = Some (OList (roots ++ news)) /\
      chain h' (roots ++ news) (gs ++ gs') (S (length h0)) (length h') /\
      Some <$> gs' = imap (fun k r => project (JObj qk) r (i + k) (uuid4 (u + k))) recs.
Proof.
  intros Hq0 Hp Hm Ha Hfq Hfa Hcbp Hbans Hcba Hla0 recs rvs a b Hl.
  induction Hl as [a|r recs qv rvs a m b Hr Hrs IH];
    intros Hok i roots gs h u o Hlow Hn0 Hnq Hch.
  - exists h, [], []. simpl. rewrite !app_nil_r, Nat.add_0_r. done.
  - apply Forall_cons in Hok as [Hok1 Hok2].
    destruct (question_pass fuel h0 qk pk mk ak arest qa qb bp bpkvs ba a0v arestv aa ab
                Hq0 Hp Hm Ha Hfq Hfa Hcbp Hbans Hcba Hla0
                r qv a m i roots gs h u o Hr Hok1 Hlow Hn0 Hnq Hch)
      as (h1 & g & E1 & Hlow1 & Hlen1 & Hnq1 & Hg & Hch1).
    destruct (IH Hok2 (S i) (roots ++ [VRef (length h)]) (gs ++ [g]) h1 (S u) o
                Hlow1 ltac:(lia) Hnq1 Hch1)
      as (h' & news & gs' & E & Hlow' & Hlen' & Hnq' & Hch' & Hgs).
    exists h', (VRef (length h) :: news), (g :: gs'). split.
    { cbn [enumerate for_each]. erewrite bind_ok by exact E1.
      replace (u + length (r :: recs))%nat with (S u + length recs)%nat by (simpl; lia).
      exact E. }
    split; [done|]. split; [lia|]. split.
    { by rewrite <- app_assoc in Hnq'. }
    split.
    { by rewrite <- !app_assoc in Hch'. }
    rewrite imap_cons, fmap_cons, !Nat.add_0_r, Hg. f_equal.
    rewrite Hgs. apply imap_ext. intros k x _. simpl.
    by replace (i + S k)%nat with (S (i + k)) by lia;
       replace (u + S k)%nat with (S (u + k)) by lia.
Qed.

End Loop.

(** ** [build_questions_from_mc] *)

Lemma lays_cons_inv h x xs vs a b :
  lays h (x :: xs) vs a b ->
  exists v vs' m, vs = v :: vs' /\ lay h x v a m /\ lays h xs vs' m b.
Proof. inversion 1; subst. eauto 10. Qed.

Section Build.
Context {lib : Library}.

Lemma build_unfold fuel mc_questions template_content :
  build_questions_from_mc fuel mc_questions template_content =
  (do questions <- reading (py_getitem_str template_content "questions");
   do base_q <- reading (py_getitem_int questions 0);
   do base_params <- reading (py_getitem_str base_q "params");
   do new_questions <- alloc (OList []);
   do records <- reading (py_iter mc_questions);
   do _ <- for_each (enumerate 1 records)
             (question_body fuel base_q base_params new_questions);
   ret new_questions).
Proof. reflexivity. Qed.

Lemma build_spec fuel h0 doc base_q tpl ta tb recs mcq ra rb u o :
  lay h0 doc tpl ta tb ->
  template_ok doc base_q ->
  has_params base_q ->
  (recs = [] \/ skeleton_ok base_q) ->
  (depth doc <= fuel)%nat ->
  lay h0 (JArr recs) mcq ra rb ->
  Forall record_ok recs ->
  exists h' roots gs,
    build_questions_from_mc fuel mcq tpl (State h0 u o)
    = (Ok (VRef (length h0)), State h' (u + length recs) o) /\
    (forall l, (l < length h0)%nat -> h' !! l = h0 !! l) /\
    (length h0 < length h')%nat /\
    h' !! length h0 = Some (OList roots) /\
    chain h' roots gs (S (length h0)) (length h') /\
    Some <$> gs = imap (fun k r => project base_q r (S k) (uuid4 (u + k))) recs.
Proof.
  intros Hdoc (dkvs & qrest & -> & Hqs) (qk & p & -> & Hp) Hsk Hfuel Hrecs Hok.
  destruct (lay_obj_inv _ _ _ _ _ Hdoc) as (-> & _ & Htab & dvs & Hcd & _ & HFd).
  destruct (item_lay_lookup _ _ _ _ _ _ _ _ HFd Hqs)
    as (qsv & qsa & qsb & Hqsv & _ & _ & Lqs & _).
  destruct (lay_arr_inv _ _ _ _ _ Lqs) as (-> & Hqsab & qvs & Hcqs & Hlqs).
  destruct (lays_cons_inv _ _ _ _ _ _ Hlqs) as (q0v & qvs' & qm & -> & Lq0 & _).
  destruct (lay_obj_inv _ _ _ _ _ Lq0) as (-> & _ & Hqab & q0vs & Hcq0 & _ & HFq).
  destruct (item_lay_lookup _ _ _ _ _ _ _ _ HFq Hp)
    as (pv & pa & pb & Hpv & _ & _ & Lp & _).
  destruct (lay_arr_inv _ _ _ _ _ Hrecs) as (-> & Hrab & rvs & Hcr & Hlr).
  set (n0 := length h0).
  set (h1 := h0 ++ [OList []]).
  assert (forall l, (l < n0)%nat -> h1 !! l = h0 !! l) as Hlow1.
  { intros l Hl. by apply lookup_app_l. }
  assert (length h1 = S n0) as Hlen1.
  { unfold h1. rewrite length_app. simpl. lia. }
  assert (h1 !! n0 = Some (OList [])) as Hnq1 by (by apply list_lookup_middle).
  assert (exists h' roots gs,
    for_each (enumerate 1 rvs) (question_body fuel (VRef (S qsa)) pv (VRef n0)) (State h1 u o)
    = (Ok tt, State h' (u + length recs) o) /\
    (forall l, (l < n0)%nat -> h' !! l = h0 !! l) /\
    (n0 < length h')%nat /\
    h' !! n0 = Some (OList roots) /\
    chain h' roots gs (S n0) (length h') /\
    Some <$> gs = imap (fun k r => project (JObj qk) r (S k) (uuid4 (u + k))) recs) as Hloop.
  { destruct Hsk as [->|(qk' & pk & mk & ak & arest & [= <-] & Hp' & Hm & Ha)].
    - inversion Hlr; subst. exists h1, [], []. simpl. rewrite Nat.add_0_r.
      split; [done|]. split; [done|]. split; [lia|]. split; [done|].
      split; [|done]. rewrite Hlen1. constructor.
    - rewrite Hp in Hp'. injection Hp' as ->.
      destruct (lay_obj_inv _ _ _ _ _ Lp) as (-> & _ & Hpab & pvs & Hcp & _ & HFp).
      destruct (item_lay_lookup _ _ _ _ _ _ _ _ HFp Ha)
        as (av & aa & ab & Hav & _ & _ & La & _).
      destruct (lay_arr_inv _ _ _ _ _ La) as (-> & Haab & avs & Hca & Hla).
      destruct (lays_cons_inv _ _ _ _ _ _ Hla) as (a0v & avs' & am & -> & La0 & _).
      pose proof (depth_lookup _ _ _ Hqs) as D1.
      pose proof (depth_head (JObj qk) qrest) as D2.
      pose proof (depth_lookup _ _ _ Hp) as D3.
      pose proof (depth_lookup _ _ _ Ha) as D4.
      pose proof (depth_head (JObj ak) arest) as D5.
      destruct (records_loop fuel h0 qk pk mk ak arest (S qsa) qm pa
                  (zip (pk.*1) pvs) aa a0v avs' (S aa) am
                  Lq0 Hp Hm Ha ltac:(lia) ltac:(lia) Hcp Hav Hca La0
                  recs rvs (S ra) rb Hlr Hok 1%nat [] [] h1 u o Hlow1 ltac:(lia) Hnq1)
        as (h' & news & gs' & E & Hlow' & Hlen' & Hnq' & Hch' & Hgs).
      { rewrite Hlen1. constructor. }
      exists h', news, gs'. split; [exact E|]. split; [done|]. split; [lia|].
      split; [done|]. split; [done|]. done. }
  destruct Hloop as (h' & roots & gs & E & Hlow' & Hlen' & Hnq' & Hch' & Hgs).
  exists h', roots, gs. split; [|done].
  rewrite build_unfold.
  erewrite bind_ok by (eapply run_getitem_str; [exact Hcd | exact Hqsv]).
  erewrite bind_ok by (eapply run_getitem_head; exact Hcqs).
  erewrite bind_ok by (eapply run_getitem_str; [exact Hcq0 | exact Hpv]).
  erewrite bind_ok by apply run_alloc.
  erewrite bind_ok.
  2:{ eapply run_iter_list. fold h1. rewrite Hlow1 by lia. exact Hcr. }
  fold n0 h1. erewrite bind_ok by exact E. done.
Qed.

End Build.

(** ** Nesting depth of the merged document *)

Lemma depth_dict_set k j kvs :
  (depth (JObj (dict_set k j kvs)) <= Nat.max (depth (JObj kvs)) (S (depth j)))%nat.
Proof.
  simpl. apply le_n_S. induction kvs as [|[k' v] kvs IH]; simpl; [lia|].
  destruct (String.eqb k k'); simpl; lia.
Qed.

Lemma depth_atomic j : json_atomic j -> depth j = O.
Proof. by destruct j. Qed.

Lemma depth_arr_bound xs n :
  Forall (fun x => (depth x <= n)%nat) xs -> (depth (JArr xs) <= S n)%nat.
Proof.
  simpl. intros H. apply le_n_S. induction H; simpl; lia.
Qed.

Lemma depth_obj_pos kvs : (1 <= depth (JObj kvs))%nat.
Proof. simpl. lia. Qed.

Lemma depth_project base_q r i token g :
  project base_q r i token = Some g -> record_ok r -> (depth g <= depth base_q)%nat.
Proof.
  intros Hg (rk & question & texts & -> & Hq & Hqa & Ha & Hta).
  unfold project in Hg. destruct base_q as [ | | | | | |qk]; try done.
  rewrite Hq, Ha in Hg.
  destruct (dict_lookup "params" qk) as [[ | | | | | |pk]|] eqn:Hp; try done.
  destruct (dict_lookup "metadata" qk) as [[ | | | | | |mk]|] eqn:Hm; try done.
  destruct (dict_lookup "answers" pk) as [[ | | | | |[|[ | | | | | |ak] arest]| ]|] eqn:Hans;
    try done.
  injection Hg as <-.
  pose proof (depth_lookup _ _ _ Hp) as D1.
  pose proof (depth_lookup _ _ _ Hm) as D2.
  pose proof (depth_lookup _ _ _ Hans) as D3.
  pose proof (depth_head (JObj ak) arest) as D4.
  pose proof (depth_obj_pos ak) as D5.
  set (ci := default (JInt 0) (dict_lookup "correct_index" rk)).
  assert (depth (JArr (imap (answer_entry ak ci) texts)) <= S (depth (JObj ak)))%nat as DA.
  { apply depth_arr_bound. apply Forall_forall. intros x Hx.
    apply list_elem_of_lookup in Hx as [k Hx]. rewrite list_lookup_imap in Hx.
    destruct (texts !! k) as [t|] eqn:Ht; [|done]. injection Hx as <-.
    unfold answer_entry.
    pose proof (depth_dict_set "correct"
      (JBool (json_eq_int (Z.of_nat k) ci)) (dict_set "text" t ak)) as E1.
    pose proof (depth_dict_set "text" t ak) as E2.
    assert (depth t = O) as Et.
    { apply depth_atomic. eapply Forall_forall in Hta; [exact Hta|].
      apply list_elem_of_lookup. eauto. }
    rewrite Et in E2. simpl depth at 3 in E1. lia. }
  set (answers := JArr (imap (answer_entry ak ci) texts)) in *.
  pose proof (depth_dict_set "answers" answers (dict_set "question" question pk)) as E3.
  pose proof (depth_dict_set "question" question pk) as E4.
  rewrite (depth_atomic question Hqa) in E4.
  set (params := JObj (dict_set "answers" answers (dict_set "question" question pk))) in *.
  set (title := JStr (question_label i)).
  pose proof (depth_dict_set "extraTitle" title (dict_set "title" title mk)) as E5.
  pose proof (depth_dict_set "title" title mk) as E6.
  set (metadata := JObj (dict_set "extraTitle" title (dict_set "title" title mk))) in *.
  pose proof (depth_dict_set "subContentId" (JStr token)
    (dict_set "metadata" metadata (dict_set "params" params qk))) as E7.
  pose proof (depth_dict_set "metadata" metadata (dict_set "params" params qk)) as E8.
  pose proof (depth_dict_set "params" params qk) as E9.
  pose proof (depth_obj_pos qk) as D6.
  simpl depth at 3 in E5. simpl depth at 3 in E6. simpl depth at 3 in E7.
  lia.
Qed.

(** ** Writing the output archive *)

Lemma last_elem {A} (xs : list A) x : last xs = Some x -> x ∈ xs.
Proof.
  intros H. apply last_Some in H as [l' ->]. apply elem_of_app. right. by left.
Qed.

Lemma zip_getinfo_elem zin name m :
  zip_getinfo zin name = Ok m -> m ∈ zin /\ zm_filename m = name.
Proof.
  unfold zip_getinfo.
  destruct (last (filter (fun m => zm_filename m = name) zin)) as [m'|] eqn:E; [|done].
  intros [= ->]. apply last_elem in E. by apply list_elem_of_filter in E as [? ?].
Qed.

Lemma zip_getinfo_member zin item :
  item ∈ zin -> exists m, zip_getinfo zin (zm_filename item) = Ok m.
Proof.
  intros Hin. unfold zip_getinfo.
  destruct (last (filter (fun m => zm_filename m = zm_filename item) zin)) as [m|] eqn:E;
    [by eauto|].
  apply last_None in E.
  assert (item ∈ filter (fun m => zm_filename m = zm_filename item) zin) as Hf.
  { by apply list_elem_of_filter. }
  rewrite E in Hf. by apply elem_of_nil in Hf.
Qed.

Lemma zip_read_member zin item :
  readable zin -> item ∈ zin ->
  zip_read zin (zm_filename item) = Ok (read_payload zin (zm_filename item)).
Proof.
  intros Hr Hin. unfold read_payload, zip_read.
  destruct (zip_getinfo_member zin item Hin) as [m Hm]. rewrite Hm.
  apply zip_getinfo_elem in Hm as [Hm _].
  eapply Forall_forall in Hr as [data Hd]; [|exact Hm]. by rewrite Hd.
Qed.

Lemma copy_loop zin new_content_bytes h u :
  readable zin ->
  forall items es, items ⊆ zin ->
    for_each items (copy_body zin new_content_bytes) (State h u (Some es))
    = (Ok tt, State h u (Some (es ++ (output_entry zin new_content_bytes <$> items)))).
Proof.
  intros Hr. induction items as [|item items IH]; intros es Hsub.
  - simpl. by rewrite app_nil_r.
  - cbn [for_each]. erewrite bind_ok.
    2:{ unfold copy_body. erewrite bind_ok.
        2:{ unfold lift. rewrite zip_read_member; [done|done|]. apply Hsub. by left. }
        unfold zip_writestr. simpl. reflexivity. }
    rewrite IH.
    + rewrite fmap_cons, <- app_assoc. done.
    + intros x Hx. apply Hsub. by right.
Qed.

(** ** [create_h5p_from_template] *)

Section Create.
Context {lib : Library}.

Lemma merged_questions_lookup base_q u recs gs k g :
  Some <$> gs = merged_questions base_q u recs ->
  gs !! k = Some g ->
  exists r, recs !! k = Some r /\ project base_q r (S k) (uuid4 (u + k)) = Some g.
Proof.
  intros Hgs Hk. assert ((Some <$> gs) !! k = Some (Some g)) as H.
  { by rewrite list_lookup_fmap, Hk. }
  rewrite Hgs in H. unfold merged_questions in H. rewrite list_lookup_imap in H.
  destruct (recs !! k) as [r|]; [|done]. simpl in H. injection H as H. eauto.
Qed.

Lemma merged_questions_length base_q u recs gs :
  Some <$> gs = merged_questions base_q u recs -> length gs = length recs.
Proof.
  intros H. apply (f_equal length) in H.
  unfold merged_questions in H. by rewrite length_fmap, length_imap in H.
Qed.

Lemma depth_merged doc base_q u recs gs dkvs :
  doc = JObj dkvs ->
  template_ok doc base_q ->
  Forall record_ok recs ->
  Some <$> gs = merged_questions base_q u recs ->
  (depth (JObj (dict_set "questions" (JArr gs) dkvs)) <= depth doc)%nat.
Proof.
  intros -> (dkvs' & qrest & [= <-] & Hqs) Hok Hgs.
  pose proof (depth_dict_set "questions" (JArr gs) dkvs) as E1.
  pose proof (depth_lookup _ _ _ Hqs) as D1.
  pose proof (depth_head base_q qrest) as D2.
  assert (depth (JArr gs) <= S (depth base_q))%nat; [|lia].
  apply depth_arr_bound. apply Forall_forall. intros g Hg.
  apply list_elem_of_lookup in Hg as [k Hk].
  destruct (merged_questions_lookup _ _ _ _ _ _ Hgs Hk) as (r & Hr & Hp).
  eapply depth_project; [exact Hp|].
  eapply Forall_forall in Hok; [exact Hok|]. apply list_elem_of_lookup. eauto.
Qed.

Lemma run_load_json j h u o v h' :
  alloc_json j h = (v, h') -> load_json j (State h u o) = (Ok v, State h' u o).
Proof. unfold load_json. cbn [st_heap]. by intros ->. Qed.

Lemma create_unfold fuel zin mc_questions :
  create_h5p_from_template fuel zin mc_questions =
  (do raw <- lift (zip_read zin content_path);
   do text <- lift (utf8_decode raw);
   do doc <- lift (json_loads text);
   do content_json <- load_json doc;
   do new_questions <- build_questions_from_mc fuel mc_questions content_json;
   do _ <- py_setitem_str content_json "questions" new_questions;
   do out_doc <- reading (to_json fuel content_json);
   do new_content_bytes <- lift (utf8_encode (json_dumps out_doc));
   do _ <- open_output;
   for_each zin (copy_body zin new_content_bytes)).
Proof. reflexivity. Qed.

(** The call on a template and records of the expected shape, up to
    the copy loop: the questions are built and put in, the document is
    serialised, and either the encoding raises, with no output opened,
    or the loop starts on an empty output. *)
Lemma create_steps fuel zin raw text doc base_q recs mcq ra rb h0 u o :
  zip_read zin content_path = Ok raw ->
  utf8_decode raw = Ok text ->
  json_loads text = Ok doc ->
  template_ok doc base_q ->
  has_params base_q ->
  (recs = [] \/ skeleton_ok base_q) ->
  (depth doc <= fuel)%nat ->
  lay h0 (JArr recs) mcq ra rb ->
  Forall record_ok recs ->
  exists h' dkvs gs,
    doc = JObj dkvs /\
    Some <$> gs = merged_questions base_q u recs /\
    (forall l, (l < length h0)%nat -> h' !! l = h0 !! l) /\
    create_h5p_from_template fuel zin mcq (State h0 u o)
    = match utf8_encode (json_dumps (JObj (dict_set "questions" (JArr gs) dkvs))) with
      | Ok new_content_bytes =>
          for_each zin (copy_body zin new_content_bytes)
            (State h' (u + length recs) (Some []))
      | Raise e => (Raise e, State h' (u + length recs) o)
      end.
Proof.
  intros Hraw Htext Hdoc Htpl Hpar Hsk Hfuel Hrecs Hok.
  pose proof (json_loads_wf _ _ Hdoc) as Hwf.
  destruct (alloc_json doc h0) as [tpl h1] eqn:Ealloc.
  destruct (alloc_json_spec doc Hwf _ _ _ Ealloc) as [Ldoc F1].
  pose proof (lay_le _ _ _ _ _ Ldoc) as Hle1.
  destruct (lay_arr_inv _ _ _ _ _ Hrecs) as (Hmcq & Hrab & _).
  assert (lay h1 (JArr recs) mcq ra rb) as Hrecs1.
  { eapply lay_agree; [exact Hrecs|]. intros l Hl. apply F1. lia. }
  destruct (build_spec fuel h1 doc base_q tpl _ _ recs mcq ra rb u o
              Ldoc Htpl Hpar Hsk Hfuel Hrecs1 Hok)
    as (h2 & roots & gs & E2 & F2 & Hlen2 & Hnq2 & Hch2 & Hgs).
  pose proof Htpl as (dkvs & qrest & -> & Hqs).
  destruct (lay_obj_inv _ _ _ _ _ Ldoc) as (-> & _ & Hab & dvs & Hcd & Hld & _).
  set (ta := length h0) in *. set (n1 := length h1) in *.
  set (d' := dict_set "questions" (VRef n1) (zip (dkvs.*1) dvs)).
  set (h3 := <[ta := ODict d']> h2).
  set (out_doc := JObj (dict_set "questions" (JArr gs) dkvs)).
  assert (reads h3 (VRef ta) out_doc) as Hreads.
  { eapply reads_dict.
    { unfold h3. apply list_lookup_insert_eq. lia. }
    unfold d'. apply item_reads_set.
    - rewrite <- (zip_fst_snd dkvs) at 2.
      apply lays_item_reads with (a := S ta) (b := n1); [|by rewrite !length_fmap].
      eapply lays_agree; [exact Hld|]. intros l Hl.
      unfold h3. rewrite list_lookup_insert_ne by lia. apply F2. lia.
    - assert (owns h2 (VRef n1) (JArr gs) n1 (length h2)) as Hown.
      { by apply owns_list with (vs := roots). }
      eapply owns_agree with (h' := h3) in Hown as (_ & _ & _ & Hr); [exact Hr| |].
      + intros l Hl. unfold h3. apply list_lookup_insert_ne. lia.
      + unfold h3. by rewrite length_insert. }
  exists h3, dkvs, gs. split; [done|]. split; [done|]. split.
  { intros l Hl. unfold h3. rewrite list_lookup_insert_ne by lia.
    rewrite F2 by lia. by apply F1. }
  rewrite create_unfold.
  erewrite bind_ok by (unfold lift; by rewrite Hraw).
  erewrite bind_ok by (unfold lift; by rewrite Htext).
  erewrite bind_ok by (unfold lift; by rewrite Hdoc).
  erewrite bind_ok by (apply run_load_json; exact Ealloc).
  erewrite bind_ok by exact E2.
  erewrite bind_ok.
  2:{ eapply run_setitem. rewrite F2 by lia. exact Hcd. }
  fold d' h3.
  erewrite bind_ok.
  2:{ unfold reading. simpl. rewrite Hreads; [done|].
      etransitivity; [|exact Hfuel].
      by eapply depth_merged. }
  cbv beta. subst out_doc.
  destruct (utf8_encode (json_dumps (JObj (dict_set "questions" (JArr gs) dkvs))))
    as [nb|e] eqn:Eenc.
  - erewrite bind_ok by reflexivity.
    erewrite bind_ok by (unfold open_output; simpl; reflexivity).
    reflexivity.
  - by apply bind_raise.
Qed.

(** The same call when every member of the archive can be read: the
    whole archive is written, unless the encoding raises. *)
Lemma create_spec fuel zin raw text doc base_q recs mcq ra rb h0 u o :
  zip_read zin content_path = Ok raw ->
  utf8_decode raw = Ok text ->
  json_loads text = Ok doc ->
  template_ok doc base_q ->
  has_params base_q ->
  (recs = [] \/ skeleton_ok base_q) ->
  (depth doc <= fuel)%nat ->
  lay h0 (JArr recs) mcq ra rb ->
  Forall record_ok recs ->
  readable zin ->
  exists h' dkvs gs,
    doc = JObj dkvs /\
    Some <$> gs = merged_questions base_q u recs /\
    (forall l, (l < length h0)%nat -> h' !! l = h0 !! l) /\
    create_h5p_from_template fuel zin mcq (State h0 u o)
    = match utf8_encode (json_dumps (JObj (dict_set "questions" (JArr gs) dkvs))) with
      | Ok new_content_bytes =>
          (Ok tt,
           State h' (u + length recs) (Some (output_entry zin new_content_bytes <$> zin)))
      | Raise e => (Raise e, State h' (u + length recs) o)
      end.
Proof.
  intros Hraw Htext Hdoc Htpl Hpar Hsk Hfuel Hrecs Hok Hread.
  destruct (create_steps fuel zin raw text doc base_q recs mcq ra rb h0 u o)
    as (h' & dkvs & gs & Hd & Hgs & F & E); try done.
  exists h', dkvs, gs. split; [done|]. split; [done|]. split; [done|].
  rewrite E. destruct (utf8_encode _) as [nb|e]; [|done].
  by rewrite copy_loop.
Qed.

End Create.

(** ** Sharing *)

Lemma reach_trans h v l l' : reach h v l -> reach h (VRef l) l' -> reach h v l'.
Proof.
  intros H1 H2. remember (VRef l) as w eqn:Hw. revert l H1 Hw.
  induction H2 as [l0|w l0 o l1 H2 IH Ho Hin]; intros l H1 Hw.
  - by injection Hw as ->.
  - eapply reach_into; [by eapply IH|done..].
Qed.

(** [json.dumps] only looks at what its argument reaches. *)
Lemma to_json_reach h h' n v :
  (forall l, reach h v l -> h' !! l = h !! l) ->
  to_json n v h' = to_json n v h.
Proof.
  revert v. induction n as [|n IH]; intros v Hag; destruct v as [ | | | | |l]; try done.
  cbn [to_json]. rewrite Hag by constructor.
  destruct (h !! l) as [[vs|kvs]|] eqn:Hcell; [| |done].
  - rewrite (mapM_ext_in _ (fun v => to_json n v h)); [done|].
    intros v Hin. apply IH. intros l' Hr. apply Hag.
    destruct v as [ | | | | |l0]; try by (exfalso; eapply reach_atomic; [|exact Hr]).
    eapply reach_trans; [|exact Hr]. eapply reach_into; [constructor|exact Hcell|done].
  - rewrite (mapM_ext_in _ (fun kv : string * val =>
               match to_json n (kv.2) h with Ok j => Ok (kv.1, j) | Raise e => Raise e end));
      [done|].
    intros [k v] Hin. simpl. rewrite IH; [done|].
    intros l' Hr. apply Hag.
    destruct v as [ | | | | |l0]; try by (exfalso; eapply reach_atomic; [|exact Hr]).
    eapply reach_trans; [|exact Hr]. eapply reach_into; [constructor|exact Hcell|].
    simpl. apply list_elem_of_fmap. by exists (k, VRef l0).
Qed.

Lemma owns_reach h v j a b l : owns h v j a b -> reach h v l -> (a <= l < b)%nat.
Proof.
  intros (-> & Hab & Hc & _) Hr. eapply reach_closed; [exact Hc| |exact Hr]. lia.
Qed.

Lemma chain_reach h vs js a b i v l :
  chain h vs js a b -> vs !! i = Some v -> reach h v l -> (a <= l < b)%nat.
Proof.
  intros Hc. revert i. induction Hc as [|v0 vs j0 js a m b Ho Hc IH]; intros i Hi Hr; [done|].
  pose proof Ho as (_ & ? & _). apply chain_le in Hc as Hle.
  destruct i as [|i]; simpl in Hi.
  - injection Hi as ->. eapply owns_reach in Hr; [|exact Ho]. lia.
  - eapply IH in Hr; [|exact Hi]. lia.
Qed.

(** Objects of a chain share nothing. *)
Lemma chain_lt_disjoint h vs js a b i k vi vk l :
  chain h vs js a b -> (i < k)%nat ->
  vs !! i = Some vi -> vs !! k = Some vk ->
  reach h vi l -> reach h vk l -> False.
Proof.
  intros Hc. revert i k. induction Hc as [|v0 vs j0 js a m b Ho Hc IH];
    intros i k Hik Hi Hk Hri Hrk; [done|].
  destruct k as [|k]; [lia|]. simpl in Hk. destruct i as [|i]; simpl in Hi.
  - injection Hi as ->. eapply owns_reach in Hri; [|exact Ho].
    eapply chain_reach in Hrk; [|exact Hc|exact Hk]. lia.
  - eapply IH; [|exact Hi|exact Hk|done..]. lia.
Qed.

Lemma chain_disjoint h vs js a b i k vi vk l :
  chain h vs js a b -> i <> k ->
  vs !! i = Some vi -> vs !! k = Some vk ->
  reach h vi l -> reach h vk l -> False.
Proof.
  intros Hc Hne Hi Hk Hri Hrk. destruct (decide (i < k)%nat).
  - by eapply (chain_lt_disjoint h vs js a b i k).
  - eapply (chain_lt_disjoint h vs js a b k i); [done|lia|done..].
Qed.

Lemma chain_length h vs js a b : chain h vs js a b -> length vs = length js.
Proof. induction 1; simpl; auto. Qed.

(** ** The output file *)

Lemma bind_cases {A B} (m : M A) (f : A -> M B) s r s' :
  bind m f s = (r, s') ->
  (exists e, m s = (Raise e, s') /\ r = Raise e) \/
  (exists a s1, m s = (Ok a, s1) /\ f a s1 = (r, s')).
Proof.
  unfold bind. destruct (m s) as [[a|e] s1]; intros H.
  - right. eauto.
  - left. injection H as <- <-. eauto.
Qed.

Lemma keeps_out_bind {A B} (m : M A) (f : A -> M B) :
  keeps_out m -> (forall a, keeps_out (f a)) -> keeps_out (bind m f).
Proof.
  intros Hm Hf s r s' H. apply bind_cases in H as [(e & H & _)|(a & s1 & H1 & H2)].
  - by eapply Hm.
  - apply Hm in H1. apply Hf in H2. congruence.
Qed.

Lemma keeps_out_ret {A} (a : A) : keeps_out (ret a).
Proof. by intros s r s' [= _ <-]. Qed.

Lemma keeps_out_lift {A} (x : result A) : keeps_out (lift x).
Proof. by intros s r s' [= _ <-]. Qed.

Lemma keeps_out_reading {A} (f : heap -> result A) : keeps_out (reading f).
Proof. by intros s r s' [= _ <-]. Qed.

Lemma keeps_out_alloc o : keeps_out (alloc o).
Proof. by intros s r s' [= _ <-]. Qed.

Lemma keeps_out_load_json j : keeps_out (load_json j).
Proof.
  intros s r s'. unfold load_json. destruct (alloc_json j (st_heap s)). by intros [= _ <-].
Qed.

Lemma keeps_out_setitem v k x : keeps_out (py_setitem_str v k x).
Proof.
  intros s r s'. unfold py_setitem_str.
  destruct v as [ | | | | |l]; try by intros [= _ <-].
  destruct (st_heap s !! l) as [[?|?]|]; by intros [= _ <-].
Qed.

Lemma keeps_out_append v x : keeps_out (py_append v x).
Proof.
  intros s r s'. unfold py_append.
  destruct v as [ | | | | |l]; try by intros [= _ <-].
  destruct (st_heap s !! l) as [[?|?]|]; by intros [= _ <-].
Qed.

Lemma keeps_out_deepcopy n v : keeps_out (py_deepcopy n v).
Proof.
  intros s r s'. unfold py_deepcopy.
  destruct (deepcopy n v [] (st_heap s)) as [[[? ?] ?]|?]; by intros [= _ <-].
Qed.

Lemma keeps_out_for_each {A} (xs : list A) (body : A -> M unit) :
  (forall x, keeps_out (body x)) -> keeps_out (for_each xs body).
Proof.
  intros Hb. induction xs as [|x xs IH]; simpl.
  - apply keeps_out_ret.
  - apply keeps_out_bind; [apply Hb | by intros _].
Qed.

Section Output.
Context {lib : Library}.

Lemma keeps_out_uuid4 : keeps_out draw_uuid4.
Proof. by intros s r s' [= _ <-]. Qed.

Lemma keeps_out_build fuel mcq tpl : keeps_out (build_questions_from_mc fuel mcq tpl).
Proof.
  unfold build_questions_from_mc.
  repeat first
    [ apply keeps_out_reading | apply keeps_out_alloc | apply keeps_out_ret
    | apply keeps_out_deepcopy | apply keeps_out_setitem | apply keeps_out_append
    | apply keeps_out_uuid4
    | apply keeps_out_bind; [|intros ?]
    | apply keeps_out_for_each; intros [? ?] ].
Qed.

(** The copy loop, whatever its outcome: all entries written, or the
    entries before the first member that could not be read. *)
Lemma copy_loop_outcome zin nb h u items :
  forall es r s',
    for_each items (copy_body zin nb) (State h u (Some es)) = (r, s') ->
    (r = Ok tt /\ s' = State h u (Some (es ++ (output_entry zin nb <$> items))) /\
     Forall (fun item => exists data, zip_read zin (zm_filename item) = Ok data) items) \/
    (exists e k item,
       r = Raise e /\ items !! k = Some item /\
       zip_read zin (zm_filename item) = Raise e /\
       s' = State h u (Some (es ++ (output_entry zin nb <$> take k items)))).
Proof.
  induction items as [|item items IH]; intros es r s' H.
  - left. injection H as <- <-. rewrite app_nil_r. done.
  - cbn [for_each] in H. apply bind_cases in H as [(e & H & ->)|([] & s1 & H1 & H2)].
    + right. exists e, 0%nat, item. unfold copy_body in H.
      apply bind_cases in H as [(e' & H & [= <-])|(data & s2 & H1 & H2)].
      * unfold lift in H. injection H as H <-. rewrite app_nil_r. done.
      * unfold lift in H1. injection H1 as _ <-. done.
    + unfold copy_body in H1.
      apply bind_cases in H1 as [(e' & _ & ?)|(data & s2 & H1 & H3)]; [done|].
      unfold lift in H1. injection H1 as Hread <-.
      unfold zip_writestr in H3. simpl in H3. injection H3 as <-.
      assert (output_entry zin nb item =
              (zm_filename item,
               if String.eqb (zm_filename item) content_path then nb else data)) as Hent.
      { unfold output_entry, read_payload. by rewrite Hread. }
      rewrite <- Hent in H2.
      apply IH in H2 as [(-> & -> & HF)|(e & k & it & -> & Hk & Hr & ->)].
      * left. rewrite fmap_cons, <- app_assoc. split; [done|]. split; [done|].
        constructor; [by eauto | done].
      * right. exists e, (S k), it. rewrite <- app_assoc. done.
Qed.

(** [create_h5p_from_template], whatever its outcome: an exception
    before the output is opened, or the copy loop run on a fresh
    output file. *)
Lemma create_outcome fuel zin mcq s r s' :
  create_h5p_from_template fuel zin mcq s = (r, s') ->
  (exists e, r = Raise e /\ st_out s' = st_out s) \/
  (exists out_doc new_content_bytes h u,
     utf8_encode (json_dumps out_doc) = Ok new_content_bytes /\
     for_each zin (copy_body zin new_content_bytes) (State h u (Some [])) = (r, s')).
Proof.
  rewrite create_unfold. intros H.
  apply bind_cases in H as [(e & H & ->)|(raw & s1 & H1 & H)].
  { left. exists e. split; [done|]. by apply keeps_out_lift in H. }
  apply keeps_out_lift in H1 as O1.
  apply bind_cases in H as [(e & H & ->)|(text & s2 & H2 & H)].
  { left. exists e. split; [done|]. apply keeps_out_lift in H. congruence. }
  apply keeps_out_lift in H2 as O2.
  apply bind_cases in H as [(e & H & ->)|(doc & s3 & H3 & H)].
  { left. exists e. split; [done|]. apply keeps_out_lift in H. congruence. }
  apply keeps_out_lift in H3 as O3.
  apply bind_cases in H as [(e & H & ->)|(tpl & s4 & H4 & H)].
  { left. exists e. split; [done|]. apply keeps_out_load_json in H. congruence. }
  apply keeps_out_load_json in H4 as O4.
  apply bind_cases in H as [(e & H & ->)|(nq & s5 & H5 & H)].
  { left. exists e. split; [done|]. apply keeps_out_build in H. congruence. }
  apply keeps_out_build in H5 as O5.
  apply bind_cases in H as [(e & H & ->)|([] & s6 & H6 & H)].
  { left. exists e. split; [done|]. apply keeps_out_setitem in H. congruence. }
  apply keeps_out_setitem in H6 as O6.
  apply bind_cases in H as [(e & H & ->)|(out_doc & s7 & H7 & H)].
  { left. exists e. split; [done|]. apply keeps_out_reading in H. congruence. }
  apply keeps_out_reading in H7 as O7.
  apply bind_cases in H as [(e & H & ->)|(nb & s8 & H8 & H)].
  { left. exists e. split; [done|]. apply keeps_out_lift in H. congruence. }
  unfold lift in H8. injection H8 as Henc <-.
  apply bind_cases in H as [(e & H & ->)|([] & s9 & H9 & H)]; [done|].
  right. exists out_doc, nb, (st_heap s7), (st_uuid s7). split; [done|].
  unfold open_output in H9. by injection H9 as <-.
Qed.

End Output.

(** ** What a projected question looks like *)

Lemma project_inv base_q r i token g :
  project base_q r i token = Some g ->
  exists qk rk pk mk ak arest question texts,
    base_q = JObj qk /\ r = JObj rk /\
    dict_lookup "params" qk = Some (JObj pk) /\
    dict_lookup "metadata" qk = Some (JObj mk) /\
    dict_lookup "answers" pk = Some (JArr (JObj ak :: arest)) /\
    dict_lookup "question" rk = Some question /\
    dict_lookup "answers" rk = Some (JArr texts) /\
    g = JObj (dict_set "subContentId" (JStr token)
          (dict_set "metadata"
             (JObj (dict_set "extraTitle" (JStr (question_label i))
                      (dict_set "title" (JStr (question_label i)) mk)))
             (dict_set "params"
                (JObj (dict_set "answers"
                         (JArr (imap (answer_entry ak
                                        (default (JInt 0) (dict_lookup "correct_index" rk)))
                                  texts))
                         (dict_set "question" question pk)))
                qk))).
Proof.
  unfold project. intros H.
  destruct base_q as [ | | | | | |qk]; try done.
  destruct r as [ | | | | | |rk]; try done.
  destruct (dict_lookup "params" qk) as [[ | | | | | |pk]|] eqn:Hp; try done.
  destruct (dict_lookup "metadata" qk) as [[ | | | | | |mk]|] eqn:Hm; try done.
  destruct (dict_lookup "question" rk) as [question|] eqn:Hq; try done.
  destruct (dict_lookup "answers" rk) as [[ | | | | |texts| ]|] eqn:Ha; try done.
  destruct (dict_lookup "answers" pk) as [[ | | | | |[|[ | | | | | |ak] arest]| ]|] eqn:Hans;
    try done.
  injection H as <-. eauto 20.
Qed.

Lemma project_identifier base_q r i token g :
  project base_q r i token = Some g -> identifier g = Some (JStr token).
Proof.
  intros H. apply project_inv in H as (qk & rk & pk & mk & ak & arest & question & texts
    & _ & _ & _ & _ & _ & _ & _ & ->).
  apply dict_lookup_set_eq.
Qed.

Lemma project_answers base_q r i token g :
  project base_q r i token = Some g ->
  exists qk rk pk ak arest texts,
    base_q = JObj qk /\ r = JObj rk /\
    dict_lookup "params" qk = Some (JObj pk) /\
    dict_lookup "answers" pk = Some (JArr (JObj ak :: arest)) /\
    dict_lookup "answers" rk = Some (JArr texts) /\
    answers_of g =
      Some (JArr (imap (answer_entry ak (default (JInt 0) (dict_lookup "correct_index" rk)))
                    texts)).
Proof.
  intros H. apply project_inv in H as (qk & rk & pk & mk & ak & arest & question & texts
    & -> & -> & Hp & Hm & Ha & Hq & Ht & ->).
  exists qk, rk, pk, ak, arest, texts. repeat (split; [done|]).
  unfold answers_of, field.
  rewrite dict_lookup_set_ne by done. rewrite dict_lookup_set_ne by done.
  rewrite dict_lookup_set_eq. apply dict_lookup_set_eq.
Qed.

Lemma project_titles base_q r i token g :
  project base_q r i token = Some g ->
  metadata_of "title" g = Some (JStr (question_label i)) /\
  metadata_of "extraTitle" g = Some (JStr (question_label i)).
Proof.
  intros H. apply project_inv in H as (qk & rk & pk & mk & ak & arest & question & texts
    & -> & -> & Hp & Hm & Ha & Hq & Ht & ->).
  unfold metadata_of, field.
  rewrite dict_lookup_set_ne by done. rewrite dict_lookup_set_eq. split.
  - rewrite dict_lookup_set_ne by done. apply dict_lookup_set_eq.
  - apply dict_lookup_set_eq.
Qed.

Lemma dict_set_keys_present {A} k (v : A) kvs x :
  dict_lookup k kvs = Some x -> (dict_set k v kvs).*1 = kvs.*1.
Proof.
  intros H. apply dict_set_keys. apply dict_lookup_elem in H.
  apply list_elem_of_fmap. by exists (k, x).
Qed.

Section Claims.
Context {lib : Library}.

(** C1, as amended.  For a template archive whose content description
    has a first question with a [params] field (and, when there is a
    record, a [params] mapping whose [answers] start with a mapping and
    a [metadata] mapping), every list of [M] records (M >= 0) and a
    [uuid4] that never repeats, the merged document has exactly [M]
    questions, each with the token of its own draw as identifier, no
    identifier occurring twice, and every top-level field other than
    [questions] as it was, in the same order.  When [str.encode] takes
    its serialisation, [create_h5p_from_template] returns and the
    output is the archive with that content entry; when it does not, a
    text holding a lone surrogate, the call raises what [str.encode]
    raises, after the tokens are drawn and before the output is
    opened. *)
Theorem merge_replaces_questions fuel zin raw text dkvs base_q qrest recs mcq ra rb h0 u o :
  zip_read zin content_path = Ok raw ->
  utf8_decode raw = Ok text ->
  json_loads text = Ok (JObj dkvs) ->
  dict_lookup "questions" dkvs = Some (JArr (base_q :: qrest)) ->
  has_params base_q ->
  (recs = [] \/ skeleton_ok base_q) ->
  (depth (JObj dkvs) <= fuel)%nat ->
  lay h0 (JArr recs) mcq ra rb ->
  Forall record_ok recs ->
  readable zin ->
  Inj (=) (=) uuid4 ->
  exists h' gs,
    create_h5p_from_template fuel zin mcq (State h0 u o)
    = match utf8_encode (json_dumps (JObj (dict_set "questions" (JArr gs) dkvs))) with
      | Ok new_content_bytes =>
          (Ok tt,
           State h' (u + length recs) (Some (output_entry zin new_content_bytes <$> zin)))
      | Raise e => (Raise e, State h' (u + length recs) o)
      end /\
    length gs = length recs /\
    (forall k g, gs !! k = Some g -> identifier g = Some (JStr (uuid4 (u + k)))) /\
    NoDup (identifier <$> gs) /\
    dict_lookup "questions" (dict_set "questions" (JArr gs) dkvs) = Some (JArr gs) /\
    (forall k, k <> "questions" ->
       dict_lookup k (dict_set "questions" (JArr gs) dkvs) = dict_lookup k dkvs) /\
    (dict_set "questions" (JArr gs) dkvs).*1 = dkvs.*1.
Proof.
  intros Hraw Htext Hdoc Hqs Hpar Hsk Hfuel Hrecs Hok Hread Hinj.
  destruct (create_spec fuel zin raw text (JObj dkvs) base_q recs mcq ra rb h0 u o)
    as (h' & dkvs' & gs & [= <-] & Hgs & _ & E); try done.
  { by exists dkvs, qrest. }
  assert (forall k g, gs !! k = Some g -> identifier g = Some (JStr (uuid4 (u + k)))) as Hid.
  { intros k g Hk.
    destruct (merged_questions_lookup _ _ _ _ _ _ Hgs Hk) as (r & _ & Hp).
    by eapply project_identifier. }
  exists h', gs. split; [exact E|].
  split; [by eapply merged_questions_length|].
  split; [exact Hid|].
  split.
  { apply NoDup_alt. intros i k x Hi Hk.
    rewrite list_lookup_fmap in Hi, Hk.
    destruct (gs !! i) as [gi|] eqn:Egi; [|done].
    destruct (gs !! k) as [gk|] eqn:Egk; [|done].
    simpl in Hi, Hk. rewrite (Hid _ _ Egi) in Hi. rewrite (Hid _ _ Egk) in Hk.
    rewrite <- Hk in Hi. injection Hi as Hi. apply Hinj in Hi. lia. }
  split; [apply dict_lookup_set_eq|].
  split; [intros k Hk; by apply dict_lookup_set_ne|].
  by eapply dict_set_keys_present.
Qed.

End Claims.

Lemma token_inj : Inj (=) (=) Ex.token.
Proof.
  intros a b H. unfold Ex.token in H.
  apply (inj (String.append "uuid-")) in H. by apply (inj pretty) in H.
Qed.

Lemma wf_decide (xs : list string) : bool_decide (NoDup xs) = true -> NoDup xs.
Proof. apply bool_decide_eq_true_1. Qed.

Ltac solve_wf :=
  cbn; repeat split; try (apply wf_decide; vm_compute; reflexivity).

Lemma records_lay recs :
  json_wf (JArr recs) ->
  lay (st_heap (Ex.records_state recs)) (JArr recs) (Ex.records_value recs)
    0 (length (st_heap (Ex.records_state recs))).
Proof.
  intros Hwf. unfold Ex.records_state, Ex.records_value. cbn [st_heap].
  destruct (alloc_json (JArr recs) []) as [v h] eqn:E.
  destruct (alloc_json_spec _ Hwf _ _ _ E) as [L _]. exact L.
Qed.

Lemma archive_readable : readable Ex.archive.
Proof. repeat constructor; by eexists. Qed.

Lemma question0_ok : skeleton_ok Ex.question0.
Proof. unfold skeleton_ok, Ex.question0. by eexists _, _, _, _, _. Qed.

Lemma question0_params : has_params Ex.question0.
Proof. unfold has_params, Ex.question0. by eexists _, _. Qed.

Lemma rec_abcd_ok : record_ok Ex.rec_abcd.
Proof.
  unfold record_ok, Ex.rec_abcd. eexists _, _, _.
  split; [done|]. split; [done|]. split; [done|]. split; [done|]. by repeat constructor.
Qed.

Lemma rec_three_ok : record_ok Ex.rec_three.
Proof.
  unfold record_ok, Ex.rec_three. eexists _, _, _.
  split; [done|]. split; [done|]. split; [done|]. split; [done|]. by repeat constructor.
Qed.

Lemma merge_replaces_questions_witness :
  exists h' gs new_content_bytes,
    create_h5p_from_template (lib := Ex.library) 10 Ex.archive
      (Ex.records_value [Ex.rec_abcd; Ex.rec_three])
      (Ex.records_state [Ex.rec_abcd; Ex.rec_three])
    = (Ok tt,
       State h' 2
         (Some [("h5p.json", String.list_byte_of_string "{}");
                (content_path, new_content_bytes);
                ("content/images/logo.png", String.list_byte_of_string "PNG")])) /\
    Ex.encode (Ex.dumps (JObj (dict_set "questions" (JArr gs)
                                 [("introPage", JObj [("showIntroPage", JBool false)]);
                                  ("questions", JArr [Ex.question0; Ex.question0]);
                                  ("passPercentage", JInt 50)])))
    = Ok new_content_bytes /\
    length gs = 2%nat /\
    NoDup (identifier <$> gs).
Proof.
  destruct (merge_replaces_questions (lib := Ex.library) 10 Ex.archive
              (String.list_byte_of_string "template") "template"
              [("introPage", JObj [("showIntroPage", JBool false)]);
               ("questions", JArr [Ex.question0; Ex.question0]);
               ("passPercentage", JInt 50)]
              Ex.question0 [Ex.question0] [Ex.rec_abcd; Ex.rec_three]
              (Ex.records_value [Ex.rec_abcd; Ex.rec_three]) 0%nat
              (length (st_heap (Ex.records_state [Ex.rec_abcd; Ex.rec_three])))
              (st_heap (Ex.records_state [Ex.rec_abcd; Ex.rec_three])) 0%nat None)
    as (h' & gs & E & Hlen & _ & Hnd & _).
  - reflexivity.
  - reflexivity.
  - reflexivity.
  - reflexivity.
  - exact question0_params.
  - right. exact question0_ok.
  - vm_compute. lia.
  - apply records_lay. solve_wf.
  - repeat constructor; [exact rec_abcd_ok | exact rec_three_ok].
  - exact archive_readable.
  - exact token_inj.
  - destruct (utf8_encode _) as [new_content_bytes|e] eqn:Eenc in E.
    + exists h', gs, new_content_bytes.
      split; [exact E|]. split; [exact Eenc|]. split; [exact Hlen | exact Hnd].
    + vm_compute in E. discriminate E.
Defined.

(** ** Archives with distinct names *)

Lemma filter_name_absent (zin : zipfile) name :
  name ∉ zm_filename <$> zin -> filter (fun m => zm_filename m = name) zin = [].
Proof.
  induction zin as [|m zin IH]; [done|].
  rewrite fmap_cons, not_elem_of_cons. intros [Hne Hnin].
  rewrite filter_cons_False by (intros Heq; by apply Hne). by apply IH.
Qed.

Lemma zip_getinfo_absent zin name :
  name ∉ zm_filename <$> zin -> zip_getinfo zin name = Raise KeyError.
Proof. intros H. unfold zip_getinfo. by rewrite filter_name_absent. Qed.

Lemma zip_getinfo_nodup zin m :
  NoDup (zm_filename <$> zin) -> m ∈ zin -> zip_getinfo zin (zm_filename m) = Ok m.
Proof.
  unfold zip_getinfo. induction zin as [|m' zin IH]; intros Hnd Hin.
  - by apply elem_of_nil in Hin.
  - rewrite fmap_cons in Hnd. apply NoDup_cons in Hnd as [Hnin Hnd].
    apply elem_of_cons in Hin as [->|Hin].
    + rewrite filter_cons_True by done. by rewrite filter_name_absent.
    + rewrite filter_cons_False.
      * by apply IH.
      * intros Heq. apply Hnin. rewrite Heq. apply list_elem_of_fmap. by exists m.
Qed.

Section ArchiveClaims.
Context {lib : Library}.

(** The call on a template and records of the expected shape, when it
    returns: the encoding has succeeded, every member was read by its
    name, and the output holds one entry per member. *)
Lemma create_returned fuel zin raw text dkvs base_q qrest recs mcq ra rb h0 u o s' :
  zip_read zin content_path = Ok raw ->
  utf8_decode raw = Ok text ->
  json_loads text = Ok (JObj dkvs) ->
  dict_lookup "questions" dkvs = Some (JArr (base_q :: qrest)) ->
  has_params base_q ->
  (recs = [] \/ skeleton_ok base_q) ->
  (depth (JObj dkvs) <= fuel)%nat ->
  lay h0 (JArr recs) mcq ra rb ->
  Forall record_ok recs ->
  create_h5p_from_template fuel zin mcq (State h0 u o) = (Ok tt, s') ->
  exists gs new_content_bytes,
    Some <$> gs = merged_questions base_q u recs /\
    utf8_encode (json_dumps (JObj (dict_set "questions" (JArr gs) dkvs)))
    = Ok new_content_bytes /\
    st_out s' = Some (output_entry zin new_content_bytes <$> zin) /\
    Forall (fun item => exists data, zip_read zin (zm_filename item) = Ok data) zin.
Proof.
  intros Hraw Htext Hdoc Hqs Hpar Hsk Hfuel Hrecs Hok Hrun.
  destruct (create_steps fuel zin raw text (JObj dkvs) base_q recs mcq ra rb h0 u o)
    as (h' & dkvs' & gs & [= <-] & Hgs & _ & E); try done.
  { by exists dkvs, qrest. }
  rewrite E in Hrun.
  destruct (utf8_encode (json_dumps (JObj (dict_set "questions" (JArr gs) dkvs))))
    as [nb|e] eqn:Eenc; [|done].
  apply copy_loop_outcome in Hrun as [(_ & -> & Hall)|(e & k & item & ? & _)]; [|done].
  by exists gs, nb.
Qed.

(** C2.  For an input archive whose entry names are pairwise distinct,
    with a template and records of the expected shape: when
    [create_h5p_from_template] returns, the output archive has one
    entry per input entry, in the same order and under the same name;
    the entry named [content/content.json] holds the encoded
    serialisation of the updated content description, which is the
    template's with [questions] replaced by the questions generated for
    the records; every other entry holds the payload of its input
    entry, byte for byte. *)
Theorem copy_keeps_other_entries
    fuel zin raw text dkvs base_q qrest recs mcq ra rb h0 u o s' :
  zip_read zin content_path = Ok raw ->
  utf8_decode raw = Ok text ->
  json_loads text = Ok (JObj dkvs) ->
  dict_lookup "questions" dkvs = Some (JArr (base_q :: qrest)) ->
  has_params base_q ->
  (recs = [] \/ skeleton_ok base_q) ->
  (depth (JObj dkvs) <= fuel)%nat ->
  lay h0 (JArr recs) mcq ra rb ->
  Forall record_ok recs ->
  NoDup (zm_filename <$> zin) ->
  create_h5p_from_template fuel zin mcq (State h0 u o) = (Ok tt, s') ->
  exists gs new_content_bytes entries,
    Some <$> gs = merged_questions base_q u recs /\
    utf8_encode (json_dumps (JObj (dict_set "questions" (JArr gs) dkvs)))
    = Ok new_content_bytes /\
    st_out s' = Some entries /\
    Forall2 (fun m e =>
               e.1 = zm_filename m /\
               if String.eqb (zm_filename m) content_path
               then e.2 = new_content_bytes
               else zm_data m = Ok (e.2)) zin entries.
Proof.
  intros Hraw Htext Hdoc Hqs Hpar Hsk Hfuel Hrecs Hok Hnd Hrun.
  destruct (create_returned fuel zin raw text dkvs base_q qrest recs mcq ra rb h0 u o s')
    as (gs & nb & Hgs & Eenc & Hout & Hall); try done.
  exists gs, nb, (output_entry zin nb <$> zin).
  split; [done|]. split; [done|]. split; [done|].
  apply Forall2_fmap_r, Forall2_same_length_lookup. split; [done|].
  intros i m m' Hm Hm'. rewrite Hm in Hm'. injection Hm' as <-.
  unfold output_entry. simpl. split; [done|].
  destruct (String.eqb (zm_filename m) content_path); [done|].
  assert (m ∈ zin) as Hin by (apply list_elem_of_lookup; eauto).
  eapply Forall_forall in Hall as [data Hd]; [|exact Hin].
  unfold read_payload. rewrite Hd.
  unfold zip_read in Hd. by rewrite (zip_getinfo_nodup zin m Hnd Hin) in Hd.
Qed.


(** C5, as amended.  When the archive has no content-description
    entry, or the content description is a mapping without a
    [questions] field, the merge raises [KeyError]; when [questions] is
    an empty list it raises [IndexError]; in each case nothing is
    written to the output location. *)
Theorem defect_raises_lookup_error fuel zin mcq s e :
  format_defect zin e ->
  exists s',
    create_h5p_from_template fuel zin mcq s = (Raise e, s') /\
    st_out s' = st_out s.
Proof.
  intros Hdef. destruct s as [h u o].
  destruct Hdef as [Hno | raw text dkvs Hraw Htext Hdoc Hq | raw text dkvs Hraw Htext Hdoc Hq].
  - exists (State h u o). split; [|done]. rewrite create_unfold.
    apply bind_raise. unfold lift, zip_read. by rewrite zip_getinfo_absent.
  - pose proof (json_loads_wf _ _ Hdoc) as Hwf.
    destruct (alloc_json (JObj dkvs) h) as [tpl h1] eqn:Ealloc.
    destruct (alloc_json_spec _ Hwf _ _ _ Ealloc) as [Ldoc _].
    destruct (lay_obj_inv _ _ _ _ _ Ldoc) as (-> & _ & _ & dvs & Hcd & _ & HFd).
    exists (State h1 u o). split; [|done]. rewrite create_unfold.
    erewrite bind_ok by (unfold lift; by rewrite Hraw).
    erewrite bind_ok by (unfold lift; by rewrite Htext).
    erewrite bind_ok by (unfold lift; by rewrite Hdoc).
    erewrite bind_ok by (apply run_load_json; exact Ealloc).
    apply bind_raise. rewrite build_unfold. apply bind_raise.
    unfold reading, py_getitem_str. cbn [st_heap]. rewrite Hcd.
    by rewrite (item_lay_lookup_None _ _ _ _ _ _ _ HFd Hq).
  - pose proof (json_loads_wf _ _ Hdoc) as Hwf.
    destruct (alloc_json (JObj dkvs) h) as [tpl h1] eqn:Ealloc.
    destruct (alloc_json_spec _ Hwf _ _ _ Ealloc) as [Ldoc _].
    destruct (lay_obj_inv _ _ _ _ _ Ldoc) as (-> & _ & _ & dvs & Hcd & _ & HFd).
    destruct (item_lay_lookup _ _ _ _ _ _ _ _ HFd Hq)
      as (qsv & qsa & qsb & Hqsv & _ & _ & Lqs & _).
    destruct (lay_arr_inv _ _ _ _ _ Lqs) as (-> & _ & qvs & Hcqs & Hlqs).
    inversion Hlqs; subst.
    exists (State h1 u o). split; [|done]. rewrite create_unfold.
    erewrite bind_ok by (unfold lift; by rewrite Hraw).
    erewrite bind_ok by (unfold lift; by rewrite Htext).
    erewrite bind_ok by (unfold lift; by rewrite Hdoc).
    erewrite bind_ok by (apply run_load_json; exact Ealloc).
    apply bind_raise. rewrite build_unfold.
    erewrite bind_ok by (eapply run_getitem_str; [exact Hcd | exact Hqsv]).
    apply bind_raise. unfold reading, py_getitem_int. cbn [st_heap]. by rewrite Hcqs.
Qed.

(** C8, as amended.  [clean_and_parse_questions] raises [RuntimeError]
    when the response is not JSON text; when the response is a JSON
    object it returns, without looking at its shape, the value of the
    [questions] field, or a new empty list when there is none. *)
Theorem adapter_returns_questions_field raw s :
  match json_loads raw with
  | Raise JSONDecodeError =>
      clean_and_parse_questions (Ok raw) s = (Raise RuntimeError, s)
  | Ok (JObj dkvs) =>
      exists v s',
        clean_and_parse_questions (Ok raw) s = (Ok v, s') /\
        reads (st_heap s') v (default (JArr []) (dict_lookup "questions" dkvs))
  | _ => True
  end.
Proof.
  destruct (json_loads raw) as [[ | | | | | |dkvs]|[]] eqn:Hdoc; try done.
  - pose proof (json_loads_wf _ _ Hdoc) as Hwf. destruct s as [h u o].
    destruct (alloc_json (JObj dkvs) h) as [data h1] eqn:Ealloc.
    destruct (alloc_json_spec _ Hwf _ _ _ Ealloc) as [Ldoc _].
    destruct (lay_obj_inv _ _ _ _ _ Ldoc) as (-> & _ & Hb & dvs & Hcd & _ & HFd).
    set (h2 := h1 ++ [OList []]).
    assert (h2 !! length h = Some (ODict (zip (dkvs.*1) dvs))) as Hcd2.
    { unfold h2. rewrite lookup_app_l by lia. done. }
    exists (default (VRef (length h1)) (dict_lookup "questions" (zip (dkvs.*1) dvs))),
           (State h2 u o).
    split.
    + unfold clean_and_parse_questions.
      erewrite bind_ok by reflexivity.
      erewrite bind_ok by (rewrite Hdoc; apply run_load_json; exact Ealloc).
      erewrite bind_ok by apply run_alloc.
      fold h2. by apply run_dict_get.
    + cbn [st_heap]. destruct (dict_lookup "questions" dkvs) as [x|] eqn:Hq.
      * destruct (item_lay_lookup _ _ _ _ _ _ _ _ HFd Hq)
          as (v & a' & b' & -> & _ & Hb' & Lx & _).
        simpl. eapply lay_reads. eapply lay_agree; [exact Lx|].
        intros l Hl. unfold h2. apply lookup_app_l.
        apply lay_le in Lx. lia.
      * rewrite (item_lay_lookup_None _ _ _ _ _ _ _ HFd Hq). simpl.
        eapply reads_list; [|constructor]. unfold h2. by apply list_lookup_middle.
  - unfold clean_and_parse_questions.
    erewrite bind_ok by reflexivity. apply bind_raise. by rewrite Hdoc.
Qed.

End ArchiveClaims.

(** ** The archive claims on examples *)

Lemma decide_true (P : Prop) `{Decision P} : bool_decide P = true -> P.
Proof. apply bool_decide_eq_true_1. Qed.

Ltac by_decide :=
  match goal with |- ?P => apply (decide_true P) end; vm_compute; reflexivity.

(** C1 fails as stated: a content description with one question, whose
    answers list is empty, and one record with an answer: the merge
    raises [IndexError] and writes nothing. *)
Lemma merge_without_first_answer :
  json_loads (Library := Ex.library) "bare" = Ok Ex.bare_doc /\
  field "questions" Ex.bare_doc
  = Some (JArr [JObj [("params", JObj [("question", JStr ""); ("answers", JArr [])]);
                      ("metadata", JObj [("title", JStr "")]);
                      ("subContentId", JStr "old-id")]]) /\
  (create_h5p_from_template (lib := Ex.library) 10 ExArchives.bare
     (Ex.records_value [Ex.rec_abcd]) (Ex.records_state [Ex.rec_abcd])).1
  = Raise IndexError /\
  st_out (create_h5p_from_template (lib := Ex.library) 10 ExArchives.bare
            (Ex.records_value [Ex.rec_abcd]) (Ex.records_state [Ex.rec_abcd])).2
  = None.
Proof. repeat split; vm_compute; reflexivity. Qed.

(** C2, the failing input: of two entries named [notes.txt], the
    first with payload [one], the output gives both the payload of the
    second. *)
Lemma repeated_name_takes_last_payload :
  ExArchives.repeated !! 1%nat = Some (Ex.entry "notes.txt" "one") /\
  create_h5p_from_template (lib := Ex.library) 10 ExArchives.repeated
    (Ex.records_value []) (Ex.records_state [])
  = (Ok tt,
     State (st_heap (create_h5p_from_template (lib := Ex.library) 10 ExArchives.repeated
                       (Ex.records_value []) (Ex.records_state [])).2) 0
       (Some [(content_path, String.list_byte_of_string (Ex.dumps ExArchives.emptied_doc));
              ("notes.txt", String.list_byte_of_string "two");
              ("notes.txt", String.list_byte_of_string "two")])).
Proof. split; vm_compute; reflexivity. Qed.

Lemma copy_keeps_other_entries_witness :
  exists gs new_content_bytes entries,
    Some <$> gs = merged_questions (lib := Ex.library) Ex.question0 0 [Ex.rec_abcd] /\
    Ex.encode (Ex.dumps (JObj (dict_set "questions" (JArr gs)
                                 [("introPage", JObj [("showIntroPage", JBool false)]);
                                  ("questions", JArr [Ex.question0; Ex.question0]);
                                  ("passPercentage", JInt 50)])))
    = Ok new_content_bytes /\
    st_out (create_h5p_from_template (lib := Ex.library) 10 Ex.archive
              (Ex.records_value [Ex.rec_abcd]) (Ex.records_state [Ex.rec_abcd])).2
    = Some entries /\
    Forall2 (fun m e =>
               e.1 = zm_filename m /\
               if String.eqb (zm_filename m) content_path
               then e.2 = new_content_bytes
               else zm_data m = Ok (e.2)) Ex.archive entries.
Proof.
  apply (copy_keeps_other_entries (lib := Ex.library) 10 Ex.archive
           (String.list_byte_of_string "template") "template"
           [("introPage", JObj [("showIntroPage", JBool false)]);
            ("questions", JArr [Ex.question0; Ex.question0]);
            ("passPercentage", JInt 50)]
           Ex.question0 [Ex.question0] [Ex.rec_abcd]
           (Ex.records_value [Ex.rec_abcd]) 0%nat
           (length (st_heap (Ex.records_state [Ex.rec_abcd])))
           (st_heap (Ex.records_state [Ex.rec_abcd])) 0%nat None).
  - reflexivity.
  - reflexivity.
  - reflexivity.
  - reflexivity.
  - exact question0_params.
  - right. exact question0_ok.
  - vm_compute. lia.
  - apply records_lay. solve_wf.
  - repeat constructor. exact rec_abcd_ok.
  - by_decide.
  - vm_compute. reflexivity.
Defined.

(** C5 fails as stated: an archive without content description makes
    the merge raise [KeyError], which is no [TemplateFormatError]; and
    the merge raises other than in the three listed cases, here for a
    question without answer entry. *)
Lemma missing_entry_raises_key_error :
  create_h5p_from_template (lib := Ex.library) 10 ExArchives.no_content
    (Ex.records_value []) (Ex.records_state [])
  = (Raise KeyError, Ex.records_state []) /\
  String.eqb (exn_name KeyError) "TemplateFormatError" = false /\
  (create_h5p_from_template (lib := Ex.library) 10 ExArchives.bare
     (Ex.records_value [Ex.rec_abcd]) (Ex.records_state [Ex.rec_abcd])).1
  = Raise IndexError.
Proof. repeat split; vm_compute; reflexivity. Qed.

Lemma defect_raises_lookup_error_witness :
  exists s',
    create_h5p_from_template (lib := Ex.library) 10 ExArchives.no_content
      (Ex.records_value []) (Ex.records_state [])
    = (Raise KeyError, s') /\
    st_out s' = st_out (Ex.records_state []).
Proof.
  apply (defect_raises_lookup_error (lib := Ex.library)).
  apply no_content_entry.
  by_decide.
Defined.



(** C8 fails as stated: a response whose only question has a number for
    text, no answers and no correct index is returned as it is. *)
Lemma malformed_response_is_returned :
  json_loads (Library := Ex.library) "response"
  = Ok (JObj [("questions", JArr [JObj [("question", JInt 7)]])]) /\
  match clean_and_parse_questions (lib := Ex.library) (Ok "response") (State [] 0 None) with
  | (Ok v, s') => to_json 5 v (st_heap s')
  | (Raise e, _) => Raise e
  end = Ok (JArr [JObj [("question", JInt 7)]]).
Proof. split; vm_compute; reflexivity. Qed.

(** ** The merge engine *)

Lemma lays_lookup h xs vs a b k x :
  lays h xs vs a b -> xs !! k = Some x ->
  exists v a' b', vs !! k = Some v /\ lay h x v a' b' /\ (a <= a')%nat /\ (b' <= b)%nat.
Proof.
  intros Hl. revert k. induction Hl as [a|x0 xs v0 vs a m b Hx Hxs IH]; intros k Hk; [done|].
  apply lay_le in Hx as Hle1. apply lays_le in Hxs as Hle2.
  destruct k as [|k]; simpl in Hk.
  - injection Hk as ->. exists v0, a, m. repeat split; [done|lia..].
  - destruct (IH k Hk) as (v & a' & b' & Hv & Hlay & ? & ?).
    exists v, a', b'. repeat split; [done|done|lia..].
Qed.

Section Merged.
Context {lib : Library}.

Lemma merged_record base_q u recs gs k r :
  Some <$> gs = merged_questions base_q u recs ->
  recs !! k = Some r ->
  exists g, gs !! k = Some g /\ project base_q r (S k) (uuid4 (u + k)) = Some g.
Proof.
  intros Hgs Hr. assert (merged_questions base_q u recs !! k
                         = Some (project base_q r (S k) (uuid4 (u + k)))) as H.
  { unfold merged_questions. by rewrite list_lookup_imap, Hr. }
  rewrite <- Hgs, list_lookup_fmap in H.
  destruct (gs !! k) as [g|]; [|done]. injection H as H. eauto.
Qed.

(** The answers of the question generated for a record, whatever its
    [correct_index]. *)
Lemma merged_answers base_q u recs gs k rk texts a0 :
  Some <$> gs = merged_questions base_q u recs ->
  recs !! k = Some (JObj rk) ->
  dict_lookup "answers" rk = Some (JArr texts) ->
  first_answer base_q = Some (JObj a0) ->
  exists g, gs !! k = Some g /\
    answers_of g
    = Some (JArr (imap (answer_entry a0 (default (JInt 0) (dict_lookup "correct_index" rk)))
                    texts)).
Proof.
  intros Hgs Hr Ht Ha0.
  destruct (merged_record base_q u recs gs k _ Hgs Hr) as (g & Hg & Hp).
  exists g. split; [done|].
  destruct (project_answers _ _ _ _ _ Hp)
    as (qk & rk' & pk & ak & arest & texts' & -> & [= <-] & Hpk & Hak & Ht' & ->).
  rewrite Ht in Ht'. injection Ht' as <-.
  unfold first_answer, answers_of, field in Ha0. rewrite Hpk, Hak in Ha0.
  by injection Ha0 as <-.
Qed.

End Merged.

Section Merge.
Context {lib : Library}.

(** The call [build_questions_from_mc(mc_questions, template_content)]
    in a store [h0] where [template_content] is the content description
    [doc] as [json.loads] built it, with first question [base_q], and
    [mc_questions] is the list of the records [recs]. *)
Variables (fuel : nat) (h0 : heap) (doc base_q : json) (template_content : val)
  (ta tb : nat) (recs : list json) (mc_questions : val) (ra rb : nat)
  (u : nat) (o : option (list (string * bytes))).
Hypothesis template_laid : lay h0 doc template_content ta tb.
Hypothesis template_first : template_ok doc base_q.
Hypothesis skeleton : skeleton_ok base_q.
Hypothesis fuel_enough : (depth doc <= fuel)%nat.
Hypothesis records_laid : lay h0 (JArr recs) mc_questions ra rb.
Hypothesis records_typed : Forall record_ok recs.

Lemma skeleton_has_params : has_params base_q.
Proof.
  destruct skeleton as (qk & pk & mk & ak & arest & -> & Hp & _). by exists qk, (JObj pk).
Qed.

(** The call returns the new list; the store holds, after the objects
    that were there, the new list and then the generated questions one
    after the other, each the projection of its record. *)
Lemma merge_result :
  exists h' roots gs,
    build_questions_from_mc fuel mc_questions template_content (State h0 u o)
    = (Ok (VRef (length h0)), State h' (u + length recs) o) /\
    (forall l, (l < length h0)%nat -> h' !! l = h0 !! l) /\
    h' !! length h0 = Some (OList roots) /\
    chain h' roots gs (S (length h0)) (length h') /\
    Some <$> gs = merged_questions base_q u recs.
Proof.
  destruct (build_spec fuel h0 doc base_q template_content ta tb recs mc_questions ra rb u o)
    as (h' & roots & gs & E & F & _ & Hnq & Hch & Hgs);
    auto using skeleton_has_params.
  exists h', roots, gs. done.
Qed.

(** C3.  For every record whose [correct_index] is an integer [c], the
    generated question's answers are, in the record's order and as many
    as the record has, copies of the skeleton's first answer entry with
    [text] set to the record's answer text and [correct] set to whether
    the position is [c]. *)
Theorem answers_follow_record :
  exists h' roots gs,
    build_questions_from_mc fuel mc_questions template_content (State h0 u o)
    = (Ok (VRef (length h0)), State h' (u + length recs) o) /\
    h' !! length h0 = Some (OList roots) /\
    Forall2 (reads h') roots gs /\
    forall k rk texts c a0,
      recs !! k = Some (JObj rk) ->
      dict_lookup "answers" rk = Some (JArr texts) ->
      dict_lookup "correct_index" rk = Some (JInt c) ->
      first_answer base_q = Some (JObj a0) ->
      exists g, gs !! k = Some g /\
        answers_of g
        = Some (JArr (imap (fun idx text =>
                              JObj (dict_set "correct" (JBool (Z.of_nat idx =? c))
                                      (dict_set "text" text a0))) texts)).
Proof.
  destruct merge_result as (h' & roots & gs & E & _ & Hnq & Hch & Hgs).
  exists h', roots, gs. split; [done|]. split; [done|].
  split; [by eapply chain_reads|].
  intros k rk texts c a0 Hr Ht Hc Ha0.
  destruct (merged_answers base_q u recs gs k rk texts a0 Hgs Hr Ht Ha0) as (g & Hg & Ha).
  exists g. split; [done|]. by rewrite Ha, Hc.
Qed.

(** C10.  For every record whose [correct_index] is an integer that is
    negative or not below the number of answers, the merge completes
    and every answer entry of the generated question has [correct]
    false. *)
Theorem index_out_of_range_marks_none :
  exists h' roots gs,
    build_questions_from_mc fuel mc_questions template_content (State h0 u o)
    = (Ok (VRef (length h0)), State h' (u + length recs) o) /\
    h' !! length h0 = Some (OList roots) /\
    Forall2 (reads h') roots gs /\
    forall k rk texts c a0,
      recs !! k = Some (JObj rk) ->
      dict_lookup "answers" rk = Some (JArr texts) ->
      dict_lookup "correct_index" rk = Some (JInt c) ->
      c < 0 \/ Z.of_nat (length texts) <= c ->
      first_answer base_q = Some (JObj a0) ->
      exists g, gs !! k = Some g /\
        answers_of g
        = Some (JArr ((fun text => JObj (dict_set "correct" (JBool false)
                                           (dict_set "text" text a0))) <$> texts)).
Proof.
  destruct merge_result as (h' & roots & gs & E & _ & Hnq & Hch & Hgs).
  exists h', roots, gs. split; [done|]. split; [done|].
  split; [by eapply chain_reads|].
  intros k rk texts c a0 Hr Ht Hc Hrange Ha0.
  destruct (merged_answers base_q u recs gs k rk texts a0 Hgs Hr Ht Ha0) as (g & Hg & Ha).
  exists g. split; [done|]. rewrite Ha, Hc. do 2 f_equal.
  apply list_eq. intros i. rewrite list_lookup_imap, list_lookup_fmap.
  destruct (texts !! i) as [t|] eqn:Hi; [|done]. simpl.
  apply lookup_lt_Some in Hi. unfold answer_entry. simpl.
  replace (Z.of_nat i =? c) with false by (symmetry; apply Z.eqb_neq; lia). done.
Qed.

(** C9, as amended.  For the generated question at 1-based position
    [i], [metadata.title] and [metadata.extraTitle] are both the text
    "Vraag " followed by [i] in decimal: a fixed Dutch label, whatever
    the language of the questions. *)
Theorem titles_are_numbered :
  exists h' roots gs,
    build_questions_from_mc fuel mc_questions template_content (State h0 u o)
    = (Ok (VRef (length h0)), State h' (u + length recs) o) /\
    h' !! length h0 = Some (OList roots) /\
    Forall2 (reads h') roots gs /\
    length gs = length recs /\
    forall k g,
      gs !! k = Some g ->
      metadata_of "title" g = Some (JStr ("Vraag " +:+ pretty (S k))) /\
      metadata_of "extraTitle" g = Some (JStr ("Vraag " +:+ pretty (S k))).
Proof.
  destruct merge_result as (h' & roots & gs & E & _ & Hnq & Hch & Hgs).
  exists h', roots, gs. split; [done|]. split; [done|].
  split; [by eapply chain_reads|].
  split; [by eapply merged_questions_length|].
  intros k g Hg.
  destruct (merged_questions_lookup _ _ _ _ _ _ Hgs Hg) as (r & _ & Hp).
  by eapply project_titles.
Qed.

End Merge.

(** ** Isolation of the generated questions *)

Section Isolation.
Context {lib : Library}.

Variables (fuel : nat) (h0 : heap) (doc base_q : json) (template_content : val)
  (ta tb : nat) (recs : list json) (mc_questions : val) (ra rb : nat)
  (u : nat) (o : option (list (string * bytes))).
Hypothesis template_laid : lay h0 doc template_content ta tb.
Hypothesis template_first : template_ok doc base_q.
Hypothesis skeleton : skeleton_ok base_q.
Hypothesis fuel_enough : (depth doc <= fuel)%nat.
Hypothesis records_laid : lay h0 (JArr recs) mc_questions ra rb.
Hypothesis records_typed : Forall record_ok recs.

(** C4.  The call writes to no object that existed before it, so the
    skeleton, [template_content["questions"][0]], is not mutated; no
    object is part of two generated questions, or of a generated
    question and of the skeleton; and whatever is stored afterwards
    into an object that is part of one generated question, every other
    generated question and the skeleton still read the same. *)
Theorem generated_questions_share_nothing :
  exists h' roots,
    build_questions_from_mc fuel mc_questions template_content (State h0 u o)
    = (Ok (VRef (length h0)), State h' (u + length recs) o) /\
    h' !! length h0 = Some (OList roots) /\
    length roots = length recs /\
    (forall l, (l < length h0)%nat -> h' !! l = h0 !! l) /\
    forall questions skeleton_v,
      py_getitem_str template_content "questions" h0 = Ok questions ->
      py_getitem_int questions 0 h0 = Ok skeleton_v ->
      forall i qi l,
        roots !! i = Some qi -> reach h' qi l ->
        ~ reach h' skeleton_v l /\
        (forall k qk, k <> i -> roots !! k = Some qk -> ~ reach h' qk l) /\
        forall ob n,
          to_json n skeleton_v (<[l := ob]> h') = to_json n skeleton_v h' /\
          forall k qk, k <> i -> roots !! k = Some qk ->
            to_json n qk (<[l := ob]> h') = to_json n qk h'.
Proof.
  destruct (merge_result fuel h0 doc base_q template_content ta tb recs mc_questions ra rb u o)
    as (h' & roots & gs & E & F & Hnq & Hch & Hgs); try done.
  exists h', roots. split; [done|]. split; [done|].
  split.
  { erewrite chain_length by exact Hch. by eapply merged_questions_length. }
  split; [done|].
  intros questions skeleton_v Hqs Hsk i qi l Hi Hri.
  (* the skeleton lies among the cells of the template *)
  pose proof template_first as (dkvs & qrest & -> & Hlk).
  destruct (lay_obj_inv _ _ _ _ _ template_laid) as (-> & _ & Htab & dvs & Hcd & _ & HFd).
  destruct (item_lay_lookup _ _ _ _ _ _ _ _ HFd Hlk)
    as (qsv & qsa & qsb & Hqsv & _ & Hqsb & Lqs & _).
  destruct (lay_arr_inv _ _ _ _ _ Lqs) as (-> & Hqsab & qvs & Hcqs & Hlqs).
  destruct (lays_cons_inv _ _ _ _ _ _ Hlqs) as (q0v & qvs' & qm & -> & Lq0 & Hrest).
  unfold py_getitem_str in Hqs. rewrite Hcd, Hqsv in Hqs. injection Hqs as <-.
  unfold py_getitem_int in Hsk. rewrite Hcqs in Hsk.
  assert (skeleton_v = q0v) as ->.
  { unfold seq_index in Hsk. simpl in Hsk. by injection Hsk. }
  destruct skeleton as (qk & pk & mk & ak & arest & -> & _).
  destruct (lay_obj_inv _ _ _ _ _ Lq0) as (-> & _ & Hq0ab & _).
  apply lays_le in Hrest as Hle.
  assert (forall l', reach h' (VRef (S qsa)) l' -> (l' < length h0)%nat) as Hskel.
  { intros l' Hr. assert (S qsa <= l' < qm)%nat; [|lia].
    eapply reach_closed; [|split; [reflexivity|lia]|exact Hr].
    eapply closed_agree; [by eapply (proj1 (lay_closed h0))|].
    intros l1 Hl1. apply F. lia. }
  pose proof (chain_reach _ _ _ _ _ _ _ _ Hch Hi Hri) as Hl.
  assert (~ reach h' (VRef (S qsa)) l) as Hns.
  { intros Hr. apply Hskel in Hr. lia. }
  assert (forall k qk', k <> i -> roots !! k = Some qk' -> ~ reach h' qk' l) as Hno.
  { intros k qk' Hne Hk Hr. by eapply (chain_disjoint h' roots gs _ _ i k). }
  split; [done|]. split; [done|].
  intros ob n. split.
  - apply to_json_reach. intros l' Hr. apply list_lookup_insert_ne.
    intros <-. by apply Hns.
  - intros k qk' Hne Hk. apply to_json_reach. intros l' Hr.
    apply list_lookup_insert_ne. intros <-. by eapply Hno.
Qed.

End Isolation.

(** ** The merge engine on examples *)

Lemma template_doc_wf : json_wf Ex.template_doc.
Proof. solve_wf. Qed.

Lemma example_laid recs :
  json_wf (JArr recs) ->
  lay (ExMerge.store recs) Ex.template_doc (ExMerge.template_value recs)
    (length (st_heap (Ex.records_state recs))) (length (ExMerge.store recs)) /\
  lay (ExMerge.store recs) (JArr recs) (Ex.records_value recs)
    0 (length (st_heap (Ex.records_state recs))).
Proof.
  intros Hwf. pose proof (records_lay recs Hwf) as Hr.
  unfold ExMerge.store, ExMerge.template_value.
  destruct (alloc_json Ex.template_doc (st_heap (Ex.records_state recs))) as [v h] eqn:E.
  destruct (alloc_json_spec _ template_doc_wf _ _ _ E) as [L F].
  split; [exact L|]. eapply lay_agree; [exact Hr|]. intros l Hl. apply F. lia.
Qed.

Lemma template_doc_first : template_ok Ex.template_doc Ex.question0.
Proof. unfold template_ok, Ex.template_doc. by eexists _, _. Qed.

Lemma rec_five_ok : record_ok Ex.rec_five.
Proof.
  unfold record_ok, Ex.rec_five. eexists _, _, _.
  split; [done|]. split; [done|]. split; [done|]. split; [done|]. by repeat constructor.
Qed.

Lemma depth_template_doc : (depth Ex.template_doc <= 10)%nat.
Proof. vm_compute. lia. Qed.

Lemma answers_follow_record_witness :
  exists h' roots gs g,
    build_questions_from_mc (lib := Ex.library) 10
      (Ex.records_value [Ex.rec_abcd]) (ExMerge.template_value [Ex.rec_abcd])
      (ExMerge.start [Ex.rec_abcd])
    = (Ok (VRef (length (ExMerge.store [Ex.rec_abcd]))), State h' 1 None) /\
    h' !! length (ExMerge.store [Ex.rec_abcd]) = Some (OList roots) /\
    Forall2 (reads h') roots gs /\
    gs !! 0%nat = Some g /\
    answers_of g
    = Some (JArr [JObj [("text", JStr "A"); ("correct", JBool false);
                        ("tipsAndFeedback", JObj [("tip", JStr ""); ("chosenFeedback", JStr "")])];
                  JObj [("text", JStr "B"); ("correct", JBool false);
                        ("tipsAndFeedback", JObj [("tip", JStr ""); ("chosenFeedback", JStr "")])];
                  JObj [("text", JStr "C"); ("correct", JBool true);
                        ("tipsAndFeedback", JObj [("tip", JStr ""); ("chosenFeedback", JStr "")])];
                  JObj [("text", JStr "D"); ("correct", JBool false);
                        ("tipsAndFeedback", JObj [("tip", JStr ""); ("chosenFeedback", JStr "")])]]).
Proof.
  destruct (example_laid [Ex.rec_abcd]) as [Ht Hr]; [solve_wf|].
  destruct (answers_follow_record (lib := Ex.library) 10 (ExMerge.store [Ex.rec_abcd])
              Ex.template_doc Ex.question0 (ExMerge.template_value [Ex.rec_abcd]) _ _
              [Ex.rec_abcd] (Ex.records_value [Ex.rec_abcd]) _ _ 0%nat None
              Ht template_doc_first question0_ok depth_template_doc Hr
              ltac:(repeat constructor; exact rec_abcd_ok))
    as (h' & roots & gs & E & Hnq & HF & Hall).
  destruct (Hall 0%nat _ _ 2 _ eq_refl eq_refl eq_refl eq_refl) as (g & Hg & Ha).
  exists h', roots, gs, g. split; [exact E|]. split; [exact Hnq|].
  split; [exact HF|]. split; [exact Hg | exact Ha].
Defined.

Lemma index_out_of_range_marks_none_witness :
  exists h' roots gs g,
    build_questions_from_mc (lib := Ex.library) 10
      (Ex.records_value [Ex.rec_five]) (ExMerge.template_value [Ex.rec_five])
      (ExMerge.start [Ex.rec_five])
    = (Ok (VRef (length (ExMerge.store [Ex.rec_five]))), State h' 1 None) /\
    h' !! length (ExMerge.store [Ex.rec_five]) = Some (OList roots) /\
    Forall2 (reads h') roots gs /\
    gs !! 0%nat = Some g /\
    answers_of g
    = Some (JArr ((fun text =>
                     JObj [("text", text); ("correct", JBool false);
                           ("tipsAndFeedback",
                            JObj [("tip", JStr ""); ("chosenFeedback", JStr "")])])
                  <$> [JStr "1"; JStr "2"; JStr "3"; JStr "4"; JStr "5"])).
Proof.
  destruct (example_laid [Ex.rec_five]) as [Ht Hr]; [solve_wf|].
  destruct (index_out_of_range_marks_none (lib := Ex.library) 10 (ExMerge.store [Ex.rec_five])
              Ex.template_doc Ex.question0 (ExMerge.template_value [Ex.rec_five]) _ _
              [Ex.rec_five] (Ex.records_value [Ex.rec_five]) _ _ 0%nat None
              Ht template_doc_first question0_ok depth_template_doc Hr
              ltac:(repeat constructor; exact rec_five_ok))
    as (h' & roots & gs & E & Hnq & HF & Hall).
  destruct (Hall 0%nat _ _ 7 _ eq_refl eq_refl eq_refl ltac:(right; simpl; lia) eq_refl)
    as (g & Hg & Ha).
  exists h', roots, gs, g. split; [exact E|]. split; [exact Hnq|].
  split; [exact HF|]. split; [exact Hg | exact Ha].
Defined.

(** C9 fails as stated: the first generated question is titled
    "Vraag 1", not "Question 1". *)
Lemma first_title_is_vraag_1 :
  match ExMerge.built [Ex.rec_abcd] with
  | Ok (JArr (g :: _)) => (metadata_of "title" g, metadata_of "extraTitle" g)
  | _ => (None, None)
  end = (Some (JStr "Vraag 1"), Some (JStr "Vraag 1")) /\
  String.eqb "Vraag 1" "Question 1" = false.
Proof. split; vm_compute; reflexivity. Qed.

Lemma titles_are_numbered_witness :
  exists h' roots gs,
    build_questions_from_mc (lib := Ex.library) 10
      (Ex.records_value [Ex.rec_abcd; Ex.rec_three])
      (ExMerge.template_value [Ex.rec_abcd; Ex.rec_three])
      (ExMerge.start [Ex.rec_abcd; Ex.rec_three])
    = (Ok (VRef (length (ExMerge.store [Ex.rec_abcd; Ex.rec_three]))), State h' 2 None) /\
    h' !! length (ExMerge.store [Ex.rec_abcd; Ex.rec_three]) = Some (OList roots) /\
    Forall2 (reads h') roots gs /\
    length gs = 2%nat /\
    forall k g,
      gs !! k = Some g ->
      metadata_of "title" g = Some (JStr ("Vraag " +:+ pretty (S k))) /\
      metadata_of "extraTitle" g = Some (JStr ("Vraag " +:+ pretty (S k))).
Proof.
  destruct (example_laid [Ex.rec_abcd; Ex.rec_three]) as [Ht Hr]; [solve_wf|].
  exact (titles_are_numbered (lib := Ex.library) 10
           (ExMerge.store [Ex.rec_abcd; Ex.rec_three])
           Ex.template_doc Ex.question0
           (ExMerge.template_value [Ex.rec_abcd; Ex.rec_three]) _ _
           [Ex.rec_abcd; Ex.rec_three] (Ex.records_value [Ex.rec_abcd; Ex.rec_three]) _ _
           0%nat None
           Ht template_doc_first question0_ok depth_template_doc Hr
           ltac:(repeat constructor; [exact rec_abcd_ok | exact rec_three_ok])).
Defined.

Lemma generated_questions_share_nothing_witness :
  exists h' roots,
    build_questions_from_mc (lib := Ex.library) 10
      (Ex.records_value [Ex.rec_abcd; Ex.rec_three])
      (ExMerge.template_value [Ex.rec_abcd; Ex.rec_three])
      (ExMerge.start [Ex.rec_abcd; Ex.rec_three])
    = (Ok (VRef (length (ExMerge.store [Ex.rec_abcd; Ex.rec_three]))), State h' 2 None) /\
    h' !! length (ExMerge.store [Ex.rec_abcd; Ex.rec_three]) = Some (OList roots) /\
    length roots = 2%nat /\
    (forall l, (l < length (ExMerge.store [Ex.rec_abcd; Ex.rec_three]))%nat ->
               h' !! l = ExMerge.store [Ex.rec_abcd; Ex.rec_three] !! l) /\
    forall questions skeleton_v,
      py_getitem_str (ExMerge.template_value [Ex.rec_abcd; Ex.rec_three]) "questions"
        (ExMerge.store [Ex.rec_abcd; Ex.rec_three]) = Ok questions ->
      py_getitem_int questions 0 (ExMerge.store [Ex.rec_abcd; Ex.rec_three]) = Ok skeleton_v ->
      forall i qi l,
        roots !! i = Some qi -> reach h' qi l ->
        ~ reach h' skeleton_v l /\
        (forall k qk, k <> i -> roots !! k = Some qk -> ~ reach h' qk l) /\
        forall ob n,
          to_json n skeleton_v (<[l := ob]> h') = to_json n skeleton_v h' /\
          forall k qk, k <> i -> roots !! k = Some qk ->
            to_json n qk (<[l := ob]> h') = to_json n qk h'.
Proof.
  destruct (example_laid [Ex.rec_abcd; Ex.rec_three]) as [Ht Hr]; [solve_wf|].
  exact (generated_questions_share_nothing (lib := Ex.library) 10
           (ExMerge.store [Ex.rec_abcd; Ex.rec_three])
           Ex.template_doc Ex.question0
           (ExMerge.template_value [Ex.rec_abcd; Ex.rec_three]) _ _
           [Ex.rec_abcd; Ex.rec_three] (Ex.records_value [Ex.rec_abcd; Ex.rec_three]) _ _
           0%nat None
           Ht template_doc_first question0_ok depth_template_doc Hr
           ltac:(repeat constructor; [exact rec_abcd_ok | exact rec_three_ok])).
Defined.

(** * Further properties *)

(** ** The merge engine and the archive *)

Lemma project_question base_q r i token g :
  project base_q r i token = Some g ->
  exists rk question,
    r = JObj rk /\ dict_lookup "question" rk = Some question /\
    params_of "question" g = Some question.
Proof.
  intros H. apply project_inv in H as (qk & rk & pk & mk & ak & arest & question & texts
    & -> & -> & Hp & Hm & Ha & Hq & Ht & ->).
  exists rk, question. split; [done|]. split; [done|].
  unfold params_of, field.
  rewrite dict_lookup_set_ne by done. rewrite dict_lookup_set_ne by done.
  rewrite dict_lookup_set_eq. rewrite dict_lookup_set_ne by done.
  apply dict_lookup_set_eq.
Qed.

Lemma project_kept base_q r i token g :
  project base_q r i token = Some g ->
  (forall f, f <> "params" -> f <> "metadata" -> f <> "subContentId" ->
             field f g = field f base_q) /\
  (forall f, f <> "question" -> f <> "answers" -> params_of f g = params_of f base_q) /\
  (forall f, f <> "title" -> f <> "extraTitle" -> metadata_of f g = metadata_of f base_q).
Proof.
  intros H. apply project_inv in H as (qk & rk & pk & mk & ak & arest & question & texts
    & -> & -> & Hp & Hm & Ha & Hq & Ht & ->).
  split; [|split].
  - intros f H1 H2 H3. unfold field. by rewrite !dict_lookup_set_ne by done.
  - intros f H1 H2. unfold params_of, field.
    rewrite dict_lookup_set_ne by done. rewrite dict_lookup_set_ne by done.
    rewrite dict_lookup_set_eq, Hp. by rewrite !dict_lookup_set_ne by done.
  - intros f H1 H2. unfold metadata_of, field.
    rewrite dict_lookup_set_ne by done. rewrite dict_lookup_set_eq, Hm.
    by rewrite !dict_lookup_set_ne by done.
Qed.

Lemma json_eq_int_unique i j ci :
  json_eq_int i ci = true -> json_eq_int j ci = true -> i = j.
Proof.
  destruct ci as [ |b|z|f| | | ]; simpl; try done.
  - intros H1 H2. apply Z.eqb_eq in H1, H2. congruence.
  - intros H1 H2. apply Z.eqb_eq in H1, H2. congruence.
  - destruct (float_as_Z f); [|done].
    intros H1 H2. apply Z.eqb_eq in H1, H2. congruence.
Qed.

Lemma answer_entry_correct ak ci idx text :
  correct_of (answer_entry ak ci idx text) = Some (JBool (json_eq_int (Z.of_nat idx) ci)).
Proof. unfold correct_of, answer_entry, field. apply dict_lookup_set_eq. Qed.

Section MergeMore.
Context {lib : Library}.

Variables (fuel : nat) (h0 : heap) (doc base_q : json) (template_content : val)
  (ta tb : nat) (recs : list json) (mc_questions : val) (ra rb : nat)
  (u : nat) (o : option (list (string * bytes))).
Hypothesis template_laid : lay h0 doc template_content ta tb.
Hypothesis template_first : template_ok doc base_q.
Hypothesis skeleton : skeleton_ok base_q.
Hypothesis fuel_enough : (depth doc <= fuel)%nat.
Hypothesis records_laid : lay h0 (JArr recs) mc_questions ra rb.
Hypothesis records_typed : Forall record_ok recs.

(** X1.  The question text of every generated question,
    [params["question"]], is the [question] of its record. *)
Theorem question_text_follows_record :
  exists h' roots gs,
    build_questions_from_mc fuel mc_questions template_content (State h0 u o)
    = (Ok (VRef (length h0)), State h' (u + length recs) o) /\
    h' !! length h0 = Some (OList roots) /\
    Forall2 (reads h') roots gs /\
    forall k rk question,
      recs !! k = Some (JObj rk) ->
      dict_lookup "question" rk = Some question ->
      exists g, gs !! k = Some g /\ params_of "question" g = Some question.
Proof.
  destruct (merge_result fuel h0 doc base_q template_content ta tb recs mc_questions ra rb u o)
    as (h' & roots & gs & E & F & Hnq & Hch & Hgs); try done.
  exists h', roots, gs. split; [done|]. split; [done|].
  split; [by eapply chain_reads|].
  intros k rk question Hr Hq.
  destruct (merged_record base_q u recs gs k _ Hgs Hr) as (g & Hg & Hp).
  exists g. split; [done|].
  apply project_question in Hp as (rk' & question' & [= <-] & Hq' & ->). congruence.
Qed.

(** X2.  Every generated question keeps the settings of the skeleton:
    its fields other than [params], [metadata] and [subContentId], the
    fields of its [params] other than [question] and [answers], and the
    fields of its [metadata] other than [title] and [extraTitle] are
    those of the template's first question. *)
Theorem skeleton_settings_are_kept :
  exists h' roots gs,
    build_questions_from_mc fuel mc_questions template_content (State h0 u o)
    = (Ok (VRef (length h0)), State h' (u + length recs) o) /\
    h' !! length h0 = Some (OList roots) /\
    Forall2 (reads h') roots gs /\
    length gs = length recs /\
    forall k g, gs !! k = Some g ->
      (forall f, f <> "params" -> f <> "metadata" -> f <> "subContentId" ->
                 field f g = field f base_q) /\
      (forall f, f <> "question" -> f <> "answers" -> params_of f g = params_of f base_q) /\
      (forall f, f <> "title" -> f <> "extraTitle" ->
                 metadata_of f g = metadata_of f base_q).
Proof.
  destruct (merge_result fuel h0 doc base_q template_content ta tb recs mc_questions ra rb u o)
    as (h' & roots & gs & E & F & Hnq & Hch & Hgs); try done.
  exists h', roots, gs. split; [done|]. split; [done|].
  split; [by eapply chain_reads|].
  split; [by eapply merged_questions_length|].
  intros k g Hg.
  destruct (merged_questions_lookup _ _ _ _ _ _ Hgs Hg) as (r & _ & Hp).
  by eapply project_kept.
Qed.

(** X3.  Whatever the [correct_index] of a record is, or when it has
    none, every answer entry of its question has a boolean [correct]
    and at most one of them is true. *)
Theorem at_most_one_answer_marked :
  exists h' roots gs,
    build_questions_from_mc fuel mc_questions template_content (State h0 u o)
    = (Ok (VRef (length h0)), State h' (u + length recs) o) /\
    h' !! length h0 = Some (OList roots) /\
    Forall2 (reads h') roots gs /\
    length gs = length recs /\
    forall k g, gs !! k = Some g ->
      exists entries,
        answers_of g = Some (JArr entries) /\
        (forall i a, entries !! i = Some a -> exists b, correct_of a = Some (JBool b)) /\
        forall i j ai aj,
          entries !! i = Some ai -> entries !! j = Some aj ->
          correct_of ai = Some (JBool true) -> correct_of aj = Some (JBool true) ->
          i = j.
Proof.
  destruct (merge_result fuel h0 doc base_q template_content ta tb recs mc_questions ra rb u o)
    as (h' & roots & gs & E & F & Hnq & Hch & Hgs); try done.
  exists h', roots, gs. split; [done|]. split; [done|].
  split; [by eapply chain_reads|].
  split; [by eapply merged_questions_length|].
  intros k g Hg.
  destruct (merged_questions_lookup _ _ _ _ _ _ Hgs Hg) as (r & _ & Hp).
  apply project_answers in Hp as (qk & rk & pk & ak & arest & texts & _ & _ & _ & _ & _ & Ha).
  eexists. split; [exact Ha|]. split.
  - intros i a Hi. rewrite list_lookup_imap in Hi.
    destruct (texts !! i) as [t|]; [|done]. injection Hi as <-.
    eexists. apply answer_entry_correct.
  - intros i j ai aj Hi Hj Hci Hcj. rewrite list_lookup_imap in Hi, Hj.
    destruct (texts !! i) as [ti|]; [|done]. destruct (texts !! j) as [tj|]; [|done].
    injection Hi as <-. injection Hj as <-.
    rewrite answer_entry_correct in Hci, Hcj. injection Hci as Hci. injection Hcj as Hcj.
    pose proof (json_eq_int_unique _ _ _ Hci Hcj). lia.
Qed.

End MergeMore.

Section More.
Context {lib : Library}.

(** X5.  The content entry of the output is the encoded serialisation
    of the content description of the template with [questions]
    replaced by one question per record, in order: the question for
    record [k] is the first question of the template with the text, the
    answers, the two titles for position [k + 1] and the token of the
    [k]-th draw put in, as [project] computes it.  When [str.encode]
    refuses the serialisation, a text holding a lone surrogate, the
    call raises its error and opens no output. *)
Theorem content_entry_is_projection
    fuel zin raw text dkvs base_q qrest recs mcq ra rb h0 u o :
  zip_read zin content_path = Ok raw ->
  utf8_decode raw = Ok text ->
  json_loads text = Ok (JObj dkvs) ->
  dict_lookup "questions" dkvs = Some (JArr (base_q :: qrest)) ->
  skeleton_ok base_q ->
  (depth (JObj dkvs) <= fuel)%nat ->
  lay h0 (JArr recs) mcq ra rb ->
  Forall record_ok recs ->
  readable zin ->
  exists h' gs,
    create_h5p_from_template fuel zin mcq (State h0 u o)
    = match utf8_encode (json_dumps (JObj (dict_set "questions" (JArr gs) dkvs))) with
      | Ok new_content_bytes =>
          (Ok tt,
           State h' (u + length recs) (Some (output_entry zin new_content_bytes <$> zin)))
      | Raise e => (Raise e, State h' (u + length recs) o)
      end /\
    length gs = length recs /\
    forall k r, recs !! k = Some r ->
      exists g, gs !! k = Some g /\ project base_q r (S k) (uuid4 (u + k)) = Some g.
Proof.
  intros Hraw Htext Hdoc Hqs Hsk Hfuel Hrecs Hok Hread.
  destruct (create_spec fuel zin raw text (JObj dkvs) base_q recs mcq ra rb h0 u o)
    as (h' & dkvs' & gs & [= <-] & Hgs & _ & E); try done.
  { by exists dkvs, qrest. }
  { destruct Hsk as (qk & pk & mk & ak & arest & -> & Hp & _). by exists qk, (JObj pk). }
  { by right. }
  exists h', gs. split; [exact E|].
  split; [by eapply merged_questions_length|].
  intros k r Hr. by eapply merged_record.
Qed.

(** X6.  The merge writes to none of the objects that existed before
    the call: the caller's records read after it as they did before,
    whether the call returns or [str.encode] refuses the serialisation
    of the merged document. *)
Theorem records_survive_the_merge
    fuel zin raw text dkvs base_q qrest recs mcq ra rb h0 u o :
  zip_read zin content_path = Ok raw ->
  utf8_decode raw = Ok text ->
  json_loads text = Ok (JObj dkvs) ->
  dict_lookup "questions" dkvs = Some (JArr (base_q :: qrest)) ->
  skeleton_ok base_q ->
  (depth (JObj dkvs) <= fuel)%nat ->
  lay h0 (JArr recs) mcq ra rb ->
  Forall record_ok recs ->
  readable zin ->
  exists gs s',
    Some <$> gs = merged_questions base_q u recs /\
    create_h5p_from_template fuel zin mcq (State h0 u o)
    = (match utf8_encode (json_dumps (JObj (dict_set "questions" (JArr gs) dkvs))) with
       | Ok _ => Ok tt
       | Raise e => Raise e
       end, s') /\
    (forall l, (l < length h0)%nat -> st_heap s' !! l = h0 !! l) /\
    (forall n, to_json n mcq (st_heap s') = to_json n mcq h0) /\
    reads (st_heap s') mcq (JArr recs).
Proof.
  intros Hraw Htext Hdoc Hqs Hsk Hfuel Hrecs Hok Hread.
  destruct (create_spec fuel zin raw text (JObj dkvs) base_q recs mcq ra rb h0 u o)
    as (h' & dkvs' & gs & [= <-] & Hgs & F & E); try done.
  { by exists dkvs, qrest. }
  { destruct Hsk as (qk & pk & mk & ak & arest & -> & Hp & _). by exists qk, (JObj pk). }
  { by right. }
  exists gs,
    (State h' (u + length recs)
       match utf8_encode (json_dumps (JObj (dict_set "questions" (JArr gs) dkvs))) with
       | Ok new_content_bytes => Some (output_entry zin new_content_bytes <$> zin)
       | Raise _ => o
       end).
  split; [done|]. split.
  { rewrite E. by destruct (utf8_encode _). }
  cbn [st_heap].
  pose proof (lay_arr_inv _ _ _ _ _ Hrecs) as (-> & Hrab & _).
  pose proof (lay_ref_bounds _ _ _ _ _ Hrecs) as (_ & ? & ?).
  split; [exact F|]. split.
  - intros n. eapply to_json_region.
    + by eapply (proj1 (lay_closed h0)).
    + intros l Hl. apply F. lia.
    + intros l [= <-]. lia.
  - eapply lay_reads. eapply lay_agree; [exact Hrecs|]. intros l Hl. apply F. lia.
Qed.

Lemma output_entry_names zin nb :
  (output_entry zin nb <$> zin).*1 = zm_filename <$> zin.
Proof. rewrite <- list_fmap_compose. by apply list_fmap_ext. Qed.

Lemma output_entry_payloads zin nb :
  Forall (fun item => exists data, zip_read zin (zm_filename item) = Ok data) zin ->
  Forall2 (fun m e =>
             if String.eqb (zm_filename m) content_path
             then e.2 = nb
             else zip_read zin (zm_filename m) = Ok (e.2)) zin (output_entry zin nb <$> zin).
Proof.
  intros Hall.
  apply Forall2_fmap_r, Forall2_same_length_lookup. split; [done|].
  intros i m m' Hm Hm'. rewrite Hm in Hm'. injection Hm' as <-.
  unfold output_entry. simpl.
  destruct (String.eqb (zm_filename m) content_path); [done|].
  assert (m ∈ zin) as Hin by (apply list_elem_of_lookup; eauto).
  eapply Forall_forall in Hall as [data Hd]; [|exact Hin].
  unfold read_payload. by rewrite Hd.
Qed.

(** What the output file holds when the merge returns. *)
Lemma create_success_entries fuel zin mcq s s' :
  create_h5p_from_template fuel zin mcq s = (Ok tt, s') ->
  exists out_doc new_content_bytes entries,
    utf8_encode (json_dumps out_doc) = Ok new_content_bytes /\
    st_out s' = Some entries /\
    entries.*1 = zm_filename <$> zin /\
    Forall2 (fun m e =>
               if String.eqb (zm_filename m) content_path
               then e.2 = new_content_bytes
               else zip_read zin (zm_filename m) = Ok (e.2)) zin entries.
Proof.
  intros Hrun.
  apply create_outcome in Hrun as [(e & ? & _)|(out_doc & nb & h & u & Henc & Hloop)];
    [done|].
  apply copy_loop_outcome in Hloop as [(_ & -> & Hall)|(e & k & item & ? & _)]; [|done].
  exists out_doc, nb, (output_entry zin nb <$> zin).
  split; [done|]. split; [done|]. split; [by apply output_entry_names|].
  by apply output_entry_payloads.
Qed.

(** X7.  For any archive, also one with entries of the same name, with
    a template and records of the expected shape: when
    [create_h5p_from_template] returns, the output has the names of the
    input in the same order, every entry named [content/content.json]
    holds the new content description, the encoded serialisation of the
    template's with [questions] replaced by the questions generated for
    the records, and every other entry holds what [zin.read] gives for
    its name. *)
Theorem copy_reads_members_by_name
    fuel zin raw text dkvs base_q qrest recs mcq ra rb h0 u o s' :
  zip_read zin content_path = Ok raw ->
  utf8_decode raw = Ok text ->
  json_loads text = Ok (JObj dkvs) ->
  dict_lookup "questions" dkvs = Some (JArr (base_q :: qrest)) ->
  has_params base_q ->
  (recs = [] \/ skeleton_ok base_q) ->
  (depth (JObj dkvs) <= fuel)%nat ->
  lay h0 (JArr recs) mcq ra rb ->
  Forall record_ok recs ->
  create_h5p_from_template fuel zin mcq (State h0 u o) = (Ok tt, s') ->
  exists gs new_content_bytes entries,
    Some <$> gs = merged_questions base_q u recs /\
    utf8_encode (json_dumps (JObj (dict_set "questions" (JArr gs) dkvs)))
    = Ok new_content_bytes /\
    st_out s' = Some entries /\
    entries.*1 = zm_filename <$> zin /\
    Forall2 (fun m e =>
               if String.eqb (zm_filename m) content_path
               then e.2 = new_content_bytes
               else zip_read zin (zm_filename m) = Ok (e.2)) zin entries.
Proof.
  intros Hraw Htext Hdoc Hqs Hpar Hsk Hfuel Hrecs Hok Hrun.
  destruct (create_returned fuel zin raw text dkvs base_q qrest recs mcq ra rb h0 u o s')
    as (gs & nb & Hgs & Eenc & Hout & Hall); try done.
  exists gs, nb, (output_entry zin nb <$> zin).
  split; [done|]. split; [done|]. split; [done|].
  split; [by apply output_entry_names | by apply output_entry_payloads].
Qed.

(** X10.  A response that is valid JSON but no object, a list, a
    number, a text, [true], [false] or [null], makes the adapter raise
    [AttributeError], not [RuntimeError]; no token is drawn and no file
    written. *)
Theorem non_object_response_raises_attribute_error raw j s :
  json_loads raw = Ok j ->
  ~ json_is_object j ->
  exists s',
    clean_and_parse_questions (Ok raw) s = (Raise AttributeError, s') /\
    st_uuid s' = st_uuid s /\ st_out s' = st_out s.
Proof.
  intros Hdoc Hno. destruct s as [h u o].
  pose proof (json_loads_wf _ _ Hdoc) as Hwf.
  destruct (alloc_json j h) as [data h1] eqn:Ealloc.
  destruct (alloc_json_spec _ Hwf _ _ _ Ealloc) as [Ldoc _].
  exists (State (h1 ++ [OList []]) u o). split; [|done].
  unfold clean_and_parse_questions.
  erewrite bind_ok by reflexivity.
  erewrite bind_ok by (rewrite Hdoc; apply run_load_json; exact Ealloc).
  erewrite bind_ok by apply run_alloc.
  unfold reading, py_dict_get. cbn [st_heap].
  destruct j as [ | | | | |xs|kvs]; [by inversion Ldoc; subst..| |by destruct Hno].
  apply lay_arr_inv in Ldoc as (-> & Hb & vs & Hc & _).
  by rewrite lookup_app_l, Hc by (by eapply lookup_lt_Some).
Qed.

(** X9.  A template whose first question has no [params] field makes
    the merge raise [KeyError] whatever the records are, also when
    there are none; no token is drawn and nothing is written to the
    output. *)
Theorem skeleton_without_params_raises_key_error
    fuel zin raw text dkvs qk qrest mcq s :
  zip_read zin content_path = Ok raw ->
  utf8_decode raw = Ok text ->
  json_loads text = Ok (JObj dkvs) ->
  dict_lookup "questions" dkvs = Some (JArr (JObj qk :: qrest)) ->
  dict_lookup "params" qk = None ->
  exists s',
    create_h5p_from_template fuel zin mcq s = (Raise KeyError, s') /\
    st_uuid s' = st_uuid s /\ st_out s' = st_out s.
Proof.
  intros Hraw Htext Hdoc Hqs Hnp. destruct s as [h u o].
  pose proof (json_loads_wf _ _ Hdoc) as Hwf.
  destruct (alloc_json (JObj dkvs) h) as [tpl h1] eqn:Ealloc.
  destruct (alloc_json_spec _ Hwf _ _ _ Ealloc) as [Ldoc _].
  destruct (lay_obj_inv _ _ _ _ _ Ldoc) as (-> & _ & _ & dvs & Hcd & _ & HFd).
  destruct (item_lay_lookup _ _ _ _ _ _ _ _ HFd Hqs)
    as (qsv & qsa & qsb & Hqsv & _ & _ & Lqs & _).
  destruct (lay_arr_inv _ _ _ _ _ Lqs) as (-> & _ & qvs & Hcqs & Hlqs).
  destruct (lays_cons_inv _ _ _ _ _ _ Hlqs) as (q0v & qvs' & qm & -> & Lq0 & _).
  destruct (lay_obj_inv _ _ _ _ _ Lq0) as (-> & _ & _ & q0vs & Hcq0 & _ & HFq).
  exists (State h1 u o). split; [|done]. rewrite create_unfold.
  erewrite bind_ok by (unfold lift; by rewrite Hraw).
  erewrite bind_ok by (unfold lift; by rewrite Htext).
  erewrite bind_ok by (unfold lift; by rewrite Hdoc).
  erewrite bind_ok by (apply run_load_json; exact Ealloc).
  apply bind_raise. rewrite build_unfold.
  erewrite bind_ok by (eapply run_getitem_str; [exact Hcd | exact Hqsv]).
  erewrite bind_ok by (eapply run_getitem_head; exact Hcqs).
  apply bind_raise. unfold reading, py_getitem_str. cbn [st_heap]. rewrite Hcq0.
  by rewrite (item_lay_lookup_None _ _ _ _ _ _ _ HFq Hnp).
Qed.

End More.

Section TwoTemplates.
Context {lib : Library}.

Variables (fuel : nat) (base_q : json) (recs : list json) (u : nat).
Variables (h1 : heap) (doc1 : json) (template1 : val) (ta1 tb1 : nat)
  (mc_questions1 : val) (ra1 rb1 : nat) (o1 : option (list (string * bytes))).
Variables (h2 : heap) (doc2 : json) (template2 : val) (ta2 tb2 : nat)
  (mc_questions2 : val) (ra2 rb2 : nat) (o2 : option (list (string * bytes))).
Hypothesis skeleton : skeleton_ok base_q.
Hypothesis records_typed : Forall record_ok recs.
Hypothesis template1_laid : lay h1 doc1 template1 ta1 tb1.
Hypothesis template1_first : template_ok doc1 base_q.
Hypothesis fuel1_enough : (depth doc1 <= fuel)%nat.
Hypothesis records1_laid : lay h1 (JArr recs) mc_questions1 ra1 rb1.
Hypothesis template2_laid : lay h2 doc2 template2 ta2 tb2.
Hypothesis template2_first : template_ok doc2 base_q.
Hypothesis fuel2_enough : (depth doc2 <= fuel)%nat.
Hypothesis records2_laid : lay h2 (JArr recs) mc_questions2 ra2 rb2.

(** X4.  Two templates with the same first question give the same
    questions: the other questions of a template, and the other fields
    of its content description, have no part in them. *)
Theorem only_first_question_matters :
  exists h1' roots1 h2' roots2 gs,
    build_questions_from_mc fuel mc_questions1 template1 (State h1 u o1)
    = (Ok (VRef (length h1)), State h1' (u + length recs) o1) /\
    h1' !! length h1 = Some (OList roots1) /\
    build_questions_from_mc fuel mc_questions2 template2 (State h2 u o2)
    = (Ok (VRef (length h2)), State h2' (u + length recs) o2) /\
    h2' !! length h2 = Some (OList roots2) /\
    Forall2 (reads h1') roots1 gs /\
    Forall2 (reads h2') roots2 gs.
Proof.
  destruct (merge_result fuel h1 doc1 base_q template1 ta1 tb1 recs mc_questions1 ra1 rb1 u o1)
    as (h1' & roots1 & gs1 & E1 & _ & Hnq1 & Hch1 & Hgs1); try done.
  destruct (merge_result fuel h2 doc2 base_q template2 ta2 tb2 recs mc_questions2 ra2 rb2 u o2)
    as (h2' & roots2 & gs2 & E2 & _ & Hnq2 & Hch2 & Hgs2); try done.
  assert (gs2 = gs1) as ->.
  { apply (inj (fmap Some)). congruence. }
  exists h1', roots1, h2', roots2, gs1.
  split; [done|]. split; [done|]. split; [done|]. split; [done|].
  split; by eapply chain_reads.
Qed.

End TwoTemplates.

Lemma lays_app_inv h xs ys vs a b :
  lays h (xs ++ ys) vs a b ->
  exists vs1 vs2 m, vs = vs1 ++ vs2 /\ lays h xs vs1 a m /\ lays h ys vs2 m b.
Proof.
  revert vs a. induction xs as [|x xs IH]; intros vs a H; simpl in H.
  - exists [], vs, a. split; [done|]. split; [constructor | done].
  - apply lays_cons_inv in H as (v & vs' & m & -> & Hx & Hr).
    apply IH in Hr as (vs1 & vs2 & m' & -> & H1 & H2).
    exists (v :: vs1), vs2, m'. split; [done|]. split; [by econstructor | done].
Qed.

Lemma lays_values_length h xs vs a b : lays h xs vs a b -> length vs = length xs.
Proof. induction 1; simpl; auto. Qed.

Lemma enumerate_app {A} i (xs ys : list A) :
  enumerate i (xs ++ ys) = enumerate i xs ++ enumerate (i + length xs) ys.
Proof.
  revert i. induction xs as [|x xs IH]; intros i; simpl.
  - by rewrite Nat.add_0_r.
  - rewrite IH. by replace (S i + length xs)%nat with (i + S (length xs))%nat by lia.
Qed.

Lemma for_each_app {A} (xs ys : list A) (body : A -> M unit) s :
  for_each (xs ++ ys) body s = bind (for_each xs body) (fun _ => for_each ys body) s.
Proof.
  revert s. induction xs as [|x xs IH]; intros s; [done|].
  cbn [app for_each]. unfold bind.
  destruct (body x s) as [[[]|e] s1]; [|done]. rewrite IH. done.
Qed.

Section MissingQuestion.
Context {lib : Library}.

Lemma question_pass_without_question fuel h0 qk p qa qb bp nq rk qv ra rb i h u o :
  lay h0 (JObj qk) (VRef qa) qa qb ->
  dict_lookup "params" qk = Some p ->
  (depth (JObj qk) <= fuel)%nat ->
  lay h0 (JObj rk) qv ra rb ->
  dict_lookup "question" rk = None ->
  (forall l, (l < length h0)%nat -> h !! l = h0 !! l) ->
  (length h0 <= length h)%nat ->
  exists h',
    question_body fuel (VRef qa) bp nq (i, qv) (State h u o) = (Raise KeyError, State h' u o) /\
    (forall l, (l < length h0)%nat -> h' !! l = h0 !! l).
Proof.
  intros Hq0 Hp Hfq Hr Hnq Hlow Hlen.
  assert (lay h (JObj qk) (VRef qa) qa qb) as Hq.
  { eapply lay_agree; [exact Hq0|]. intros l Hl. apply Hlow.
    apply lay_ref_bounds in Hq0. lia. }
  destruct (run_deepcopy fuel h u o _ _ _ _ Hq Hfq) as (v' & h1 & E1 & L1 & F1).
  destruct (lay_obj_inv _ _ _ _ _ L1) as (-> & _ & _ & vs & Hcs & _ & HFs).
  destruct (item_lay_lookup _ _ _ _ _ _ _ _ HFs Hp) as (vp & ap & bp' & Hvp & _).
  destruct (lay_obj_inv _ _ _ _ _ Hr) as (-> & _ & Hrab & rvs & Hcr & _ & HFr).
  exists h1. split.
  - unfold question_body.
    erewrite bind_ok by exact E1.
    erewrite bind_ok by (eapply run_getitem_str; [exact Hcs | exact Hvp]).
    apply bind_raise. unfold reading, py_getitem_str. cbn [st_heap].
    rewrite F1, Hlow, Hcr by lia.
    by rewrite (item_lay_lookup_None _ _ _ _ _ _ _ HFr Hnq).
  - intros l Hl. rewrite F1 by lia. by apply Hlow.
Qed.

Lemma question_pass_without_answers
    fuel h0 qk pk qa qb bp nq rk x qv ra rb i h u o :
  lay h0 (JObj qk) (VRef qa) qa qb ->
  dict_lookup "params" qk = Some (JObj pk) ->
  (depth (JObj qk) <= fuel)%nat ->
  lay h0 (JObj rk) qv ra rb ->
  dict_lookup "question" rk = Some x ->
  dict_lookup "answers" rk = None ->
  (forall l, (l < length h0)%nat -> h !! l = h0 !! l) ->
  (length h0 <= length h)%nat ->
  exists h',
    question_body fuel (VRef qa) bp nq (i, qv) (State h u o) = (Raise KeyError, State h' u o) /\
    (forall l, (l < length h0)%nat -> h' !! l = h0 !! l).
Proof.
  intros Hq0 Hp Hfq Hr Hx Hna Hlow Hlen.
  assert (lay h (JObj qk) (VRef qa) qa qb) as Hq.
  { eapply lay_agree; [exact Hq0|]. intros l Hl. apply Hlow.
    apply lay_ref_bounds in Hq0. lia. }
  destruct (run_deepcopy fuel h u o _ _ _ _ Hq Hfq) as (v' & h1 & E1 & L1 & F1).
  destruct (lay_obj_inv _ _ _ _ _ L1) as (-> & _ & _ & vs & Hcs & _ & HFs).
  destruct (item_lay_lookup _ _ _ _ _ _ _ _ HFs Hp) as (vp & ap & bp' & Hvp & Hap & _ & Lp & _).
  destruct (lay_obj_inv _ _ _ _ _ Lp) as (-> & _ & Hpab & pvs & Hcp & _).
  destruct (lay_obj_inv _ _ _ _ _ Hr) as (-> & _ & Hrab & rvs & Hcr & _ & HFr).
  destruct (item_lay_lookup _ _ _ _ _ _ _ _ HFr Hx) as (xv & _ & _ & Hxv & _).
  set (h2 := <[ap := ODict (dict_set "question" xv (zip (pk.*1) pvs))]> h1).
  set (h3 := h2 ++ [OList []]).
  assert (forall l, (l < length h0)%nat -> h3 !! l = h0 !! l) as Hlow3.
  { intros l Hl. unfold h3, h2.
    rewrite lookup_app_l by (rewrite length_insert; apply lookup_lt_Some in Hcs; lia).
    rewrite list_lookup_insert_ne by lia. rewrite F1 by lia. by apply Hlow. }
  exists h3. split; [|exact Hlow3].
  unfold question_body.
  erewrite bind_ok by exact E1.
  erewrite bind_ok by (eapply run_getitem_str; [exact Hcs | exact Hvp]).
  erewrite bind_ok.
  2:{ eapply run_getitem_str; [|exact Hxv]. rewrite F1, Hlow by lia. exact Hcr. }
  erewrite bind_ok by (eapply run_setitem; exact Hcp).
  erewrite bind_ok by apply run_alloc.
  fold h2 h3.
  erewrite bind_ok by (eapply run_dict_get; rewrite Hlow3 by lia; exact Hcr).
  apply bind_raise. unfold reading, py_getitem_str. cbn [st_heap].
  rewrite Hlow3, Hcr by lia.
  by rewrite (item_lay_lookup_None _ _ _ _ _ _ _ HFr Hna).
Qed.

(** X8.  A record without [question] or without [answers], after
    records of the expected type: the merge raises [KeyError] once the
    records before it have been turned into questions, one token drawn
    for each; it writes nothing to the output and to no object that
    existed before the call. *)
Theorem record_without_field_raises_key_error
    fuel zin raw text dkvs base_q qrest recs1 rk recs2 mcq ra rb h0 u o :
  zip_read zin content_path = Ok raw ->
  utf8_decode raw = Ok text ->
  json_loads text = Ok (JObj dkvs) ->
  dict_lookup "questions" dkvs = Some (JArr (base_q :: qrest)) ->
  skeleton_ok base_q ->
  (depth (JObj dkvs) <= fuel)%nat ->
  lay h0 (JArr (recs1 ++ JObj rk :: recs2)) mcq ra rb ->
  Forall record_ok recs1 ->
  dict_lookup "question" rk = None \/ dict_lookup "answers" rk = None ->
  exists h',
    create_h5p_from_template fuel zin mcq (State h0 u o)
    = (Raise KeyError, State h' (u + length recs1) o) /\
    (forall l, (l < length h0)%nat -> h' !! l = h0 !! l).
Proof.
  intros Hraw Htext Hdoc Hqs (qk & pk & mk & ak & arest & -> & Hp & Hm & Ha)
    Hfuel Hrecs Hok Hnq.
  pose proof (json_loads_wf _ _ Hdoc) as Hwf.
  destruct (alloc_json (JObj dkvs) h0) as [tpl h1] eqn:Ealloc.
  destruct (alloc_json_spec _ Hwf _ _ _ Ealloc) as [Ldoc F1].
  pose proof (lay_le _ _ _ _ _ Ldoc) as Hle1.
  destruct (lay_arr_inv _ _ _ _ _ Hrecs) as (-> & Hrab & rvs & Hcr & Hlr).
  assert (lays h1 (recs1 ++ JObj rk :: recs2) rvs (S ra) rb) as Hlr1.
  { eapply lays_agree; [exact Hlr|]. intros l Hl. apply F1. lia. }
  destruct (lay_obj_inv _ _ _ _ _ Ldoc) as (-> & _ & Htab & dvs & Hcd & _ & HFd).
  destruct (item_lay_lookup _ _ _ _ _ _ _ _ HFd Hqs)
    as (qsv & qsa & qsb & Hqsv & _ & _ & Lqs & _).
  destruct (lay_arr_inv _ _ _ _ _ Lqs) as (-> & Hqsab & qvs & Hcqs & Hlqs).
  destruct (lays_cons_inv _ _ _ _ _ _ Hlqs) as (q0v & qvs' & qm & -> & Lq0 & _).
  destruct (lay_obj_inv _ _ _ _ _ Lq0) as (-> & _ & Hqab & q0vs & Hcq0 & _ & HFq).
  destruct (item_lay_lookup _ _ _ _ _ _ _ _ HFq Hp)
    as (pv & pa & pb & Hpv & _ & _ & Lp & _).
  destruct (lay_obj_inv _ _ _ _ _ Lp) as (-> & _ & Hpab & pvs & Hcp & _ & HFp).
  destruct (item_lay_lookup _ _ _ _ _ _ _ _ HFp Ha)
    as (av & aa & ab & Hav & _ & _ & La & _).
  destruct (lay_arr_inv _ _ _ _ _ La) as (-> & Haab & avs & Hca & Hla).
  destruct (lays_cons_inv _ _ _ _ _ _ Hla) as (a0v & avs' & am & -> & La0 & _).
  pose proof (depth_lookup _ _ _ Hqs) as D1.
  pose proof (depth_head (JObj qk) qrest) as D2.
  pose proof (depth_lookup _ _ _ Hp) as D3.
  pose proof (depth_lookup _ _ _ Ha) as D4.
  pose proof (depth_head (JObj ak) arest) as D5.
  destruct (lays_app_inv _ _ _ _ _ _ Hlr1) as (rvs1 & rvs2 & rm & -> & Hl1 & Hl2).
  destruct (lays_cons_inv _ _ _ _ _ _ Hl2) as (qv & rvs2' & rm' & -> & Lr & _).
  set (n1 := length h1) in *.
  set (h2 := h1 ++ [OList []]).
  assert (forall l, (l < n1)%nat -> h2 !! l = h1 !! l) as Hlow2.
  { intros l Hl. by apply lookup_app_l. }
  assert (length h2 = S n1) as Hlen2.
  { unfold h2. rewrite length_app. simpl. lia. }
  assert (h2 !! n1 = Some (OList [])) as Hnq2 by (by apply list_lookup_middle).
  destruct (records_loop fuel h1 qk pk mk ak arest (S qsa) qm pa
              (zip (pk.*1) pvs) aa a0v avs' (S aa) am
              Lq0 Hp Hm Ha ltac:(lia) ltac:(lia) Hcp Hav Hca La0
              recs1 rvs1 (S ra) rm Hl1 Hok 1%nat [] [] h2 u o Hlow2 ltac:(lia) Hnq2)
    as (h3 & news & gs' & E3 & Hlow3 & Hlen3 & _).
  { rewrite Hlen2. constructor. }
  assert (exists h4,
    question_body fuel (VRef (S qsa)) (VRef pa) (VRef n1) ((1 + length rvs1)%nat, qv)
      (State h3 (u + length recs1) o)
    = (Raise KeyError, State h4 (u + length recs1) o) /\
    (forall l, (l < n1)%nat -> h4 !! l = h1 !! l)) as (h4 & E4 & Hlow4).
  { destruct (dict_lookup "question" rk) as [x|] eqn:Hx.
    - destruct Hnq as [?|Hna]; [done|].
      by eapply question_pass_without_answers; try done; lia.
    - by eapply question_pass_without_question; try done; lia. }
  exists h4. split.
  - rewrite create_unfold.
    erewrite bind_ok by (unfold lift; by rewrite Hraw).
    erewrite bind_ok by (unfold lift; by rewrite Htext).
    erewrite bind_ok by (unfold lift; by rewrite Hdoc).
    erewrite bind_ok by (apply run_load_json; exact Ealloc).
    apply bind_raise. rewrite build_unfold.
    erewrite bind_ok by (eapply run_getitem_str; [exact Hcd | exact Hqsv]).
    erewrite bind_ok by (eapply run_getitem_head; exact Hcqs).
    erewrite bind_ok by (eapply run_getitem_str; [exact Hcq0 | exact Hpv]).
    erewrite bind_ok by apply run_alloc.
    erewrite bind_ok.
    2:{ eapply run_iter_list. fold h2. rewrite Hlow2, F1 by lia. exact Hcr. }
    fold n1 h2. apply bind_raise.
    rewrite enumerate_app, for_each_app.
    erewrite bind_ok by exact E3.
    cbn [enumerate for_each]. apply bind_raise. exact E4.
  - intros l Hl. rewrite Hlow4 by lia. by apply F1.
Qed.

End MissingQuestion.

(** ** The page *)

Lemma p_bind_done {A B} (m : P A) (f : A -> P B) s evs a s1 :
  m s = (evs, Done a, s1) -> p_bind m f s = prepend evs (f a s1).
Proof. intros H. unfold p_bind, prepend. by rewrite H. Qed.

Lemma p_bind_failed {A B} (m : P A) (f : A -> P B) s evs e s1 :
  m s = (evs, Failed e, s1) -> p_bind m f s = (evs, Failed e, s1).
Proof. intros H. unfold p_bind. by rewrite H. Qed.

Lemma p_bind_stopped {A B} (m : P A) (f : A -> P B) s evs s1 :
  m s = (evs, Stopped, s1) -> p_bind m f s = (evs, Stopped, s1).
Proof. intros H. unfold p_bind. by rewrite H. Qed.

Lemma p_bind_cases {A B} (m : P A) (f : A -> P B) s evs r s' :
  p_bind m f s = (evs, r, s') ->
  (exists e, m s = (evs, Failed e, s') /\ r = Failed e) \/
  (m s = (evs, Stopped, s') /\ r = Stopped) \/
  (exists evs1 a s1 evs2,
     m s = (evs1, Done a, s1) /\ f a s1 = (evs2, r, s') /\ evs = evs1 ++ evs2).
Proof.
  unfold p_bind. destruct (m s) as [[evs1 [a|e|]] s1].
  - destruct (f a s1) as [[evs2 r2] s2] eqn:E. intros [= <- <- <-].
    right. right. by exists evs1, a, s1, evs2.
  - intros [= <- <- <-]. left. by exists e.
  - intros [= <- <- <-]. right. by left.
Qed.

Lemma run_ok {A} (m : M A) s a s' : m s = (Ok a, s') -> run m s = ([], Done a, s').
Proof. intros H. unfold run. by rewrite H. Qed.

Lemma py_truth_lay h x v a b : lay h x v a b -> py_truth v h = Ok (json_truth x).
Proof.
  inversion 1 as [ | | | | |xs vs a' b' Hc Hl|kvs vs a' b' Hc Hnd Hl]; subst; simpl; try done.
  - rewrite Hc. by rewrite (lays_values_length _ _ _ _ _ Hl).
  - rewrite Hc. apply lays_values_length in Hl. rewrite length_fmap in Hl.
    rewrite length_zip, length_fmap, Hl, Nat.min_id. done.
Qed.

Lemma record_index_lay h a b rest kvs rk d dj :
  Forall2 (item_lay h a b rest) kvs rk ->
  (forall i, py_eq_int i d = json_eq_int i dj) ->
  forall i, py_eq_int i (default d (dict_lookup "correct_index" kvs))
            = json_eq_int i (default dj (dict_lookup "correct_index" rk)).
Proof.
  intros HF Hd i. destruct (dict_lookup "correct_index" rk) as [ci|] eqn:Hci.
  - destruct (item_lay_lookup _ _ _ _ _ _ _ _ HF Hci) as (civ & a3 & b3 & -> & _ & _ & Lc & _).
    simpl. by eapply py_eq_int_lay.
  - rewrite (item_lay_lookup_None _ _ _ _ _ _ _ HF Hci). simpl. apply Hd.
Qed.

Section PageProofs.
Context {lib : Library} {plat : Platform}.

Lemma show_answers_loop ci civ texts i s :
  (forall z, py_eq_int z civ = json_eq_int z ci) ->
  Z.of_nat (i + length texts) <= label_limit ->
  p_for_each (enumerate i (atom_val <$> texts))
    (fun '(idx, ans) =>
       act label <- py_chr (65 + Z.of_nat idx);
       emit (Shown (UiAnswer (py_eq_int (Z.of_nat idx) civ) label ans))) s
  = (Shown <$> imap (fun k => answer_line ci (i + k)) texts, Done tt, s).
Proof.
  intros Hci. revert i. induction texts as [|t texts IH]; intros i Hfit; [done|].
  unfold label_limit in Hfit. simpl in Hfit.
  rewrite fmap_cons. cbn [enumerate p_for_each].
  erewrite p_bind_done.
  2:{ erewrite p_bind_done.
      2:{ unfold py_chr.
          replace ((0 <=? 65 + Z.of_nat i) && (65 + Z.of_nat i <=? 1114111)) with true
            by (symmetry; apply andb_true_iff; split; apply Z.leb_le; lia).
          reflexivity. }
      reflexivity. }
  rewrite IH by (unfold label_limit; lia).
  rewrite imap_cons, fmap_cons. simpl. rewrite Hci, Nat.add_0_r.
  unfold answer_line at 1. do 3 f_equal. f_equal.
  apply imap_ext. intros k x _. unfold answer_line. simpl.
  by replace (i + S k)%nat with (S (i + k))%nat by lia.
Qed.

(** The preview of a record of the expected type. *)
Lemma show_record r qv a b s :
  lay (st_heap s) r qv a b -> record_ok r -> answers_fit r ->
  show_question qv s = (Shown <$> record_lines r, Done tt, s).
Proof.
  destruct s as [h u o]. cbn [st_heap].
  intros Hlay (rk & question & texts & -> & Hq & Hqa & Ha & Hta) Hfit.
  specialize (Hfit texts Ha).
  apply lay_obj_inv in Hlay as (-> & Hnd & Hab & vs & Hc & Hl & HF).
  destruct (item_lay_lookup _ _ _ _ _ _ _ _ HF Hq) as (qv & a1 & b1 & Hq' & _ & _ & Lq & _).
  destruct (item_lay_lookup _ _ _ _ _ _ _ _ HF Ha) as (av & a2 & b2 & Ha' & _ & Hb2 & La & _).
  apply lay_atomic in Lq; [|done]. subst qv.
  apply lay_arr_inv in La as (-> & Hab2 & tvs & Hct & Hlt).
  apply lays_atomic in Hlt; [|done]. subst tvs.
  pose proof (record_index_lay _ _ _ _ _ _ (VInt (-1)) (JInt (-1)) HF ltac:(done)) as Hci.
  unfold show_question.
  erewrite p_bind_done by (apply run_ok; eapply run_getitem_str; [exact Hc | exact Hq']).
  erewrite p_bind_done by reflexivity.
  erewrite p_bind_done by (apply run_ok; eapply run_dict_get; exact Hc).
  erewrite p_bind_done by (apply run_ok; eapply run_getitem_str; [exact Hc | exact Ha']).
  erewrite p_bind_done by (apply run_ok; eapply run_iter_list; exact Hct).
  erewrite p_bind_done
    by exact (show_answers_loop _ _ texts 0%nat _ Hci Hfit).
  rewrite Hci. unfold record_lines. rewrite Hq, Ha.
  destruct (json_eq_int (-1) (default (JInt (-1)) (dict_lookup "correct_index" rk)));
    simpl; by rewrite ?fmap_app, ?app_nil_r.
Qed.

(** What the adapter hands to the page for an object response: the
    [questions] field as [json.loads] built it, or a new empty list. *)
Lemma adapter_result_laid raw rkvs h u o :
  json_loads raw = Ok (JObj rkvs) ->
  exists v h' a b,
    clean_and_parse_questions (Ok raw) (State h u o) = (Ok v, State h' u o) /\
    lay h' (default (JArr []) (dict_lookup "questions" rkvs)) v a b /\
    (forall l, (l < length h)%nat -> h' !! l = h !! l).
Proof.
  intros Hdoc.
  pose proof (json_loads_wf _ _ Hdoc) as Hwf.
  destruct (alloc_json (JObj rkvs) h) as [data h1] eqn:Ealloc.
  destruct (alloc_json_spec _ Hwf _ _ _ Ealloc) as [Ldoc F1].
  destruct (lay_obj_inv _ _ _ _ _ Ldoc) as (-> & _ & Hb & dvs & Hcd & _ & HFd).
  set (h2 := h1 ++ [OList []]).
  assert (h2 !! length h = Some (ODict (zip (rkvs.*1) dvs))) as Hcd2.
  { unfold h2. rewrite lookup_app_l by lia. done. }
  assert (forall l, (l < length h)%nat -> h2 !! l = h !! l) as F2.
  { intros l Hl. unfold h2. rewrite lookup_app_l by lia. by apply F1. }
  assert (clean_and_parse_questions (Ok raw) (State h u o)
          = (Ok (default (VRef (length h1)) (dict_lookup "questions" (zip (rkvs.*1) dvs))),
             State h2 u o)) as E.
  { unfold clean_and_parse_questions.
    erewrite bind_ok by reflexivity.
    erewrite bind_ok by (rewrite Hdoc; apply run_load_json; exact Ealloc).
    erewrite bind_ok by apply run_alloc.
    fold h2. by apply run_dict_get. }
  destruct (dict_lookup "questions" rkvs) as [x|] eqn:Hq.
  - destruct (item_lay_lookup _ _ _ _ _ _ _ _ HFd Hq)
      as (v & a' & b' & Hv & _ & Hb' & Lx & _).
    rewrite Hv in E. exists v, h2, a', b'. split; [exact E|]. split; [|exact F2].
    simpl. eapply lay_agree; [exact Lx|].
    intros l Hl. unfold h2. apply lookup_app_l. lia.
  - rewrite (item_lay_lookup_None _ _ _ _ _ _ _ HFd Hq) in E.
    exists (VRef (length h1)), h2, (length h1), (S (length h1)).
    split; [exact E|]. split; [|exact F2]. simpl.
    apply lay_arr with (vs := []); [|constructor].
    unfold h2. by apply list_lookup_middle.
Qed.

(** X12.  When the response is an object whose [questions] is absent
    or empty ([[]], [null], [0], [false], an empty text or object), the
    page marks the status as failed, shows the error and stops: no
    token is drawn, the merge is not run and no download is offered. *)
Theorem empty_extraction_stops_before_merge fuel inp raw rkvs s :
  api_key inp <> "" ->
  str_strip (raw_questions_text inp) <> "" ->
  response inp = Ok raw ->
  json_loads raw = Ok (JObj rkvs) ->
  json_truth (default (JArr []) (dict_lookup "questions" rkvs)) = false ->
  exists h',
    convert_button fuel inp s
    = ([StStatus; StatusWrite Analysing; StatusUpdate false; StError AnalysisFailed],
       Stopped, State h' (st_uuid s) None).
Proof.
  intros Hkey Htext Hresp Hdoc Hfalsy. destruct s as [h u o].
  destruct (adapter_result_laid raw rkvs h u None Hdoc) as (v & h' & a & b & E & L & _).
  exists h'. unfold convert_button.
  apply String.eqb_neq in Hkey, Htext. rewrite Hkey, Htext.
  unfold try_except, with_tmpdir, conversion. cbn [st_heap st_uuid].
  erewrite p_bind_done by reflexivity.
  erewrite p_bind_done by reflexivity.
  rewrite Hresp.
  erewrite p_bind_done by (apply run_ok; exact E).
  erewrite p_bind_done.
  2:{ apply run_ok. unfold reading. cbn [st_heap].
      rewrite (py_truth_lay _ _ _ _ _ L), Hfalsy. reflexivity. }
  reflexivity.
Qed.

Lemma prepend_inv {A} evs (x : list page_event * outcome A * state) evs0 r s' :
  prepend evs x = (evs0, r, s') -> exists evs', x = (evs', r, s') /\ evs0 = evs ++ evs'.
Proof. destruct x as [[evs' r'] s'']. intros [= <- <- <-]. eauto. Qed.

Lemma run_template inp template s :
  chosen_template inp = Some template ->
  match uploaded_template inp with
  | Some data => p_ret data
  | None =>
      match default_template inp with
      | Some data => p_ret data
      | None => fail FileNotFoundError
      end
  end s = ([], Done template, s).
Proof.
  unfold chosen_template. destruct (uploaded_template inp); [by intros [= ->]|].
  by intros ->.
Qed.

Lemma preview_loop h u o recs rvs a b i :
  lays h recs rvs a b -> Forall record_ok recs -> Forall answers_fit recs ->
  p_for_each (enumerate i rvs)
    (fun '(i, q) => act _ <- emit (StExpander i); show_question q) (State h u o)
  = (concat (imap (fun k r => StExpander (i + k) :: (Shown <$> record_lines r)) recs),
     Done tt, State h u o).
Proof.
  intros Hl. revert i. induction Hl as [a|r recs qv rvs a m b Hr Hrs IH];
    intros i Hok Hfit; [done|].
  apply Forall_cons in Hok as [Hok1 Hok2]. apply Forall_cons in Hfit as [Hfit1 Hfit2].
  cbn [enumerate p_for_each].
  erewrite p_bind_done.
  2:{ erewrite p_bind_done by reflexivity.
      erewrite (show_record r qv a m) by done. reflexivity. }
  rewrite IH by done. rewrite imap_cons. simpl. rewrite Nat.add_0_r.
  do 4 f_equal. f_equal. apply imap_ext. intros k x _. simpl.
  by replace (i + S k)%nat with (S (i + k))%nat by lia.
Qed.

(** X13.  From the response to the download.  For a response that
    holds at least one record, all of the expected type, and a template
    of the expected shape, the page reports the number of records and
    runs the merge, the questions bearing the tokens drawn after the
    first.  When [str.encode] takes the serialisation of the merged
    document, the page names the output after the first token drawn,
    shows one expander per record with its lines, and offers for
    download the archive of the template with that content entry.  When
    it does not, a text holding a lone surrogate, the page reports the
    error in place of all that and offers no download. *)
Theorem page_offers_the_merged_archive
    fuel inp raw rkvs recs template zin rawc text dkvs base_q qrest h u o :
  api_key inp <> "" ->
  str_strip (raw_questions_text inp) <> "" ->
  response inp = Ok raw ->
  json_loads raw = Ok (JObj rkvs) ->
  dict_lookup "questions" rkvs = Some (JArr recs) ->
  recs <> [] ->
  Forall record_ok recs ->
  Forall answers_fit recs ->
  chosen_template inp = Some template ->
  zip_open template = Ok zin ->
  zip_read zin content_path = Ok rawc ->
  utf8_decode rawc = Ok text ->
  json_loads text = Ok (JObj dkvs) ->
  dict_lookup "questions" dkvs = Some (JArr (base_q :: qrest)) ->
  skeleton_ok base_q ->
  (depth (JObj dkvs) <= fuel)%nat ->
  readable zin ->
  exists h' gs,
    convert_button fuel inp (State h u o)
    = match utf8_encode (json_dumps (JObj (dict_set "questions" (JArr gs) dkvs))) with
      | Ok new_content_bytes =>
          ([StStatus; StatusWrite Analysing; StatusWrite (Received (length recs));
            StatusWrite Building; StatusWrite (Created (output_name_of (uuid4 u)));
            StatusUpdate true; StMarkdown]
           ++ concat (imap (fun k r => StExpander (S k) :: (Shown <$> record_lines r)) recs)
           ++ [StDownloadButton (output_entry zin new_content_bytes <$> zin)
                 (output_name_of (uuid4 u))],
           Done tt, State h' (S u + length recs) None)
      | Raise e =>
          ([StStatus; StatusWrite Analysing; StatusWrite (Received (length recs));
            StatusWrite Building; StError (SomethingWrong (Raised e))],
           Done tt, State h' (S u + length recs) None)
      end /\
    length gs = length recs /\
    forall k r, recs !! k = Some r ->
      exists g, gs !! k = Some g /\ project base_q r (S k) (uuid4 (S u + k)) = Some g.
Proof.
  intros Hkey Htext Hresp Hdoc Hqs Hne Hok Hfit Htpl Hzip Hrawc Hdec Hcont Hcq Hsk Hfuel Hread.
  destruct (adapter_result_laid raw rkvs h u None Hdoc) as (mcq & h2 & a & b & E & L & _).
  rewrite Hqs in L. simpl in L.
  destruct (lay_arr_inv _ _ _ _ _ L) as (-> & Hab & rvs & Hcr & Hlr).
  destruct (create_spec fuel zin rawc text (JObj dkvs) base_q recs (VRef a) a b h2 (S u) None)
    as (h3 & dkvs' & gs & [= <-] & Hgs & F3 & E3); try done.
  { by exists dkvs, qrest. }
  { destruct Hsk as (qk & pk & mk & ak & arest & -> & Hp & _). by exists qk, (JObj pk). }
  { by right. }
  assert (negb (length recs =? 0)%nat = true) as Htruth by (by destruct recs).
  exists h3, gs. split; [|split].
  - unfold convert_button.
    apply String.eqb_neq in Hkey, Htext. rewrite Hkey, Htext.
    unfold try_except, with_tmpdir, conversion. cbn [st_heap st_uuid].
    erewrite p_bind_done by reflexivity.
    erewrite p_bind_done by reflexivity.
    rewrite Hresp.
    erewrite p_bind_done by (apply run_ok; exact E).
    erewrite p_bind_done.
    2:{ apply run_ok. unfold reading. cbn [st_heap].
        rewrite (py_truth_lay _ _ _ _ _ L). simpl. rewrite Htruth. reflexivity. }
    erewrite p_bind_done by reflexivity.
    erewrite p_bind_done.
    2:{ apply run_ok. unfold reading, py_len. cbn [st_heap]. rewrite Hcr.
        rewrite (lays_values_length _ _ _ _ _ Hlr). reflexivity. }
    erewrite p_bind_done by reflexivity.
    erewrite p_bind_done by reflexivity.
    erewrite p_bind_done by (by apply run_template).
    erewrite p_bind_done by (apply run_ok; apply run_uuid4).
    erewrite p_bind_done by (apply run_ok; unfold lift; rewrite Hzip; reflexivity).
    destruct (utf8_encode (json_dumps (JObj (dict_set "questions" (JArr gs) dkvs))))
      as [nb|e].
    + erewrite p_bind_done by (apply run_ok; exact E3).
      erewrite p_bind_done by reflexivity.
      erewrite p_bind_done by reflexivity.
      erewrite p_bind_done by reflexivity.
      erewrite p_bind_done.
      2:{ apply run_ok. eapply run_iter_list. rewrite F3 by lia. exact Hcr. }
      erewrite p_bind_done.
      2:{ eapply (preview_loop _ _ _ recs rvs (S a) b 1); [|done..].
          eapply lays_agree; [exact Hlr|]. intros l Hl. apply F3. lia. }
      erewrite p_bind_done by reflexivity.
      unfold emit, prepend. cbn [st_heap st_uuid]. simpl.
      unfold output_name_of. reflexivity.
    + erewrite p_bind_failed by (unfold run; rewrite E3; reflexivity).
      reflexivity.
  - by eapply merged_questions_length.
  - intros k r Hr. by eapply merged_record.
Qed.

Lemma run_step {A B} (m : M A) (f : A -> P B) s evs r s' :
  p_bind (run m) f s = (evs, r, s') ->
  (exists e, m s = (Raise e, s') /\ r = Failed (Raised e) /\ evs = []) \/
  (exists a s1, m s = (Ok a, s1) /\ f a s1 = (evs, r, s')).
Proof.
  unfold p_bind, run. destruct (m s) as [[a|e] s1].
  - destruct (f a s1) as [[evs2 r2] s2] eqn:E. intros [= <- <- <-]. right. eauto.
  - intros [= <- <- <-]. left. eauto.
Qed.

Lemma emit_step {B} ev (f : unit -> P B) s evs r s' :
  p_bind (emit ev) f s = (evs, r, s') ->
  exists evs', f tt s = (evs', r, s') /\ evs = ev :: evs'.
Proof.
  unfold p_bind, emit. destruct (f tt s) as [[evs2 r2] s2]. intros [= <- <- <-]. eauto.
Qed.

Lemma only_shows_ret {A} Q (a : A) : only_shows Q (p_ret a).
Proof. intros s evs r s' [= <- <- <-]. done. Qed.

Lemma only_shows_emit Q ev : Q ev -> only_shows Q (emit ev).
Proof. intros HQ s evs r s' [= <- <- <-]. split; [done|]. by constructor. Qed.

Lemma only_shows_fail {A} Q e : only_shows Q (@fail A e).
Proof. intros s evs r s' [= <- <- <-]. done. Qed.

Lemma only_shows_reading {A} Q (f : heap -> result A) : only_shows Q (run (reading f)).
Proof.
  intros s evs r s'. unfold run, reading.
  destruct (f (st_heap s)); intros [= <- <- <-]; done.
Qed.

Lemma only_shows_bind {A B} Q (m : P A) (f : A -> P B) :
  only_shows Q m -> (forall a, only_shows Q (f a)) -> only_shows Q (p_bind m f).
Proof.
  intros Hm Hf s evs r s' H.
  apply p_bind_cases in H as [(e & H & _)|[(H & _)|(evs1 & a & s1 & evs2 & H1 & H2 & ->)]].
  - by apply Hm in H.
  - by apply Hm in H.
  - apply Hm in H1 as [-> HQ1]. apply Hf in H2 as [-> HQ2].
    split; [done|]. by apply Forall_app.
Qed.

Lemma only_shows_for_each {A} Q (xs : list A) (body : A -> P unit) :
  (forall x, only_shows Q (body x)) -> only_shows Q (p_for_each xs body).
Proof.
  intros Hb. induction xs as [|x xs IH]; [apply only_shows_ret|].
  cbn [p_for_each]. apply only_shows_bind; [apply Hb | done].
Qed.

Lemma only_shows_chr Q i : only_shows Q (py_chr i).
Proof.
  unfold py_chr. destruct ((0 <=? i) && (i <=? 1114111));
    [apply only_shows_ret | apply only_shows_fail].
Qed.

(** The preview writes texts and lines, and nothing else. *)
Lemma only_shows_show_question Q q :
  (forall e, Q (Shown e)) -> only_shows Q (show_question q).
Proof.
  intros HQ. unfold show_question.
  apply only_shows_bind; [apply only_shows_reading|]. intros question.
  apply only_shows_bind; [by apply only_shows_emit|]. intros _.
  apply only_shows_bind; [apply only_shows_reading|]. intros correct_index.
  apply only_shows_bind; [apply only_shows_reading|]. intros answers.
  apply only_shows_bind; [apply only_shows_reading|]. intros items.
  apply only_shows_bind.
  - apply only_shows_for_each. intros [idx ans].
    apply only_shows_bind; [apply only_shows_chr|]. intros label.
    by apply only_shows_emit.
  - intros _. destruct (py_eq_int (-1) correct_index);
      [by apply only_shows_emit | apply only_shows_ret].
Qed.

Lemma only_shows_preview records :
  only_shows quiet
    (p_for_each (enumerate 1 records)
       (fun '(i, q) => act _ <- emit (StExpander i); show_question q)).
Proof.
  apply only_shows_for_each. intros [i q].
  apply only_shows_bind; [by apply only_shows_emit|]. intros _.
  by apply only_shows_show_question.
Qed.

Lemma keeps_uuid_bind {A B} (m : M A) (f : A -> M B) :
  keeps_uuid m -> (forall a, keeps_uuid (f a)) -> keeps_uuid (bind m f).
Proof.
  intros Hm Hf s r s' H.
  apply bind_cases in H as [(e & H & _)|(a & s1 & H1 & H2)].
  - by apply Hm in H.
  - apply Hm in H1. apply Hf in H2. congruence.
Qed.

Lemma keeps_uuid_lift {A} (x : result A) : keeps_uuid (lift x).
Proof. by intros s r s' [= _ <-]. Qed.

Lemma keeps_uuid_raise {A} e : keeps_uuid (@raise A e).
Proof. by intros s r s' [= _ <-]. Qed.

Lemma keeps_uuid_reading {A} (f : heap -> result A) : keeps_uuid (reading f).
Proof. by intros s r s' [= _ <-]. Qed.

Lemma keeps_uuid_alloc ob : keeps_uuid (alloc ob).
Proof. by intros s r s' [= _ <-]. Qed.

Lemma keeps_uuid_load_json j : keeps_uuid (load_json j).
Proof.
  intros s r s'. unfold load_json. destruct (alloc_json j (st_heap s)). by intros [= _ <-].
Qed.

Lemma keeps_out_raise {A} e : keeps_out (@raise A e).
Proof. by intros s r s' [= _ <-]. Qed.

(** The adapter draws no token and writes no file. *)
Lemma adapter_keeps response s r s' :
  clean_and_parse_questions response s = (r, s') ->
  st_uuid s' = st_uuid s /\ st_out s' = st_out s.
Proof.
  intros H. split.
  - revert s r s' H. unfold clean_and_parse_questions.
    apply keeps_uuid_bind; [apply keeps_uuid_lift|]. intros raw.
    apply keeps_uuid_bind.
    { destruct (json_loads raw) as [j|[]];
        auto using keeps_uuid_load_json, keeps_uuid_raise. }
    intros data. apply keeps_uuid_bind; [apply keeps_uuid_alloc|]. intros d.
    apply keeps_uuid_reading.
  - revert s r s' H. unfold clean_and_parse_questions.
    apply keeps_out_bind; [apply keeps_out_lift|]. intros raw.
    apply keeps_out_bind.
    { destruct (json_loads raw) as [j|[]];
        auto using keeps_out_load_json, keeps_out_raise. }
    intros data. apply keeps_out_bind; [apply keeps_out_alloc|]. intros d.
    apply keeps_out_reading.
Qed.

Lemma run_template_none inp s :
  chosen_template inp = None ->
  match uploaded_template inp with
  | Some data => p_ret data
  | None =>
      match default_template inp with
      | Some data => p_ret data
      | None => fail FileNotFoundError
      end
  end s = ([], @Failed bytes FileNotFoundError, s).
Proof.
  unfold chosen_template. destruct (uploaded_template inp); [done|]. by intros ->.
Qed.

Lemma quiet_undecided evs : Forall quiet evs -> Forall undecided evs.
Proof. intros H. eapply Forall_impl; [exact H|]. by intros []. Qed.

Ltac raised := left; eexists; split; [reflexivity | repeat constructor].

(** The conversion, whatever its outcome: it raises, having shown
    neither an error nor a download; or it stops; or it ends with the
    download button, offered for the archive the merge has
    completed. *)
Lemma conversion_outcome fuel inp s evs r s' :
  conversion fuel inp s = (evs, r, s') ->
  (exists e, r = Failed e /\ Forall quiet evs) \/
  (r = Stopped /\ Forall undecided evs) \/
  (r = Done tt /\
   exists pre template zin out_doc new_content_bytes entries,
     evs = pre ++ [StDownloadButton entries (output_name_of (uuid4 (st_uuid s)))] /\
     Forall quiet pre /\
     chosen_template inp = Some template /\
     zip_open template = Ok zin /\
     utf8_encode (json_dumps out_doc) = Ok new_content_bytes /\
     entries.*1 = zm_filename <$> zin /\
     Forall2 (fun m e =>
                if String.eqb (zm_filename m) content_path
                then e.2 = new_content_bytes
                else zip_read zin (zm_filename m) = Ok (e.2)) zin entries).
Proof.
  intros H. unfold conversion in H.
  apply emit_step in H as (evs1 & H & ->).
  apply emit_step in H as (evs2 & H & ->).
  apply run_step in H as [(e & H & -> & ->)|(mcq & s1 & Had & H)]; [raised|].
  apply adapter_keeps in Had as [Hu1 _].
  apply run_step in H as [(e & H & -> & ->)|(truthy & s2 & Htr & H)]; [raised|].
  unfold reading in Htr. injection Htr as Htr <-.
  destruct truthy.
  2:{ erewrite p_bind_stopped in H by reflexivity. injection H as <- <- <-.
      right. left. split; [done | repeat constructor]. }
  erewrite p_bind_done in H by reflexivity. apply prepend_inv in H as (evs3 & H & ->).
  apply run_step in H as [(e & H & -> & ->)|(n & s3 & Hlen & H)]; [raised|].
  unfold reading in Hlen. injection Hlen as Hlen <-.
  apply emit_step in H as (evs4 & H & ->).
  apply emit_step in H as (evs5 & H & ->).
  destruct (chosen_template inp) as [template|] eqn:Hch.
  2:{ erewrite p_bind_failed in H by (by apply run_template_none).
      injection H as <- <- <-. raised. }
  erewrite p_bind_done in H by (by apply run_template).
  apply prepend_inv in H as (evs6 & H & ->).
  apply run_step in H as [(e & H & _)|(token & s4 & Htok & H)]; [done|].
  unfold draw_uuid4 in Htok. injection Htok as <- <-.
  apply run_step in H as [(e & H & -> & ->)|(zin & s5 & Hzip & H)]; [raised|].
  unfold lift in Hzip. injection Hzip as Hzip <-.
  apply run_step in H as [(e & H & -> & ->)|([] & s6 & Hcreate & H)]; [raised|].
  apply create_success_entries in Hcreate
    as (out_doc & nb & entries & Henc & Hso & Hnames & Hall).
  apply emit_step in H as (evs7 & H & ->).
  apply emit_step in H as (evs8 & H & ->).
  apply emit_step in H as (evs9 & H & ->).
  apply run_step in H as [(e & H & -> & ->)|(records & s7 & Hit & H)]; [raised|].
  unfold reading in Hit. injection Hit as Hit <-.
  apply p_bind_cases in H as [(e & H & ->)|[(H & ->)|(evsP & [] & s8 & evs10 & HP & H & ->)]].
  { apply only_shows_preview in H as [_ HQ].
    left. exists e. split; [done|]. by repeat constructor. }
  { apply only_shows_preview in H as [_ HQ]. apply quiet_undecided in HQ.
    right. left. split; [done|]. by repeat constructor. }
  apply only_shows_preview in HP as [-> HQ].
  erewrite p_bind_done in H by (unfold read_output; rewrite Hso; reflexivity).
  apply prepend_inv in H as (evs11 & H & ->).
  injection H as <- <- <-.
  right. right. split; [done|].
  eexists (_ :: _ :: _ :: _ :: _ :: _ :: _ :: evsP), template, zin, out_doc, nb, entries.
  split.
  { simpl. rewrite Hu1. unfold output_name_of. reflexivity. }
  split; [by repeat constructor|]. done.
Qed.

(** X14.  Whatever the input, when the page shows a download button it
    is the last thing it shows, after neither an error nor another
    button, and it offers the archive the merge has completed: the
    names of the template in order, the content entry replaced, every
    other entry as [zin.read] gives it.  No file is left at the output
    path. *)
Theorem download_offers_complete_archive fuel inp s evs r s' data name :
  convert_button fuel inp s = (evs, r, s') ->
  StDownloadButton data name ∈ evs ->
  r = Done tt /\ st_out s' = None /\
  exists pre template zin out_doc new_content_bytes,
    evs = pre ++ [StDownloadButton data name] /\
    Forall quiet pre /\
    chosen_template inp = Some template /\
    zip_open template = Ok zin /\
    name = output_name_of (uuid4 (st_uuid s)) /\
    utf8_encode (json_dumps out_doc) = Ok new_content_bytes /\
    data.*1 = zm_filename <$> zin /\
    Forall2 (fun m e =>
               if String.eqb (zm_filename m) content_path
               then e.2 = new_content_bytes
               else zip_read zin (zm_filename m) = Ok (e.2)) zin data.
Proof.
  unfold convert_button. intros H Hin.
  destruct (String.eqb (api_key inp) "").
  { injection H as <- <- <-. apply list_elem_of_singleton in Hin. done. }
  destruct (String.eqb (str_strip (raw_questions_text inp)) "").
  { injection H as <- <- <-. apply list_elem_of_singleton in Hin. done. }
  unfold try_except, with_tmpdir in H.
  destruct (conversion fuel inp (State (st_heap s) (st_uuid s) None))
    as [[evs0 r0] s0] eqn:Hc.
  apply conversion_outcome in Hc
    as [(e & -> & HQ)|[(-> & HQ)|(-> & pre & template & zin & out_doc & nb & entries & ->
                                   & HQ & Hch & Hzip & Henc & Hn & Hall)]].
  - exfalso. rewrite Forall_forall in HQ.
    injection H as <- <- <-. apply elem_of_app in Hin as [Hin|Hin].
    + by apply HQ in Hin.
    + apply list_elem_of_singleton in Hin. done.
  - exfalso. rewrite Forall_forall in HQ.
    injection H as <- <- <-. by apply HQ in Hin.
  - injection H as <- <- <-. split; [done|]. split; [done|].
    apply elem_of_app in Hin as [Hin|Hin].
    { rewrite Forall_forall in HQ. by apply HQ in Hin. }
    apply list_elem_of_singleton in Hin. injection Hin as -> ->.
    exists pre, template, zin, out_doc, nb. done.
Qed.

(** X15.  Whatever the input, when the page reports that something
    went wrong, the report is the last thing it shows and the only
    error, no download is offered, and no file is left at the output
    path: an archive the merge left half written is never handed
    out. *)
Theorem reported_failure_ends_the_run fuel inp s evs r s' e :
  convert_button fuel inp s = (evs, r, s') ->
  StError (SomethingWrong e) ∈ evs ->
  r = Done tt /\ st_out s' = None /\
  exists pre,
    evs = pre ++ [StError (SomethingWrong e)] /\
    Forall quiet pre /\
    with_tmpdir (conversion fuel inp) s = (pre, Failed e, s').
Proof.
  unfold convert_button. intros H Hin.
  destruct (String.eqb (api_key inp) "").
  { injection H as <- <- <-. apply list_elem_of_singleton in Hin. done. }
  destruct (String.eqb (str_strip (raw_questions_text inp)) "").
  { injection H as <- <- <-. apply list_elem_of_singleton in Hin. done. }
  unfold try_except in H. unfold with_tmpdir in *.
  destruct (conversion fuel inp (State (st_heap s) (st_uuid s) None))
    as [[evs0 r0] s0] eqn:Hc.
  apply conversion_outcome in Hc
    as [(e0 & -> & HQ)|[(-> & HQ)|(-> & pre & template & zin & out_doc & nb & entries & ->
                                    & HQ & _)]].
  - injection H as <- <- <-. split; [done|]. split; [done|].
    apply elem_of_app in Hin as [Hin|Hin].
    { rewrite Forall_forall in HQ. by apply HQ in Hin. }
    apply list_elem_of_singleton in Hin. injection Hin as ->.
    exists evs0. done.
  - exfalso. rewrite Forall_forall in HQ.
    injection H as <- <- <-. by apply HQ in Hin.
  - exfalso. injection H as <- <- <-. apply elem_of_app in Hin as [Hin|Hin].
    + rewrite Forall_forall in HQ. by apply HQ in Hin.
    + apply list_elem_of_singleton in Hin. done.
Qed.

End PageProofs.

(** ** The record without [correct_index], in the merge and on the page *)

Lemma project_default_index base_q rk i token :
  dict_lookup "correct_index" rk = None ->
  project base_q (JObj (dict_set "correct_index" (JInt 0) rk)) i token
  = project base_q (JObj rk) i token.
Proof.
  intros Hci. unfold project. destruct base_q as [ | | | | | |qk]; try done.
  rewrite (dict_lookup_set_ne "correct_index" "question") by done.
  rewrite (dict_lookup_set_ne "correct_index" "answers") by done.
  by rewrite dict_lookup_set_eq, Hci.
Qed.

Lemma answer_lines_no_warning ci texts : UiWarning ∉ imap (answer_line ci) texts.
Proof.
  intros Hin. apply list_elem_of_lookup in Hin as [i Hi].
  rewrite list_lookup_imap in Hi. by destruct (texts !! i).
Qed.

(** The preview holds the warning exactly for a record whose
    [correct_index] is absent or equal to -1. *)
Lemma warning_in_record_lines r :
  record_ok r ->
  UiWarning ∈ record_lines r <->
  (field "correct_index" r = None \/
   exists ci, field "correct_index" r = Some ci /\ json_eq_int (-1) ci = true).
Proof.
  intros (rk & question & texts & -> & Hq & _ & Ha & _).
  unfold record_lines. rewrite Hq, Ha. cbn [field].
  destruct (dict_lookup "correct_index" rk) as [ci|].
  - change (default (JInt (-1)) (Some ci)) with ci.
    destruct (json_eq_int (-1) ci) eqn:E.
    + split; [intros _; right; by exists ci|].
      intros _. apply elem_of_app. right. apply elem_of_app. right. by left.
    + rewrite app_nil_r. split.
      * intros Hin. apply elem_of_cons in Hin as [?|Hin]; [done|].
        by apply answer_lines_no_warning in Hin.
      * intros [?|(ci' & [= <-] & ?)]; congruence.
  - split; [by left|]. intros _.
    apply elem_of_app. right. apply elem_of_app. right. by left.
Qed.

Section MissingIndex.
Context {lib : Library}.

Variables (fuel : nat) (h0 : heap) (doc base_q : json) (template_content : val)
  (ta tb : nat) (recs : list json) (mc_questions : val) (ra rb : nat)
  (u : nat) (o : option (list (string * bytes))).
Hypothesis template_laid : lay h0 doc template_content ta tb.
Hypothesis template_first : template_ok doc base_q.
Hypothesis skeleton : skeleton_ok base_q.
Hypothesis fuel_enough : (depth doc <= fuel)%nat.
Hypothesis records_laid : lay h0 (JArr recs) mc_questions ra rb.
Hypothesis records_typed : Forall record_ok recs.

(** C7, as amended.  For every record without [correct_index] the merge
    does not raise and builds the very question it builds for that
    record with [correct_index = 0]: the first answer is marked correct
    and no other.  It returns the list of questions and nothing that
    tells the two apart.  The page reads the record again, taking -1
    for a missing index: [show_question], the body of its loop
    [for i, q in enumerate(mc_questions)], ticks no answer of that
    record and ends with the warning that the right answer is not
    given; and for any record it shows the warning exactly when
    [correct_index] is absent or equal to -1. *)
Theorem missing_index_marks_first :
  exists h' roots gs items,
    build_questions_from_mc fuel mc_questions template_content (State h0 u o)
    = (Ok (VRef (length h0)), State h' (u + length recs) o) /\
    h' !! length h0 = Some (OList roots) /\
    Forall2 (reads h') roots gs /\
    py_iter mc_questions h' = Ok items /\
    (forall k rk texts a0,
       recs !! k = Some (JObj rk) ->
       dict_lookup "answers" rk = Some (JArr texts) ->
       dict_lookup "correct_index" rk = None ->
       Z.of_nat (length texts) <= label_limit ->
       first_answer base_q = Some (JObj a0) ->
       (exists g, gs !! k = Some g /\
          answers_of g
          = Some (JArr (imap (fun idx text =>
                                JObj (dict_set "correct" (JBool (Z.of_nat idx =? 0))
                                        (dict_set "text" text a0))) texts)) /\
          project base_q (JObj (dict_set "correct_index" (JInt 0) rk)) (S k) (uuid4 (u + k))
          = Some g) /\
       (exists q shown,
          items !! k = Some q /\
          show_question q (State h' (u + length recs) o)
          = (shown ++ [Shown UiWarning], Done tt, State h' (u + length recs) o) /\
          forall marked label ans,
            Shown (UiAnswer marked label ans) ∈ shown -> marked = false)) /\
    (forall k r q,
       recs !! k = Some r -> answers_fit r -> items !! k = Some q ->
       exists evs,
         show_question q (State h' (u + length recs) o)
         = (evs, Done tt, State h' (u + length recs) o) /\
         (Shown UiWarning ∈ evs <->
          field "correct_index" r = None \/
          exists ci, field "correct_index" r = Some ci /\ json_eq_int (-1) ci = true)).
Proof.
  destruct (merge_result fuel h0 doc base_q template_content ta tb recs mc_questions ra rb u o)
    as (h' & roots & gs & E & F & Hnq & Hch & Hgs); try done.
  destruct (lay_arr_inv _ _ _ _ _ records_laid) as (-> & Hrab & rvs & Hcr & Hlr).
  assert (forall k r, recs !! k = Some r ->
            record_ok r /\
            exists q a' b', rvs !! k = Some q /\ lay h' r q a' b') as Hrec.
  { intros k r Hr. split.
    { eapply Forall_forall in records_typed; [exact records_typed|].
      apply list_elem_of_lookup. eauto. }
    destruct (lays_lookup _ _ _ _ _ _ _ Hlr Hr) as (q & a' & b' & Hq & Lq & Ha' & Hb').
    exists q, a', b'. split; [done|].
    eapply lay_agree; [exact Lq|]. intros l Hl. apply F. lia. }
  exists h', roots, gs, rvs. split; [done|]. split; [done|].
  split; [by eapply chain_reads|].
  split.
  { unfold py_iter. rewrite F by lia. by rewrite Hcr. }
  split.
  - intros k rk texts a0 Hr Ht Hc Hfit Ha0. split.
    + destruct (merged_answers base_q u recs gs k rk texts a0 Hgs Hr Ht Ha0) as (g & Hg & Ha).
      exists g. split; [done|]. split; [by rewrite Ha, Hc|].
      destruct (merged_record base_q u recs gs k _ Hgs Hr) as (g' & Hg' & Hp).
      rewrite Hg in Hg'. injection Hg' as <-.
      by rewrite project_default_index.
    + destruct (Hrec k _ Hr) as [Hrok (q & a' & b' & Hq & Lq)].
      assert (answers_fit (JObj rk)) as Hafit.
      { intros texts' Ht'. simpl in Ht'. congruence. }
      pose proof (show_record (JObj rk) q a' b' (State h' (u + length recs) o)
                    Lq Hrok Hafit) as Hshow.
      destruct Hrok as (rk' & question & texts' & [= <-] & Hqu & _ & Ht' & _).
      rewrite Ht in Ht'. injection Ht' as <-.
      unfold record_lines in Hshow. rewrite Hqu, Ht, Hc in Hshow.
      cbn [default json_eq_int] in Hshow.
      replace (-1 =? -1) with true in Hshow by done.
      rewrite app_assoc, fmap_app in Hshow.
      exists q, (Shown <$> ([UiWrite (atom_val question)]
                            ++ imap (answer_line (JInt (-1))) texts)).
      split; [done|]. split; [exact Hshow|].
      intros marked label ans Hin.
      apply list_elem_of_fmap in Hin as (e & [= <-] & Hin).
      apply elem_of_cons in Hin as [?|Hin]; [done|].
      apply list_elem_of_lookup in Hin as [i Hi]. rewrite list_lookup_imap in Hi.
      destruct (texts !! i) as [t|]; [|done]. simpl in Hi. injection Hi as <- _ _.
      apply Z.eqb_neq. lia.
  - intros k r q Hr Hafit Hq.
    destruct (Hrec k _ Hr) as [Hrok (q' & a' & b' & Hq' & Lq)].
    rewrite Hq in Hq'. injection Hq' as <-.
    exists (Shown <$> record_lines r). split; [by eapply show_record|].
    rewrite <- (warning_in_record_lines r Hrok). split.
    + intros Hin. by apply list_elem_of_fmap in Hin as (e & [= <-] & Hin).
    + intros Hin. apply list_elem_of_fmap. by exists UiWarning.
Qed.

End MissingIndex.

(** C7 fails as stated: for the record without [correct_index] the
    merge returns what it returns for the same record with
    [correct_index = 0], and writes the same archive; nothing the
    caller gets from it flags the missing index. *)
Lemma missing_index_is_not_flagged :
  field "correct_index" Ex.rec_three = None /\
  field "correct_index" ExMore.rec_three_zero = Some (JInt 0) /\
  (create_h5p_from_template (lib := Ex.library) 10 Ex.archive
     (Ex.records_value [Ex.rec_three]) (Ex.records_state [Ex.rec_three])).1 = Ok tt /\
  (create_h5p_from_template (lib := Ex.library) 10 Ex.archive
     (Ex.records_value [ExMore.rec_three_zero])
     (Ex.records_state [ExMore.rec_three_zero])).1 = Ok tt /\
  st_out (create_h5p_from_template (lib := Ex.library) 10 Ex.archive
            (Ex.records_value [Ex.rec_three]) (Ex.records_state [Ex.rec_three])).2
  = st_out (create_h5p_from_template (lib := Ex.library) 10 Ex.archive
              (Ex.records_value [ExMore.rec_three_zero])
              (Ex.records_state [ExMore.rec_three_zero])).2 /\
  ExMerge.built [Ex.rec_three] = ExMerge.built [ExMore.rec_three_zero].
Proof. repeat split; vm_compute; reflexivity. Qed.

Lemma missing_index_marks_first_witness :
  exists h' roots gs items g q shown,
    build_questions_from_mc (lib := Ex.library) 10
      (Ex.records_value [Ex.rec_three]) (ExMerge.template_value [Ex.rec_three])
      (ExMerge.start [Ex.rec_three])
    = (Ok (VRef (length (ExMerge.store [Ex.rec_three]))), State h' 1 None) /\
    h' !! length (ExMerge.store [Ex.rec_three]) = Some (OList roots) /\
    Forall2 (reads h') roots gs /\
    py_iter (Ex.records_value [Ex.rec_three]) h' = Ok items /\
    gs !! 0%nat = Some g /\
    answers_of g
    = Some (JArr [JObj [("text", JStr "yes"); ("correct", JBool true);
                        ("tipsAndFeedback", JObj [("tip", JStr ""); ("chosenFeedback", JStr "")])];
                  JObj [("text", JStr "no"); ("correct", JBool false);
                        ("tipsAndFeedback", JObj [("tip", JStr ""); ("chosenFeedback", JStr "")])];
                  JObj [("text", JStr "maybe"); ("correct", JBool false);
                        ("tipsAndFeedback", JObj [("tip", JStr ""); ("chosenFeedback", JStr "")])]]) /\
    project Ex.question0 ExMore.rec_three_zero 1 (Ex.token 0) = Some g /\
    items !! 0%nat = Some q /\
    show_question q (State h' 1 None) = (shown ++ [Shown UiWarning], Done tt, State h' 1 None) /\
    (forall marked label ans, Shown (UiAnswer marked label ans) ∈ shown -> marked = false).
Proof.
  destruct (example_laid [Ex.rec_three]) as [Ht Hr]; [solve_wf|].
  destruct (missing_index_marks_first (lib := Ex.library) 10 (ExMerge.store [Ex.rec_three])
              Ex.template_doc Ex.question0 (ExMerge.template_value [Ex.rec_three]) _ _
              [Ex.rec_three] (Ex.records_value [Ex.rec_three]) _ _ 0%nat None
              Ht template_doc_first question0_ok depth_template_doc Hr
              ltac:(repeat constructor; exact rec_three_ok))
    as (h' & roots & gs & items & E & Hnq & HF & Hit & Hall & _).
  destruct (Hall 0%nat _ _ _ eq_refl eq_refl eq_refl ltac:(vm_compute; discriminate) eq_refl)
    as [(g & Hg & Ha & Hp) (q & shown & Hq & Hs & Hm)].
  exists h', roots, gs, items, g, q, shown. split; [exact E|]. split; [exact Hnq|].
  split; [exact HF|]. split; [exact Hit|]. split; [exact Hg|]. split; [exact Ha|].
  split; [exact Hp|]. split; [exact Hq|]. split; [exact Hs | exact Hm].
Defined.

(** ** Records the preview does not flag *)

Lemma unmarkable_never_equal ci n idx :
  unmarkable ci n -> (idx < n)%nat -> json_eq_int (Z.of_nat idx) ci = false.
Proof.
  destruct ci as [ |b|c|f|t| | ]; cbn [unmarkable json_eq_int]; try done.
  intros Hc Hidx. apply Z.eqb_neq. lia.
Qed.

Lemma unmarkable_not_minus_one ci n : unmarkable ci n -> json_eq_int (-1) ci = false.
Proof.
  destruct ci as [ |b|c|f|t| | ]; cbn [unmarkable json_eq_int]; try done.
  intros Hc. apply Z.eqb_neq. lia.
Qed.

Section Unmarked.
Context {lib : Library} {plat : Platform}.

Variables (fuel : nat) (h0 : heap) (doc base_q : json) (template_content : val)
  (ta tb : nat) (recs : list json) (mc_questions : val) (ra rb : nat)
  (u : nat) (o : option (list (string * bytes))).
Hypothesis template_laid : lay h0 doc template_content ta tb.
Hypothesis template_first : template_ok doc base_q.
Hypothesis skeleton : skeleton_ok base_q.
Hypothesis fuel_enough : (depth doc <= fuel)%nat.
Hypothesis records_laid : lay h0 (JArr recs) mc_questions ra rb.
Hypothesis records_typed : Forall record_ok recs.

(** X11.  A record whose [correct_index] is an integer out of range
    other than -1, a text or [null] gives a question with no answer
    marked, and its preview ticks no answer and shows no warning. *)
Theorem unmarked_question_is_not_flagged :
  exists h' roots gs items,
    build_questions_from_mc fuel mc_questions template_content (State h0 u o)
    = (Ok (VRef (length h0)), State h' (u + length recs) o) /\
    h' !! length h0 = Some (OList roots) /\
    Forall2 (reads h') roots gs /\
    py_iter mc_questions h' = Ok items /\
    forall k rk texts ci a0,
      recs !! k = Some (JObj rk) ->
      dict_lookup "answers" rk = Some (JArr texts) ->
      dict_lookup "correct_index" rk = Some ci ->
      unmarkable ci (length texts) ->
      Z.of_nat (length texts) <= label_limit ->
      first_answer base_q = Some (JObj a0) ->
      (exists g, gs !! k = Some g /\
         answers_of g
         = Some (JArr ((fun text => JObj (dict_set "correct" (JBool false)
                                            (dict_set "text" text a0))) <$> texts))) /\
      (exists q evs,
         items !! k = Some q /\
         show_question q (State h' (u + length recs) o)
         = (evs, Done tt, State h' (u + length recs) o) /\
         (Shown UiWarning ∉ evs) /\
         forall marked label ans, Shown (UiAnswer marked label ans) ∈ evs -> marked = false).
Proof.
  destruct (merge_result fuel h0 doc base_q template_content ta tb recs mc_questions ra rb u o)
    as (h' & roots & gs & E & F & Hnq & Hch & Hgs); try done.
  destruct (lay_arr_inv _ _ _ _ _ records_laid) as (-> & Hrab & rvs & Hcr & Hlr).
  exists h', roots, gs, rvs. split; [done|]. split; [done|].
  split; [by eapply chain_reads|].
  split.
  { unfold py_iter. rewrite F by lia. by rewrite Hcr. }
  intros k rk texts ci a0 Hr Ht Hc Hun Hfit Ha0. split.
  - destruct (merged_answers base_q u recs gs k rk texts a0 Hgs Hr Ht Ha0) as (g & Hg & Ha).
    exists g. split; [done|]. rewrite Ha, Hc. do 2 f_equal.
    apply list_eq. intros i. rewrite list_lookup_imap, list_lookup_fmap.
    destruct (texts !! i) as [t|] eqn:Hi; [|done]. simpl.
    apply lookup_lt_Some in Hi. unfold answer_entry.
    by rewrite (unmarkable_never_equal _ _ _ Hun Hi).
  - destruct (lays_lookup _ _ _ _ _ _ _ Hlr Hr) as (q & a' & b' & Hq & Lq & Ha' & Hb').
    assert (lay h' (JObj rk) q a' b') as Lq'.
    { eapply lay_agree; [exact Lq|]. intros l Hl. apply F. lia. }
    assert (record_ok (JObj rk)) as Hrok.
    { eapply Forall_forall in records_typed; [exact records_typed|].
      apply list_elem_of_lookup. eauto. }
    assert (answers_fit (JObj rk)) as Hafit.
    { intros texts' Ht'. simpl in Ht'. congruence. }
    exists q, (Shown <$> record_lines (JObj rk)). split; [done|].
    split; [by eapply show_record|].
    destruct Hrok as (rk' & question & texts' & [= <-] & Hqu & _ & Ht' & _).
    rewrite Ht in Ht'. injection Ht' as <-.
    unfold record_lines. rewrite Hqu, Ht, Hc. simpl.
    rewrite (unmarkable_not_minus_one _ _ Hun), app_nil_r. split.
    + intros Hin. apply elem_of_cons in Hin as [?|Hin]; [done|].
      apply list_elem_of_fmap in Hin as (e & [= <-] & Hin).
      apply list_elem_of_lookup in Hin as [i Hi]. rewrite list_lookup_imap in Hi.
      destruct (texts !! i); done.
    + intros marked label ans Hin. apply elem_of_cons in Hin as [?|Hin]; [done|].
      apply list_elem_of_fmap in Hin as (e & [= <-] & Hin).
      apply list_elem_of_lookup in Hin as [i Hi]. rewrite list_lookup_imap in Hi.
      destruct (texts !! i) as [t|] eqn:Hti; [|done]. simpl in Hi.
      injection Hi as <- _ _. apply lookup_lt_Some in Hti.
      by apply unmarkable_never_equal with (n := length texts).
Qed.

End Unmarked.

(** ** The further properties on examples *)

Lemma question_text_follows_record_witness :
  exists h' roots gs g,
    build_questions_from_mc (lib := Ex.library) 10
      (Ex.records_value [Ex.rec_abcd]) (ExMerge.template_value [Ex.rec_abcd])
      (ExMerge.start [Ex.rec_abcd])
    = (Ok (VRef (length (ExMerge.store [Ex.rec_abcd]))), State h' 1 None) /\
    h' !! length (ExMerge.store [Ex.rec_abcd]) = Some (OList roots) /\
    Forall2 (reads h') roots gs /\
    gs !! 0%nat = Some g /\
    params_of "question" g = Some (JStr "Which letter?").
Proof.
  destruct (example_laid [Ex.rec_abcd]) as [Ht Hr]; [solve_wf|].
  destruct (question_text_follows_record (lib := Ex.library) 10 (ExMerge.store [Ex.rec_abcd])
              Ex.template_doc Ex.question0 (ExMerge.template_value [Ex.rec_abcd]) _ _
              [Ex.rec_abcd] (Ex.records_value [Ex.rec_abcd]) _ _ 0%nat None
              Ht template_doc_first question0_ok depth_template_doc Hr
              ltac:(repeat constructor; exact rec_abcd_ok))
    as (h' & roots & gs & E & Hnq & HF & Hall).
  destruct (Hall 0%nat _ _ eq_refl eq_refl) as (g & Hg & Hq).
  exists h', roots, gs, g. split; [exact E|]. split; [exact Hnq|].
  split; [exact HF|]. split; [exact Hg | exact Hq].
Defined.

Lemma skeleton_settings_are_kept_witness :
  exists h' roots gs,
    build_questions_from_mc (lib := Ex.library) 10
      (Ex.records_value [Ex.rec_abcd; Ex.rec_three])
      (ExMerge.template_value [Ex.rec_abcd; Ex.rec_three])
      (ExMerge.start [Ex.rec_abcd; Ex.rec_three])
    = (Ok (VRef (length (ExMerge.store [Ex.rec_abcd; Ex.rec_three]))), State h' 2 None) /\
    h' !! length (ExMerge.store [Ex.rec_abcd; Ex.rec_three]) = Some (OList roots) /\
    Forall2 (reads h') roots gs /\
    length gs = 2%nat /\
    forall k g, gs !! k = Some g ->
      (forall f, f <> "params" -> f <> "metadata" -> f <> "subContentId" ->
                 field f g = field f Ex.question0) /\
      (forall f, f <> "question" -> f <> "answers" ->
                 params_of f g = params_of f Ex.question0) /\
      (forall f, f <> "title" -> f <> "extraTitle" ->
                 metadata_of f g = metadata_of f Ex.question0).
Proof.
  destruct (example_laid [Ex.rec_abcd; Ex.rec_three]) as [Ht Hr]; [solve_wf|].
  exact (skeleton_settings_are_kept (lib := Ex.library) 10
           (ExMerge.store [Ex.rec_abcd; Ex.rec_three])
           Ex.template_doc Ex.question0
           (ExMerge.template_value [Ex.rec_abcd; Ex.rec_three]) _ _
           [Ex.rec_abcd; Ex.rec_three] (Ex.records_value [Ex.rec_abcd; Ex.rec_three]) _ _
           0%nat None
           Ht template_doc_first question0_ok depth_template_doc Hr
           ltac:(repeat constructor; [exact rec_abcd_ok | exact rec_three_ok])).
Defined.

Lemma at_most_one_answer_marked_witness :
  exists h' roots gs,
    build_questions_from_mc (lib := Ex.library) 10
      (Ex.records_value [Ex.rec_abcd; Ex.rec_five])
      (ExMerge.template_value [Ex.rec_abcd; Ex.rec_five])
      (ExMerge.start [Ex.rec_abcd; Ex.rec_five])
    = (Ok (VRef (length (ExMerge.store [Ex.rec_abcd; Ex.rec_five]))), State h' 2 None) /\
    h' !! length (ExMerge.store [Ex.rec_abcd; Ex.rec_five]) = Some (OList roots) /\
    Forall2 (reads h') roots gs /\
    length gs = 2%nat /\
    forall k g, gs !! k = Some g ->
      exists entries,
        answers_of g = Some (JArr entries) /\
        (forall i a, entries !! i = Some a -> exists b, correct_of a = Some (JBool b)) /\
        forall i j ai aj,
          entries !! i = Some ai -> entries !! j = Some aj ->
          correct_of ai = Some (JBool true) -> correct_of aj = Some (JBool true) ->
          i = j.
Proof.
  destruct (example_laid [Ex.rec_abcd; Ex.rec_five]) as [Ht Hr]; [solve_wf|].
  exact (at_most_one_answer_marked (lib := Ex.library) 10
           (ExMerge.store [Ex.rec_abcd; Ex.rec_five])
           Ex.template_doc Ex.question0
           (ExMerge.template_value [Ex.rec_abcd; Ex.rec_five]) _ _
           [Ex.rec_abcd; Ex.rec_five] (Ex.records_value [Ex.rec_abcd; Ex.rec_five]) _ _
           0%nat None
           Ht template_doc_first question0_ok depth_template_doc Hr
           ltac:(repeat constructor; [exact rec_abcd_ok | exact rec_five_ok])).
Defined.

Lemma doc_laid doc recs :
  json_wf doc -> json_wf (JArr recs) ->
  lay (alloc_json doc (st_heap (Ex.records_state recs))).2 doc
    (alloc_json doc (st_heap (Ex.records_state recs))).1
    (length (st_heap (Ex.records_state recs)))
    (length (alloc_json doc (st_heap (Ex.records_state recs))).2) /\
  lay (alloc_json doc (st_heap (Ex.records_state recs))).2 (JArr recs)
    (Ex.records_value recs) 0 (length (st_heap (Ex.records_state recs))).
Proof.
  intros Hd Hwf. pose proof (records_lay recs Hwf) as Hr.
  destruct (alloc_json doc (st_heap (Ex.records_state recs))) as [v h] eqn:E.
  destruct (alloc_json_spec _ Hd _ _ _ E) as [L F].
  split; [exact L|]. eapply lay_agree; [exact Hr|]. intros l Hl. apply F. lia.
Qed.

Lemma single_doc_first : template_ok ExMore.single_doc Ex.question0.
Proof. unfold template_ok, ExMore.single_doc. by eexists _, _. Qed.

Lemma only_first_question_matters_witness :
  exists h1' roots1 h2' roots2 gs,
    build_questions_from_mc (lib := Ex.library) 10
      (Ex.records_value [Ex.rec_abcd]) (ExMerge.template_value [Ex.rec_abcd])
      (ExMerge.start [Ex.rec_abcd])
    = (Ok (VRef (length (ExMerge.store [Ex.rec_abcd]))), State h1' 1 None) /\
    h1' !! length (ExMerge.store [Ex.rec_abcd]) = Some (OList roots1) /\
    build_questions_from_mc (lib := Ex.library) 10
      (Ex.records_value [Ex.rec_abcd])
      (alloc_json ExMore.single_doc (st_heap (Ex.records_state [Ex.rec_abcd]))).1
      (State (alloc_json ExMore.single_doc (st_heap (Ex.records_state [Ex.rec_abcd]))).2
         0 None)
    = (Ok (VRef (length (alloc_json ExMore.single_doc
                           (st_heap (Ex.records_state [Ex.rec_abcd]))).2)),
       State h2' 1 None) /\
    h2' !! length (alloc_json ExMore.single_doc
                     (st_heap (Ex.records_state [Ex.rec_abcd]))).2
    = Some (OList roots2) /\
    Forall2 (reads h1') roots1 gs /\
    Forall2 (reads h2') roots2 gs.
Proof.
  destruct (example_laid [Ex.rec_abcd]) as [Ht1 Hr1]; [solve_wf|].
  destruct (doc_laid ExMore.single_doc [Ex.rec_abcd]) as [Ht2 Hr2]; [solve_wf..|].
  exact (only_first_question_matters (lib := Ex.library) 10 Ex.question0 [Ex.rec_abcd] 0%nat
           _ Ex.template_doc _ _ _ _ _ _ None
           _ ExMore.single_doc _ _ _ _ _ _ None
           question0_ok ltac:(repeat constructor; exact rec_abcd_ok)
           Ht1 template_doc_first depth_template_doc Hr1
           Ht2 single_doc_first ltac:(vm_compute; lia) Hr2).
Defined.

Lemma content_entry_is_projection_witness :
  exists h' gs g0 g1 new_content_bytes,
    create_h5p_from_template (lib := Ex.library) 10 Ex.archive
      (Ex.records_value [Ex.rec_abcd; Ex.rec_three])
      (Ex.records_state [Ex.rec_abcd; Ex.rec_three])
    = (Ok tt,
       State h' 2 (Some (output_entry Ex.archive new_content_bytes <$> Ex.archive))) /\
    Ex.encode (Ex.dumps (JObj (dict_set "questions" (JArr gs)
                                 [("introPage", JObj [("showIntroPage", JBool false)]);
                                  ("questions", JArr [Ex.question0; Ex.question0]);
                                  ("passPercentage", JInt 50)])))
    = Ok new_content_bytes /\
    gs = [g0; g1] /\
    project Ex.question0 Ex.rec_abcd 1 "uuid-0" = Some g0 /\
    project Ex.question0 Ex.rec_three 2 "uuid-1" = Some g1.
Proof.
  destruct (content_entry_is_projection (lib := Ex.library) 10 Ex.archive
              (String.list_byte_of_string "template") "template"
              [("introPage", JObj [("showIntroPage", JBool false)]);
               ("questions", JArr [Ex.question0; Ex.question0]);
               ("passPercentage", JInt 50)]
              Ex.question0 [Ex.question0] [Ex.rec_abcd; Ex.rec_three]
              (Ex.records_value [Ex.rec_abcd; Ex.rec_three]) 0%nat
              (length (st_heap (Ex.records_state [Ex.rec_abcd; Ex.rec_three])))
              (st_heap (Ex.records_state [Ex.rec_abcd; Ex.rec_three])) 0%nat None)
    as (h' & gs & E & Hlen & Hall).
  - reflexivity.
  - reflexivity.
  - reflexivity.
  - reflexivity.
  - exact question0_ok.
  - vm_compute. lia.
  - apply records_lay. solve_wf.
  - repeat constructor; [exact rec_abcd_ok | exact rec_three_ok].
  - exact archive_readable.
  - destruct (Hall 0%nat _ eq_refl) as (g0 & Hg0 & P0).
    destruct (Hall 1%nat _ eq_refl) as (g1 & Hg1 & P1).
    destruct (utf8_encode _) as [new_content_bytes|e] eqn:Eenc in E;
      [|vm_compute in E; discriminate E].
    exists h', gs, g0, g1, new_content_bytes.
    split; [exact E|]. split; [exact Eenc|]. split; [|split; [exact P0 | exact P1]].
    destruct gs as [|x [|y [|z gs]]]; try discriminate Hlen.
    simpl in Hg0, Hg1. congruence.
Defined.

Lemma records_survive_the_merge_witness :
  exists gs s',
    Some <$> gs
    = merged_questions (lib := Ex.library) Ex.question0 0 [Ex.rec_abcd; Ex.rec_three] /\
    create_h5p_from_template (lib := Ex.library) 10 Ex.archive
      (Ex.records_value [Ex.rec_abcd; Ex.rec_three])
      (Ex.records_state [Ex.rec_abcd; Ex.rec_three])
    = (Ok tt, s') /\
    (forall l, (l < length (st_heap (Ex.records_state [Ex.rec_abcd; Ex.rec_three])))%nat ->
       st_heap s' !! l = st_heap (Ex.records_state [Ex.rec_abcd; Ex.rec_three]) !! l) /\
    (forall n, to_json n (Ex.records_value [Ex.rec_abcd; Ex.rec_three]) (st_heap s')
               = to_json n (Ex.records_value [Ex.rec_abcd; Ex.rec_three])
                   (st_heap (Ex.records_state [Ex.rec_abcd; Ex.rec_three]))) /\
    reads (st_heap s') (Ex.records_value [Ex.rec_abcd; Ex.rec_three])
      (JArr [Ex.rec_abcd; Ex.rec_three]).
Proof.
  destruct (records_survive_the_merge (lib := Ex.library) 10 Ex.archive
              (String.list_byte_of_string "template") "template"
              [("introPage", JObj [("showIntroPage", JBool false)]);
               ("questions", JArr [Ex.question0; Ex.question0]);
               ("passPercentage", JInt 50)]
              Ex.question0 [Ex.question0] [Ex.rec_abcd; Ex.rec_three]
              (Ex.records_value [Ex.rec_abcd; Ex.rec_three]) 0%nat
              (length (st_heap (Ex.records_state [Ex.rec_abcd; Ex.rec_three])))
              (st_heap (Ex.records_state [Ex.rec_abcd; Ex.rec_three])) 0%nat None)
    as (gs & s' & Hgs & E & F1 & F2 & Hr).
  - reflexivity.
  - reflexivity.
  - reflexivity.
  - reflexivity.
  - exact question0_ok.
  - vm_compute. lia.
  - apply records_lay. solve_wf.
  - repeat constructor; [exact rec_abcd_ok | exact rec_three_ok].
  - exact archive_readable.
  - destruct (utf8_encode _) as [new_content_bytes|e] in E;
      [|vm_compute in E; discriminate E].
    exists gs, s'. split; [exact Hgs|]. split; [exact E|].
    split; [exact F1|]. split; [exact F2 | exact Hr].
Defined.

Lemma copy_reads_members_by_name_witness :
  exists gs new_content_bytes entries,
    Some <$> gs = merged_questions (lib := Ex.library) Ex.question0 0 [] /\
    Ex.encode (Ex.dumps (JObj (dict_set "questions" (JArr gs)
                                 [("introPage", JObj [("showIntroPage", JBool false)]);
                                  ("questions", JArr [Ex.question0; Ex.question0]);
                                  ("passPercentage", JInt 50)])))
    = Ok new_content_bytes /\
    st_out (create_h5p_from_template (lib := Ex.library) 10 ExArchives.repeated
              (Ex.records_value []) (Ex.records_state [])).2
    = Some entries /\
    entries.*1 = [content_path; "notes.txt"; "notes.txt"] /\
    Forall2 (fun m e =>
               if String.eqb (zm_filename m) content_path
               then e.2 = new_content_bytes
               else zip_read ExArchives.repeated (zm_filename m) = Ok (e.2))
      ExArchives.repeated entries.
Proof.
  apply (copy_reads_members_by_name (lib := Ex.library) 10 ExArchives.repeated
           (String.list_byte_of_string "template") "template"
           [("introPage", JObj [("showIntroPage", JBool false)]);
            ("questions", JArr [Ex.question0; Ex.question0]);
            ("passPercentage", JInt 50)]
           Ex.question0 [Ex.question0] []
           (Ex.records_value []) 0%nat
           (length (st_heap (Ex.records_state [])))
           (st_heap (Ex.records_state [])) 0%nat None).
  - reflexivity.
  - reflexivity.
  - reflexivity.
  - reflexivity.
  - exact question0_params.
  - left. reflexivity.
  - vm_compute. lia.
  - apply (records_lay []). solve_wf.
  - constructor.
  - vm_compute. reflexivity.
Defined.

Lemma non_object_response_raises_attribute_error_witness :
  exists s',
    clean_and_parse_questions (lib := ExMore.library) (Ok "list") ExMore.start
    = (Raise AttributeError, s') /\
    st_uuid s' = 0%nat /\ st_out s' = None.
Proof.
  apply (non_object_response_raises_attribute_error (lib := ExMore.library)
           "list" ExMore.list_doc ExMore.start).
  - reflexivity.
  - intros H. exact H.
Defined.

Lemma skeleton_without_params_raises_key_error_witness :
  exists s',
    create_h5p_from_template (lib := ExMore.library) 10 ExMore.noparams
      (Ex.records_value []) (Ex.records_state [])
    = (Raise KeyError, s') /\
    st_uuid s' = 0%nat /\ st_out s' = None.
Proof.
  apply (skeleton_without_params_raises_key_error (lib := ExMore.library) 10 ExMore.noparams
           (String.list_byte_of_string "noparams") "noparams"
           [("questions", JArr [JObj [("library", JStr "H5P.MultiChoice 1.16")]])]
           [("library", JStr "H5P.MultiChoice 1.16")] []).
  - reflexivity.
  - reflexivity.
  - reflexivity.
  - reflexivity.
  - reflexivity.
Defined.

Lemma record_without_field_raises_key_error_witness :
  exists h',
    create_h5p_from_template (lib := Ex.library) 10 Ex.archive
      (Ex.records_value [Ex.rec_abcd; JObj ExMore.untitled])
      (Ex.records_state [Ex.rec_abcd; JObj ExMore.untitled])
    = (Raise KeyError, State h' 1 None) /\
    (forall l,
       (l < length (st_heap (Ex.records_state [Ex.rec_abcd; JObj ExMore.untitled])))%nat ->
       h' !! l = st_heap (Ex.records_state [Ex.rec_abcd; JObj ExMore.untitled]) !! l).
Proof.
  apply (record_without_field_raises_key_error (lib := Ex.library) 10 Ex.archive
           (String.list_byte_of_string "template") "template"
           [("introPage", JObj [("showIntroPage", JBool false)]);
            ("questions", JArr [Ex.question0; Ex.question0]);
            ("passPercentage", JInt 50)]
           Ex.question0 [Ex.question0] [Ex.rec_abcd] ExMore.untitled []
           (Ex.records_value [Ex.rec_abcd; JObj ExMore.untitled]) 0%nat
           (length (st_heap (Ex.records_state [Ex.rec_abcd; JObj ExMore.untitled])))
           (st_heap (Ex.records_state [Ex.rec_abcd; JObj ExMore.untitled])) 0%nat None).
  - reflexivity.
  - reflexivity.
  - reflexivity.
  - reflexivity.
  - exact question0_ok.
  - vm_compute. lia.
  - apply (records_lay [Ex.rec_abcd; JObj ExMore.untitled]). solve_wf.
  - repeat constructor. exact rec_abcd_ok.
  - left. reflexivity.
Defined.

Lemma unmarked_question_is_not_flagged_witness :
  exists h' roots gs items g q evs,
    build_questions_from_mc (lib := Ex.library) 10
      (Ex.records_value [Ex.rec_five]) (ExMerge.template_value [Ex.rec_five])
      (ExMerge.start [Ex.rec_five])
    = (Ok (VRef (length (ExMerge.store [Ex.rec_five]))), State h' 1 None) /\
    h' !! length (ExMerge.store [Ex.rec_five]) = Some (OList roots) /\
    Forall2 (reads h') roots gs /\
    py_iter (Ex.records_value [Ex.rec_five]) h' = Ok items /\
    gs !! 0%nat = Some g /\
    answers_of g
    = Some (JArr ((fun text =>
                     JObj [("text", text); ("correct", JBool false);
                           ("tipsAndFeedback",
                            JObj [("tip", JStr ""); ("chosenFeedback", JStr "")])])
                  <$> [JStr "1"; JStr "2"; JStr "3"; JStr "4"; JStr "5"])) /\
    items !! 0%nat = Some q /\
    show_question q (State h' 1 None) = (evs, Done tt, State h' 1 None) /\
    (Shown UiWarning ∉ evs) /\
    forall marked label ans, Shown (UiAnswer marked label ans) ∈ evs -> marked = false.
Proof.
  destruct (example_laid [Ex.rec_five]) as [Ht Hr]; [solve_wf|].
  destruct (unmarked_question_is_not_flagged (lib := Ex.library) 10
              (ExMerge.store [Ex.rec_five])
              Ex.template_doc Ex.question0 (ExMerge.template_value [Ex.rec_five]) _ _
              [Ex.rec_five] (Ex.records_value [Ex.rec_five]) _ _ 0%nat None
              Ht template_doc_first question0_ok depth_template_doc Hr
              ltac:(repeat constructor; exact rec_five_ok))
    as (h' & roots & gs & items & E & Hnq & HF & Hit & Hall).
  destruct (Hall 0%nat _ _ (JInt 7) _ eq_refl eq_refl eq_refl
              ltac:(right; simpl; lia) ltac:(vm_compute; discriminate) eq_refl)
    as [(g & Hg & Ha) (q & evs & Hq & Hs & Hw & Hm)].
  exists h', roots, gs, items, g, q, evs. split; [exact E|]. split; [exact Hnq|].
  split; [exact HF|]. split; [exact Hit|]. split; [exact Hg|]. split; [exact Ha|].
  split; [exact Hq|]. split; [exact Hs|]. split; [exact Hw | exact Hm].
Defined.

Lemma empty_extraction_stops_before_merge_witness :
  exists h',
    convert_button (lib := ExMore.library) (plat := ExMore.platform) 10
      (ExMore.input (Ok "empty")) ExMore.start
    = ([StStatus; StatusWrite Analysing; StatusUpdate false; StError AnalysisFailed],
       Stopped, State h' 0 None).
Proof.
  apply (empty_extraction_stops_before_merge (lib := ExMore.library)
           (plat := ExMore.platform) 10 (ExMore.input (Ok "empty")) "empty"
           [("questions", JArr [])] ExMore.start).
  - intros H. vm_compute in H. discriminate H.
  - intros H. vm_compute in H. discriminate H.
  - reflexivity.
  - reflexivity.
  - reflexivity.
Defined.

Lemma records_doc_records :
  Forall record_ok [Ex.rec_abcd; Ex.rec_three] /\
  Forall answers_fit [Ex.rec_abcd; Ex.rec_three].
Proof.
  split.
  - repeat constructor; [exact rec_abcd_ok | exact rec_three_ok].
  - repeat constructor; intros texts [= <-]; vm_compute; discriminate.
Qed.

Lemma page_offers_the_merged_archive_witness :
  exists h' gs new_content_bytes,
    convert_button (lib := ExMore.library) (plat := ExMore.platform) 10
      (ExMore.input (Ok "records")) (State [] 0 None)
    = ([StStatus; StatusWrite Analysing; StatusWrite (Received 2);
        StatusWrite Building; StatusWrite (Created "quiz-from-text-uuid-0.h5p");
        StatusUpdate true; StMarkdown]
       ++ concat (imap (fun k r => StExpander (S k) :: (Shown <$> record_lines r))
                    [Ex.rec_abcd; Ex.rec_three])
       ++ [StDownloadButton (output_entry Ex.archive new_content_bytes <$> Ex.archive)
             "quiz-from-text-uuid-0.h5p"],
       Done tt, State h' 3 None) /\
    Ex.encode (Ex.dumps (JObj (dict_set "questions" (JArr gs)
                                 [("introPage", JObj [("showIntroPage", JBool false)]);
                                  ("questions", JArr [Ex.question0; Ex.question0]);
                                  ("passPercentage", JInt 50)])))
    = Ok new_content_bytes /\
    length gs = 2%nat /\
    forall k r, [Ex.rec_abcd; Ex.rec_three] !! k = Some r ->
      exists g, gs !! k = Some g /\
        project Ex.question0 r (S k) (Ex.token (1 + k)) = Some g.
Proof.
  destruct records_doc_records as [Hok Hfit].
  destruct (page_offers_the_merged_archive (lib := ExMore.library) (plat := ExMore.platform)
              10 (ExMore.input (Ok "records")) "records"
              [("questions", JArr [Ex.rec_abcd; Ex.rec_three])]
              [Ex.rec_abcd; Ex.rec_three]
              (String.list_byte_of_string "quiz-template") Ex.archive
              (String.list_byte_of_string "template") "template"
              [("introPage", JObj [("showIntroPage", JBool false)]);
               ("questions", JArr [Ex.question0; Ex.question0]);
               ("passPercentage", JInt 50)]
              Ex.question0 [Ex.question0] [] 0%nat None
              ltac:(intros H; vm_compute in H; discriminate H)
              ltac:(intros H; vm_compute in H; discriminate H)
              eq_refl eq_refl eq_refl
              ltac:(intros H; discriminate H)
              Hok Hfit eq_refl eq_refl eq_refl eq_refl eq_refl eq_refl
              question0_ok ltac:(vm_compute; lia) archive_readable)
    as (h' & gs & E & Hlen & Hall).
  destruct (utf8_encode _) as [new_content_bytes|e] eqn:Eenc in E;
    [|vm_compute in E; discriminate E].
  exists h', gs, new_content_bytes.
  split; [exact E|]. split; [exact Eenc|]. split; [exact Hlen | exact Hall].
Defined.

(** A record whose answer holds a lone surrogate: the question is
    built and its token drawn, then [str.encode] raises and no output
    is opened; the page reports the error and offers no download. *)
Lemma lone_surrogate_is_refused :
  record_ok ExMore.rec_surrogate /\
  (create_h5p_from_template (lib := ExMore.library) 10 Ex.archive
     (Ex.records_value [ExMore.rec_surrogate])
     (Ex.records_state [ExMore.rec_surrogate])).1 = Raise UnicodeEncodeError /\
  st_uuid (create_h5p_from_template (lib := ExMore.library) 10 Ex.archive
             (Ex.records_value [ExMore.rec_surrogate])
             (Ex.records_state [ExMore.rec_surrogate])).2 = 1%nat /\
  st_out (create_h5p_from_template (lib := ExMore.library) 10 Ex.archive
            (Ex.records_value [ExMore.rec_surrogate])
            (Ex.records_state [ExMore.rec_surrogate])).2 = None /\
  (convert_button (lib := ExMore.library) (plat := ExMore.platform) 10
     (ExMore.input (Ok "surrogate")) ExMore.start).1
  = ([StStatus; StatusWrite Analysing; StatusWrite (Received 1); StatusWrite Building;
      StError (SomethingWrong (Raised UnicodeEncodeError))], Done tt).
Proof.
  split.
  { unfold record_ok, ExMore.rec_surrogate. eexists _, _, _.
    split; [done|]. split; [done|]. split; [done|]. split; [done|]. by repeat constructor. }
  repeat split; vm_compute; reflexivity.
Qed.

Lemma download_offers_complete_archive_witness :
  (convert_button (lib := ExMore.library) (plat := ExMore.platform) 10
     (ExMore.input (Ok "records")) ExMore.start).1.2 = Done tt /\
  st_out (convert_button (lib := ExMore.library) (plat := ExMore.platform) 10
            (ExMore.input (Ok "records")) ExMore.start).2 = None /\
  exists pre template zin out_doc new_content_bytes,
    (convert_button (lib := ExMore.library) (plat := ExMore.platform) 10
       (ExMore.input (Ok "records")) ExMore.start).1.1
    = pre ++ [StDownloadButton ExMore.offered "quiz-from-text-uuid-0.h5p"] /\
    Forall quiet pre /\
    chosen_template (ExMore.input (Ok "records")) = Some template /\
    ExMore.unzip template = Ok zin /\
    "quiz-from-text-uuid-0.h5p" = output_name_of (Ex.token 0) /\
    Ex.encode (Ex.dumps out_doc) = Ok new_content_bytes /\
    ExMore.offered.*1 = zm_filename <$> zin /\
    Forall2 (fun m e =>
               if String.eqb (zm_filename m) content_path
               then e.2 = new_content_bytes
               else zip_read zin (zm_filename m) = Ok (e.2)) zin ExMore.offered.
Proof.
  apply (download_offers_complete_archive (lib := ExMore.library) (plat := ExMore.platform)
           10 (ExMore.input (Ok "records")) ExMore.start).
  - by destruct (convert_button (lib := ExMore.library) (plat := ExMore.platform) 10
                   (ExMore.input (Ok "records")) ExMore.start) as [[evs r] s'].
  - apply list_elem_of_lookup_2 with 19%nat. vm_compute. reflexivity.
Defined.

Lemma reported_failure_ends_the_run_witness :
  (convert_button (lib := ExMore.library) (plat := ExMore.platform) 10
     (ExMore.input (Ok "response")) ExMore.start).1.2 = Done tt /\
  st_out (convert_button (lib := ExMore.library) (plat := ExMore.platform) 10
            (ExMore.input (Ok "response")) ExMore.start).2 = None /\
  exists pre,
    (convert_button (lib := ExMore.library) (plat := ExMore.platform) 10
       (ExMore.input (Ok "response")) ExMore.start).1.1
    = pre ++ [StError (SomethingWrong (Raised KeyError))] /\
    Forall quiet pre /\
    with_tmpdir (conversion (lib := ExMore.library) (plat := ExMore.platform) 10
                   (ExMore.input (Ok "response"))) ExMore.start
    = (pre, Failed (Raised KeyError),
       (convert_button (lib := ExMore.library) (plat := ExMore.platform) 10
          (ExMore.input (Ok "response")) ExMore.start).2).
Proof.
  apply (reported_failure_ends_the_run (lib := ExMore.library) (plat := ExMore.platform)
           10 (ExMore.input (Ok "response")) ExMore.start).
  - by destruct (convert_button (lib := ExMore.library) (plat := ExMore.platform) 10
                   (ExMore.input (Ok "response")) ExMore.start) as [[evs r] s'].
  - apply list_elem_of_lookup_2 with 4%nat. vm_compute. reflexivity.
Defined.

(** ** A generated quiz as template, and boolean indices *)

Lemma dict_set_set {A} k (v w : A) kvs :
  dict_set k v (dict_set k w kvs) = dict_set k v kvs.
Proof.
  induction kvs as [|[k' v'] kvs IH]; simpl.
  - by rewrite String.eqb_refl.
  - destruct (String.eqb k k') eqn:E; simpl; rewrite E; [done|]. by rewrite IH.
Qed.

Lemma dict_set_comm {A} k k' (v v' : A) kvs :
  k <> k' -> k ∈ kvs.*1 ->
  dict_set k v (dict_set k' v' kvs) = dict_set k' v' (dict_set k v kvs).
Proof.
  intros Hne. induction kvs as [|[k0 v0] kvs IH]; simpl; intros Hin.
  - by apply elem_of_nil in Hin.
  - destruct (String.eqb k' k0) eqn:E'; destruct (String.eqb k k0) eqn:E; simpl;
      rewrite ?E, ?E'; try done.
    + apply String.eqb_eq in E, E'. congruence.
    + apply String.eqb_neq in E. apply elem_of_cons in Hin as [?|Hin]; [done|].
      by rewrite IH.
Qed.

Lemma dict_set_in {A} k (v : A) kvs : k ∈ (dict_set k v kvs).*1.
Proof.
  induction kvs as [|[k' v'] kvs IH]; simpl.
  - by left.
  - destruct (String.eqb k k') eqn:E; simpl.
    + apply String.eqb_eq in E. subst. by left.
    + by right.
Qed.

Lemma dict_set_in_other {A} k k' (v' : A) kvs :
  k ∈ kvs.*1 -> k ∈ (dict_set k' v' kvs).*1.
Proof.
  induction kvs as [|[k0 v0] kvs IH]; simpl; intros Hin.
  - by apply elem_of_nil in Hin.
  - destruct (String.eqb k' k0); simpl; [done|].
    apply elem_of_cons in Hin as [->|Hin]; [by left | right; by apply IH].
Qed.

(** Two fields set again, in the order in which they were set. *)
Lemma dict_set_again2 {A} k1 k2 (v1 v2 w1 w2 : A) kvs :
  k1 <> k2 ->
  dict_set k2 v2 (dict_set k1 v1 (dict_set k2 w2 (dict_set k1 w1 kvs)))
  = dict_set k2 v2 (dict_set k1 v1 kvs).
Proof.
  intros Hne.
  rewrite (dict_set_comm k1 k2) by (done || apply dict_set_in).
  by rewrite !dict_set_set.
Qed.

Lemma dict_set_again3 {A} k1 k2 k3 (v1 v2 v3 w1 w2 w3 : A) kvs :
  k1 <> k2 -> k1 <> k3 -> k2 <> k3 ->
  dict_set k3 v3 (dict_set k2 v2 (dict_set k1 v1
    (dict_set k3 w3 (dict_set k2 w2 (dict_set k1 w1 kvs)))))
  = dict_set k3 v3 (dict_set k2 v2 (dict_set k1 v1 kvs)).
Proof.
  intros H12 H13 H23.
  rewrite (dict_set_comm k1 k3) by (done || apply dict_set_in_other, dict_set_in).
  rewrite (dict_set_comm k2 k3 v2) by (done || apply dict_set_in_other, dict_set_in).
  rewrite dict_set_set.
  by rewrite dict_set_again2.
Qed.

Lemma answer_entry_again ak ci0 t0 ci idx t :
  answer_entry (dict_set "correct" (JBool (json_eq_int 0 ci0)) (dict_set "text" t0 ak))
    ci idx t
  = answer_entry ak ci idx t.
Proof. unfold answer_entry. by rewrite dict_set_again2. Qed.

(** A generated question used as skeleton: the projection of a record
    on it is the projection on the skeleton it came from. *)
Lemma project_again base_q r0 i0 t0 g0 r i t :
  project base_q r0 i0 t0 = Some g0 ->
  (exists text0 rest0, field "answers" r0 = Some (JArr (text0 :: rest0))) ->
  project g0 r i t = project base_q r i t.
Proof.
  intros H0 (text0 & rest0 & Ht0).
  apply project_inv in H0 as (qk & rk0 & pk & mk & ak & arest & question0 & texts0
    & -> & -> & Hp & Hm & Ha & Hq0 & Hta0 & ->).
  simpl in Ht0. rewrite Hta0 in Ht0. injection Ht0 as ->.
  unfold project.
  destruct r as [ | | | | | |rk]; try done.
  rewrite (dict_lookup_set_ne "subContentId" "params") by done.
  rewrite (dict_lookup_set_ne "metadata" "params") by done.
  rewrite dict_lookup_set_eq.
  rewrite (dict_lookup_set_ne "subContentId" "metadata") by done.
  rewrite dict_lookup_set_eq.
  rewrite Hp, Hm.
  destruct (dict_lookup "question" rk) as [question|]; [|done].
  destruct (dict_lookup "answers" rk) as [[ | | | | |texts| ]|]; try done.
  rewrite dict_lookup_set_eq. rewrite Ha.
  rewrite imap_cons. unfold answer_entry at 1. simpl Z.of_nat.
  do 2 f_equal.
  rewrite dict_set_again3 by done.
  rewrite (dict_set_again2 "title" "extraTitle") by done.
  rewrite (dict_set_again2 "question" "answers") by done.
  erewrite (imap_ext (answer_entry (dict_set "correct" _ _) _)); [reflexivity|].
  intros k x _. apply answer_entry_again.
Qed.

Lemma project_skeleton_ok base_q r0 i0 t0 g0 :
  project base_q r0 i0 t0 = Some g0 ->
  (exists text0 rest0, field "answers" r0 = Some (JArr (text0 :: rest0))) ->
  skeleton_ok g0.
Proof.
  intros H0 (text0 & rest0 & Ht0).
  apply project_inv in H0 as (qk & rk0 & pk & mk & ak & arest & question0 & texts0
    & -> & -> & Hp & Hm & Ha & Hq0 & Hta0 & ->).
  simpl in Ht0. rewrite Hta0 in Ht0. injection Ht0 as ->.
  unfold skeleton_ok. eexists _, _, _, _, _. split; [reflexivity|].
  split; [|split].
  - rewrite (dict_lookup_set_ne "subContentId" "params") by done.
    rewrite (dict_lookup_set_ne "metadata" "params") by done.
    apply dict_lookup_set_eq.
  - rewrite (dict_lookup_set_ne "subContentId" "metadata") by done.
    apply dict_lookup_set_eq.
  - rewrite dict_lookup_set_eq. rewrite imap_cons. reflexivity.
Qed.

Section Regenerated.
Context {lib : Library}.

Variables (fuel : nat) (h0 : heap) (doc base_q : json) (template_content : val)
  (ta tb : nat) (recs : list json) (mc_questions : val) (ra rb : nat)
  (u : nat) (o : option (list (string * bytes))).
Variables (g0 r0 : json) (i0 : nat) (t0 : string).
Hypothesis generated : project base_q r0 i0 t0 = Some g0.
Hypothesis answered : exists text0 rest0, field "answers" r0 = Some (JArr (text0 :: rest0)).
Hypothesis template_laid : lay h0 doc template_content ta tb.
Hypothesis template_first : template_ok doc g0.
Hypothesis fuel_enough : (depth doc <= fuel)%nat.
Hypothesis records_laid : lay h0 (JArr recs) mc_questions ra rb.
Hypothesis records_typed : Forall record_ok recs.

(** X16.  A generated quiz is a template again.  When the first
    question of the template was itself generated, from a skeleton
    [base_q] and a record with at least one answer, the merge gives
    for every record the question it gives with [base_q] as
    skeleton. *)
Theorem generated_question_is_a_skeleton :
  exists h' roots gs,
    build_questions_from_mc fuel mc_questions template_content (State h0 u o)
    = (Ok (VRef (length h0)), State h' (u + length recs) o) /\
    h' !! length h0 = Some (OList roots) /\
    Forall2 (reads h') roots gs /\
    length gs = length recs /\
    forall k r, recs !! k = Some r ->
      exists g, gs !! k = Some g /\ project base_q r (S k) (uuid4 (u + k)) = Some g.
Proof.
  pose proof (project_skeleton_ok _ _ _ _ _ generated answered) as Hsk.
  destruct (merge_result fuel h0 doc g0 template_content ta tb recs mc_questions ra rb u o)
    as (h' & roots & gs & E & F & Hnq & Hch & Hgs); try done.
  exists h', roots, gs. split; [done|]. split; [done|].
  split; [by eapply chain_reads|].
  split; [by eapply merged_questions_length|].
  intros k r Hr.
  destruct (merged_record g0 u recs gs k r Hgs Hr) as (g & Hg & Hp).
  exists g. split; [done|].
  by rewrite <- (project_again _ _ _ _ _ _ _ _ generated answered).
Qed.

End Regenerated.

Section BooleanIndex.
Context {lib : Library}.

Variables (fuel : nat) (h0 : heap) (doc base_q : json) (template_content : val)
  (ta tb : nat) (recs : list json) (mc_questions : val) (ra rb : nat)
  (u : nat) (o : option (list (string * bytes))).
Hypothesis template_laid : lay h0 doc template_content ta tb.
Hypothesis template_first : template_ok doc base_q.
Hypothesis skeleton : skeleton_ok base_q.
Hypothesis fuel_enough : (depth doc <= fuel)%nat.
Hypothesis records_laid : lay h0 (JArr recs) mc_questions ra rb.
Hypothesis records_typed : Forall record_ok recs.

(** X17.  A [correct_index] that is a JSON boolean counts as a number:
    [true] marks the second answer and [false] the first. *)
Theorem boolean_index_counts_as_number :
  exists h' roots gs,
    build_questions_from_mc fuel mc_questions template_content (State h0 u o)
    = (Ok (VRef (length h0)), State h' (u + length recs) o) /\
    h' !! length h0 = Some (OList roots) /\
    Forall2 (reads h') roots gs /\
    forall k rk texts b a0,
      recs !! k = Some (JObj rk) ->
      dict_lookup "answers" rk = Some (JArr texts) ->
      dict_lookup "correct_index" rk = Some (JBool b) ->
      first_answer base_q = Some (JObj a0) ->
      exists g, gs !! k = Some g /\
        answers_of g
        = Some (JArr (imap (fun idx text =>
                              JObj (dict_set "correct"
                                      (JBool (Z.of_nat idx =? (if b then 1 else 0)))
                                      (dict_set "text" text a0))) texts)).
Proof.
  destruct (merge_result fuel h0 doc base_q template_content ta tb recs mc_questions ra rb u o)
    as (h' & roots & gs & E & _ & Hnq & Hch & Hgs); try done.
  exists h', roots, gs. split; [done|]. split; [done|].
  split; [by eapply chain_reads|].
  intros k rk texts b a0 Hr Ht Hc Ha0.
  destruct (merged_answers base_q u recs gs k rk texts a0 Hgs Hr Ht Ha0) as (g & Hg & Ha).
  exists g. split; [done|]. by rewrite Ha, Hc.
Qed.

End BooleanIndex.

Lemma regenerated_first : template_ok ExAgain.regenerated_doc ExAgain.regenerated.
Proof. unfold template_ok, ExAgain.regenerated_doc. by eexists _, _. Qed.

Lemma generated_question_is_a_skeleton_witness :
  exists h' roots gs,
    build_questions_from_mc (lib := Ex.library) 10
      (Ex.records_value [Ex.rec_three; Ex.rec_five])
      (alloc_json ExAgain.regenerated_doc
         (st_heap (Ex.records_state [Ex.rec_three; Ex.rec_five]))).1
      (State (alloc_json ExAgain.regenerated_doc
                (st_heap (Ex.records_state [Ex.rec_three; Ex.rec_five]))).2 0 None)
    = (Ok (VRef (length (alloc_json ExAgain.regenerated_doc
                           (st_heap (Ex.records_state [Ex.rec_three; Ex.rec_five]))).2)),
       State h' 2 None) /\
    h' !! length (alloc_json ExAgain.regenerated_doc
                    (st_heap (Ex.records_state [Ex.rec_three; Ex.rec_five]))).2
    = Some (OList roots) /\
    Forall2 (reads h') roots gs /\
    length gs = 2%nat /\
    forall k r, [Ex.rec_three; Ex.rec_five] !! k = Some r ->
      exists g, gs !! k = Some g /\
        project Ex.question0 r (S k) (Ex.token (0 + k)) = Some g.
Proof.
  destruct (doc_laid ExAgain.regenerated_doc [Ex.rec_three; Ex.rec_five])
    as [Ht Hr]; [solve_wf..|].
  exact (generated_question_is_a_skeleton (lib := Ex.library) 10 _
           ExAgain.regenerated_doc Ex.question0 _ _ _
           [Ex.rec_three; Ex.rec_five] (Ex.records_value [Ex.rec_three; Ex.rec_five]) _ _
           0%nat None ExAgain.regenerated Ex.rec_abcd 1%nat (Ex.token 0)
           eq_refl ltac:(by eexists _, _)
           Ht regenerated_first ltac:(vm_compute; lia) Hr
           ltac:(repeat constructor; [exact rec_three_ok | exact rec_five_ok])).
Defined.

Lemma rec_bool_ok : record_ok ExAgain.rec_bool.
Proof.
  unfold record_ok, ExAgain.rec_bool. eexists _, _, _.
  split; [done|]. split; [done|]. split; [done|]. split; [done|]. by repeat constructor.
Qed.

Lemma boolean_index_counts_as_number_witness :
  exists h' roots gs g,
    build_questions_from_mc (lib := Ex.library) 10
      (Ex.records_value [ExAgain.rec_bool]) (ExMerge.template_value [ExAgain.rec_bool])
      (ExMerge.start [ExAgain.rec_bool])
    = (Ok (VRef (length (ExMerge.store [ExAgain.rec_bool]))), State h' 1 None) /\
    h' !! length (ExMerge.store [ExAgain.rec_bool]) = Some (OList roots) /\
    Forall2 (reads h') roots gs /\
    gs !! 0%nat = Some g /\
    answers_of g
    = Some (JArr [JObj [("text", JStr "false"); ("correct", JBool false);
                        ("tipsAndFeedback", JObj [("tip", JStr ""); ("chosenFeedback", JStr "")])];
                  JObj [("text", JStr "true"); ("correct", JBool true);
                        ("tipsAndFeedback", JObj [("tip", JStr ""); ("chosenFeedback", JStr "")])]]).
Proof.
  destruct (example_laid [ExAgain.rec_bool]) as [Ht Hr]; [solve_wf|].
  destruct (boolean_index_counts_as_number (lib := Ex.library) 10
              (ExMerge.store [ExAgain.rec_bool])
              Ex.template_doc Ex.question0 (ExMerge.template_value [ExAgain.rec_bool]) _ _
              [ExAgain.rec_bool] (Ex.records_value [ExAgain.rec_bool]) _ _ 0%nat None
              Ht template_doc_first question0_ok depth_template_doc Hr
              ltac:(repeat constructor; exact rec_bool_ok))
    as (h' & roots & gs & E & Hnq & HF & Hall).
  destruct (Hall 0%nat _ _ true _ eq_refl eq_refl eq_refl eq_refl) as (g & Hg & Ha).
  exists h', roots, gs, g. split; [exact E|]. split; [exact Hnq|].
  split; [exact HF|]. split; [exact Hg | exact Ha].
Defined.
